(** * RoboVac Home Assistant integration: translation engine and update controller

    A shallow embedding of [custom_components/robovac/robovac.py] (the
    [RoboVac] device: command tables, DP-code table, value translation) and of
    [custom_components/robovac/vacuum.py] (the [RoboVacEntity]: activity
    derivation, state attributes, poll/push update path), together with the
    model tables of [vacuums/] (T2080, T2193, T2276, T2278, T2320).

    Conventions.
    - Python values that travel through data points, command tables and entity
      attributes are the scalars [None], [bool], [int] and [str] ([PyVal]);
      the source annotates them [str] or [int | str | None].  Floating point
      numbers and unhashable containers are outside the model.
    - A Python [dict] whose keys are compared with [==] across types is an
      association list ([PyDict]); a [dict] keyed by plain strings (the DP
      snapshot, the DP-code table, the activity mapping, the state attributes)
      is a [gmap string _].
    - Code that can raise returns a [Res]; [try]/[except] is [try_except].
      Entity methods run in the monad [M]: entity state in, outcome, entity
      state and emitted log records out.
    - Only warning- and error-level log records are kept; debug records are
      dropped. *)

From Stdlib Require Import ZArith String Ascii List Bool DecimalString Lia.
From stdpp Require Import base gmap strings.

Local Open Scope string_scope.
Local Open Scope Z_scope.

(** ** Python scalars *)

Inductive PyVal : Type :=
| PyNone
| PyBool (b : bool)
| PyInt (z : Z)
| PyStr (s : string).

Definition int_of_bool (b : bool) : Z := if b then 1 else 0.

(** [a == b]: booleans are integers, nothing else crosses types. *)
Definition py_eq (a b : PyVal) : bool :=
  match a, b with
  | PyNone, PyNone => true
  | PyBool x, PyBool y => Bool.eqb x y
  | PyBool x, PyInt y => int_of_bool x =? y
  | PyInt x, PyBool y => x =? int_of_bool y
  | PyInt x, PyInt y => x =? y
  | PyStr x, PyStr y => String.eqb x y
  | _, _ => false
  end.

(** [bool(a)] *)
Definition py_truthy (a : PyVal) : bool :=
  match a with
  | PyNone => false
  | PyBool b => b
  | PyInt z => negb (z =? 0)
  | PyStr s => negb (String.eqb s EmptyString)
  end.

(** [str(a)] *)
Definition py_str (a : PyVal) : string :=
  match a with
  | PyNone => "None"
  | PyBool true => "True"
  | PyBool false => "False"
  | PyInt z => NilZero.string_of_int (Z.to_int z)
  | PyStr s => s
  end.

(** [isinstance(a, str)] *)
Definition is_str (a : PyVal) : bool :=
  match a with PyStr _ => true | _ => false end.

(** [a is None] *)
Definition is_none (a : PyVal) : bool :=
  match a with PyNone => true | _ => false end.

(** [a in [x1, ..., xn]] *)
Definition py_in_list (a : PyVal) (l : list PyVal) : bool :=
  existsb (py_eq a) l.

(** ** Exceptions and results *)

Inductive PyExc : Type :=
| ValueError
| BinasciiError        (* binascii.Error, a ValueError *)
| UnicodeDecodeError   (* a ValueError *)
| KeyError
| TypeError
| SyntaxError
| AttributeError
| TuyaException        (* tuyalocalapi.TuyaException *)
| OtherException.      (* any other subclass of Exception *)

Inductive ExcClass : Type :=
| CValueError | CKeyError | CTypeError | CTuyaException | CException.

(** [isinstance(x, cls)] along the built-in exception hierarchy. *)
Definition exc_isinstance (x : PyExc) (cls : ExcClass) : bool :=
  match cls, x with
  | CException, _ => true
  | CValueError, (ValueError | BinasciiError | UnicodeDecodeError) => true
  | CKeyError, KeyError => true
  | CTypeError, TypeError => true
  | CTuyaException, TuyaException => true
  | _, _ => false
  end.

Definition caught_by (classes : list ExcClass) (x : PyExc) : bool :=
  existsb (exc_isinstance x) classes.

Inductive Res (A : Type) : Type :=
| Ret (a : A)
| Raise (x : PyExc).
Arguments Ret {A} a.
Arguments Raise {A} x.

#[global] Instance res_ret : MRet Res := fun A a => Ret a.
#[global] Instance res_bind : MBind Res := fun A B k r =>
  match r with
  | Ret a => k a
  | Raise x => Raise x
  end.

(** [try: body except classes: handler]. *)
Definition try_except {A} (body : Res A) (classes : list ExcClass)
    (handler : PyExc -> Res A) : Res A :=
  match body with
  | Ret a => Ret a
  | Raise x => if caught_by classes x then handler x else Raise x
  end.

Definition returns {A} (r : Res A) : Prop := exists a, r = Ret a.

(** ** Dictionaries with Python key equality *)

Definition PyDict : Type := list (PyVal * PyVal).

Fixpoint dict_get (d : PyDict) (k : PyVal) : option PyVal :=
  match d with
  | [] => None
  | (k', v) :: d' => if py_eq k k' then Some v else dict_get d' k
  end.

(** [k in d] *)
Definition dict_contains (d : PyDict) (k : PyVal) : bool :=
  match dict_get d k with Some _ => true | None => false end.

(** [d[k]] *)
Definition dict_getitem (d : PyDict) (k : PyVal) : Res PyVal :=
  match dict_get d k with
  | Some v => Ret v
  | None => Raise KeyError
  end.

(** ** Values produced by [ast.literal_eval] *)

Local Set Warnings "-register-all".

Inductive PyLit : Type :=
| LNone
| LBool (b : bool)
| LInt (z : Z)
| LStr (s : string)
| LBytes (s : string)
| LList (l : list PyLit)
| LTuple (l : list PyLit)
| LSet (l : list PyLit)
| LDict (d : list (PyLit * PyLit)).

Definition lit_of_val (v : PyVal) : PyLit :=
  match v with
  | PyNone => LNone
  | PyBool b => LBool b
  | PyInt z => LInt z
  | PyStr s => LStr s
  end.

(** [x == s] for a string [s]. *)
Definition lit_is_str (s : string) (x : PyLit) : bool :=
  match x with LStr t => String.eqb s t | _ => false end.

Definition substringb (needle s : string) : bool :=
  match String.index 0 needle s with Some _ => true | None => false end.

(** [s in c] for a string [s]. *)
Definition lit_contains (s : string) (c : PyLit) : Res bool :=
  match c with
  | LDict d => Ret (existsb (fun kv => lit_is_str s (fst kv)) d)
  | LList l | LTuple l | LSet l => Ret (existsb (lit_is_str s) l)
  | LStr t => Ret (substringb s t)
  | LBytes _ | LNone | LBool _ | LInt _ => Raise TypeError
  end.

Fixpoint lit_dict_get (d : list (PyLit * PyLit)) (s : string) : option PyLit :=
  match d with
  | [] => None
  | (k, v) :: d' => if lit_is_str s k then Some v else lit_dict_get d' s
  end.

(** [c[s]] for a string [s]. *)
Definition lit_getitem (c : PyLit) (s : string) : Res PyLit :=
  match c with
  | LDict d =>
      match lit_dict_get d s with
      | Some v => Ret v
      | None => Raise KeyError
      end
  | _ => Raise TypeError
  end.

(** [bool(c)] *)
Definition lit_truthy (c : PyLit) : bool :=
  match c with
  | LNone => false
  | LBool b => b
  | LInt z => negb (z =? 0)
  | LStr s | LBytes s => negb (String.eqb s EmptyString)
  | LList l | LTuple l | LSet l => match l with [] => false | _ => true end
  | LDict d => match d with [] => false | _ => true end
  end.

(** ** A reference Python runtime

    The calls the integration makes into the Python runtime ([int] on text,
    [base64.b64decode], [bytes.decode("ascii")], [ast.literal_eval]) are
    parameters of the development (see [Environment] below).  The functions of
    this section are one concrete runtime, used to run the model on concrete
    inputs.  [ref_b64decode] follows CPython's non-strict [a2b_base64];
    [ref_int_of_str] reads optionally signed ASCII decimal text surrounded by
    ASCII blanks; [ref_literal_eval] reads the literal fragment made of [None],
    [True], [False], decimal integers, quoted strings without escapes, lists
    and dicts. *)

Definition code_of (c : ascii) : Z := Z.of_N (N_of_ascii c).
Definition chr (z : Z) : ascii := ascii_of_N (Z.to_N z).

Definition between (lo x hi : Z) : bool := (lo <=? x) && (x <=? hi).

Definition string_forallb (p : ascii -> bool) (s : string) : bool :=
  forallb p (list_ascii_of_string s).

Definition is_ascii (c : ascii) : bool := code_of c <? 128.

(** The value of a character of the base64 alphabet. *)
Definition b64_value (c : ascii) : option Z :=
  let n := code_of c in
  if between 65 n 90 then Some (n - 65)
  else if between 97 n 122 then Some (n - 97 + 26)
  else if between 48 n 57 then Some (n - 48 + 52)
  else if n =? 43 then Some 62
  else if n =? 47 then Some 63
  else None.

(** The decoding loop: [quad_pos], [leftchar], [pads], bytes written so far
    (latest first).  Characters outside the alphabet are skipped; a padding
    run that completes a quad ends the decoding. *)
Fixpoint a2b_base64 (s : string) (quad_pos leftchar pads : Z)
    (out : list ascii) : Res (list ascii) :=
  match s with
  | EmptyString =>
      if quad_pos =? 0 then Ret out else Raise BinasciiError
  | String c rest =>
      if code_of c =? 61 then
        if (2 <=? quad_pos) && (4 <=? quad_pos + (pads + 1)) then Ret out
        else a2b_base64 rest quad_pos leftchar
               (if 2 <=? quad_pos then pads + 1 else pads) out
      else
        match b64_value c with
        | None => a2b_base64 rest quad_pos leftchar pads out
        | Some v =>
            if quad_pos =? 0 then a2b_base64 rest 1 v 0 out
            else if quad_pos =? 1 then
              a2b_base64 rest 2 (Z.land v 15) 0
                (chr (Z.lor (Z.shiftl leftchar 2) (Z.shiftr v 4)) :: out)
            else if quad_pos =? 2 then
              a2b_base64 rest 3 (Z.land v 3) 0
                (chr (Z.lor (Z.shiftl leftchar 4) (Z.shiftr v 2)) :: out)
            else
              a2b_base64 rest 0 0 0
                (chr (Z.lor (Z.shiftl leftchar 6) v) :: out)
        end
  end.

Definition ref_b64decode (s : string) : Res string :=
  if string_forallb is_ascii s then
    out ← a2b_base64 s 0 0 0 []; Ret (string_of_list_ascii (rev out))
  else Raise ValueError.

Definition ref_decode_ascii (bytes : string) : Res string :=
  if string_forallb is_ascii bytes then Ret bytes else Raise UnicodeDecodeError.

Definition is_blank (c : ascii) : bool :=
  let n := code_of c in between 9 n 13 || between 28 n 32.

Definition is_digit (c : ascii) : bool := between 48 (code_of c) 57.

Fixpoint drop_blanks (l : list ascii) : list ascii :=
  match l with
  | c :: l' => if is_blank c then drop_blanks l' else l
  | [] => []
  end.

Definition strip (l : list ascii) : list ascii :=
  rev (drop_blanks (rev (drop_blanks l))).

Definition digits_value (l : list ascii) : Z :=
  fold_left (fun acc c => 10 * acc + (code_of c - 48)) l 0.

Definition unsigned_of_digits (l : list ascii) : option Z :=
  match l with
  | [] => None
  | _ => if forallb is_digit l then Some (digits_value l) else None
  end.

Definition ref_int_of_str (s : string) : option Z :=
  match strip (list_ascii_of_string s) with
  | c :: l =>
      if code_of c =? 45 then Z.opp <$> unsigned_of_digits l
      else if code_of c =? 43 then unsigned_of_digits l
      else unsigned_of_digits (c :: l)
  | [] => None
  end.

Inductive Token : Type :=
| TLBrace | TRBrace | TLBrack | TRBrack | TColon | TComma
| TStr (s : string)
| TWord (w : string).

Inductive LexState : Type :=
| Idle
| InStr (quote : ascii) (acc : list ascii)
| InWord (acc : list ascii).

Definition is_word_char (c : ascii) : bool :=
  let n := code_of c in
  is_digit c || between 65 n 90 || between 97 n 122
  || (n =? 45) || (n =? 43) || (n =? 95).

Definition word_token (acc : list ascii) : Token :=
  TWord (string_of_list_ascii (rev acc)).

Definition idle_step (c : ascii) (out : list Token)
    : option (LexState * list Token) :=
  let n := code_of c in
  if n =? 32 then Some (Idle, out)
  else if n =? 123 then Some (Idle, TLBrace :: out)
  else if n =? 125 then Some (Idle, TRBrace :: out)
  else if n =? 91 then Some (Idle, TLBrack :: out)
  else if n =? 93 then Some (Idle, TRBrack :: out)
  else if n =? 58 then Some (Idle, TColon :: out)
  else if n =? 44 then Some (Idle, TComma :: out)
  else if (n =? 39) || (n =? 34) then Some (InStr c [], out)
  else if is_word_char c then Some (InWord [c], out)
  else None.

Fixpoint lex (s : string) (st : LexState) (out : list Token)
    : option (list Token) :=
  match s with
  | EmptyString =>
      match st with
      | Idle => Some (rev out)
      | InWord acc => Some (rev (word_token acc :: out))
      | InStr _ _ => None
      end
  | String c rest =>
      match st with
      | InStr q acc =>
          if code_of c =? code_of q then
            lex rest Idle (TStr (string_of_list_ascii (rev acc)) :: out)
          else if (code_of c =? 92) || (code_of c =? 10) then None
          else lex rest (InStr q (c :: acc)) out
      | InWord acc =>
          if is_word_char c then lex rest (InWord (c :: acc)) out
          else
            match idle_step c (word_token acc :: out) with
            | Some (st', out') => lex rest st' out'
            | None => None
            end
      | Idle =>
          match idle_step c out with
          | Some (st', out') => lex rest st' out'
          | None => None
          end
      end
  end.

Definition lit_of_word (w : string) : Res PyLit :=
  if String.eqb w "None" then Ret LNone
  else if String.eqb w "True" then Ret (LBool true)
  else if String.eqb w "False" then Ret (LBool false)
  else
    match ref_int_of_str w with
    | Some z => Ret (LInt z)
    | None => Raise ValueError
    end.

(** Recursive descent over the tokens; a dict keeps its latest entry for a
    key first, so that lookup finds the entry Python would keep. *)
Fixpoint parse_value (fuel : nat) (ts : list Token)
    : Res (PyLit * list Token) :=
  match fuel with
  | O => Raise OtherException
  | S fuel =>
      match ts with
      | TStr s :: r => Ret (LStr s, r)
      | TWord w :: r => v ← lit_of_word w; Ret (v, r)
      | TLBrack :: r => parse_items fuel r []
      | TLBrace :: r => parse_entries fuel r []
      | _ => Raise SyntaxError
      end
  end
with parse_items (fuel : nat) (ts : list Token) (acc : list PyLit)
    : Res (PyLit * list Token) :=
  match fuel with
  | O => Raise OtherException
  | S fuel =>
      match ts with
      | TRBrack :: r => Ret (LList (rev acc), r)
      | _ =>
          p ← parse_value fuel ts;
          match snd p with
          | TComma :: r => parse_items fuel r (fst p :: acc)
          | TRBrack :: r => Ret (LList (rev (fst p :: acc)), r)
          | _ => Raise SyntaxError
          end
      end
  end
with parse_entries (fuel : nat) (ts : list Token) (acc : list (PyLit * PyLit))
    : Res (PyLit * list Token) :=
  match fuel with
  | O => Raise OtherException
  | S fuel =>
      match ts with
      | TRBrace :: r => Ret (LDict acc, r)
      | _ =>
          k ← parse_value fuel ts;
          match snd k with
          | TColon :: r =>
              v ← parse_value fuel r;
              match snd v with
              | TComma :: r' => parse_entries fuel r' ((fst k, fst v) :: acc)
              | TRBrace :: r' => Ret (LDict ((fst k, fst v) :: acc), r')
              | _ => Raise SyntaxError
              end
          | _ => Raise SyntaxError
          end
      end
  end.

Definition ref_literal_eval (text : string) : Res PyLit :=
  match lex text Idle [] with
  | None => Raise SyntaxError
  | Some ts =>
      p ← parse_value (2 * length ts + 2) ts;
      match snd p with
      | [] => Ret (fst p)
      | _ => Raise SyntaxError
      end
  end.

(** ** Enumerations *)

(** [homeassistant.components.vacuum.VacuumActivity] *)
Module VacuumActivity.
Inductive t : Type :=
| CLEANING | DOCKED | IDLE | PAUSED | RETURNING | ERROR.
End VacuumActivity.

Module RobovacCommand.
(** Modelled from the spec: the enumeration [RobovacCommand] of
    [vacuums/base.py], which is not part of the sources at hand.  Its members
    are the logical command identifiers the specification lists. *)
Inductive t : Type :=
| STATUS | MODE | FAN_SPEED | BATTERY | ERROR
| START_PAUSE | RETURN_HOME | LOCATE | DIRECTION
| CLEANING_AREA | CLEANING_TIME | BOOST_IQ | AUTO_RETURN
| DO_NOT_DISTURB | CONSUMABLES | ROOM_CLEAN.

#[global] Instance eq_dec : EqDecision t.
Proof. solve_decision. Defined.

(** [member.name] *)
Definition name (c : t) : string :=
  match c with
  | STATUS => "STATUS"
  | MODE => "MODE"
  | FAN_SPEED => "FAN_SPEED"
  | BATTERY => "BATTERY"
  | ERROR => "ERROR"
  | START_PAUSE => "START_PAUSE"
  | RETURN_HOME => "RETURN_HOME"
  | LOCATE => "LOCATE"
  | DIRECTION => "DIRECTION"
  | CLEANING_AREA => "CLEANING_AREA"
  | CLEANING_TIME => "CLEANING_TIME"
  | BOOST_IQ => "BOOST_IQ"
  | AUTO_RETURN => "AUTO_RETURN"
  | DO_NOT_DISTURB => "DO_NOT_DISTURB"
  | CONSUMABLES => "CONSUMABLES"
  | ROOM_CLEAN => "ROOM_CLEAN"
  end.
End RobovacCommand.

(** The [command_name] argument of the translation functions: a member of
    [RobovacCommand], or any other value (the tests pass plain strings). *)
Inductive CommandName : Type :=
| Member (c : RobovacCommand.t)
| NotMember (v : PyVal).

(** ** Model declarations ([vacuums/*.py]) *)

(** The ["values"] entry of a command: a dict, or a list of raw literals. *)
Inductive ValuesField : Type :=
| ValuesDict (d : PyDict)
| ValuesList (l : list PyVal).

(** A value of the [commands] dict: a dict with optional ["code"] and
    ["values"] entries, or a direct code. *)
Inductive CommandEntry : Type :=
| EntryDict (code : option PyVal) (values : option ValuesField)
| EntryDirect (v : PyVal).

Record RobovacModelDetails : Type := {
  robovac_features : Z;
  commands : list (RobovacCommand.t * CommandEntry);
  activity_mapping : option (gmap string VacuumActivity.t);
}.

(** ** What the sources import but do not contain

    [vacuums/base.py] ([RobovacCommand] values, [RoboVacEntityFeature],
    [TuyaCodes], [TUYA_CONSUMABLES_CODES]), [vacuums/__init__.py]
    ([ROBOVAC_MODELS]), [errors.py] ([getErrorMessage]) and the Python runtime
    calls.  Every result below holds for any such environment. *)

(** The flags of [RoboVacEntityFeature]. *)
Class RoboVacEntityFeature : Type := {
  FEATURE_EDGE : Z;
  FEATURE_SMALL_ROOM : Z;
  FEATURE_CLEANING_TIME : Z;
  FEATURE_CLEANING_AREA : Z;
  FEATURE_DO_NOT_DISTURB : Z;
  FEATURE_AUTO_RETURN : Z;
  FEATURE_CONSUMABLES : Z;
  FEATURE_ROOM : Z;
  FEATURE_ZONE : Z;
  FEATURE_MAP : Z;
  FEATURE_BOOST_IQ : Z;
}.

Class Environment : Type := {
  env_features :: RoboVacEntityFeature;
  (** [RobovacCommand(value)]: the member with that value, if any. *)
  RobovacCommand_of_value : PyVal -> option RobovacCommand.t;
  (** [getattr(TuyaCodes, name, None)], as the member's value. *)
  TuyaCodes : string -> option string;
  (** For a name that is no member: whether the class [TuyaCodes] has
      another attribute of that name (a method, [__name__],
      [__members__], ...), and the truth value of that attribute.  Such an
      attribute has no [value]. *)
  TuyaCodes_other : string -> option bool;
  TUYA_CONSUMABLES_CODES : list string;
  ROBOVAC_MODELS : string -> option RobovacModelDetails;
  getErrorMessage : PyVal -> PyVal;
  (** [int(s)] for a string [s]; [None] stands for [ValueError] *)
  int_of_str : string -> option Z;
  (** [base64.b64decode(s)] for a string [s] *)
  b64decode : string -> Res string;
  (** [bytes.decode("ascii")] *)
  decode_ascii : string -> Res string;
  (** [ast.literal_eval(text)] *)
  literal_eval : string -> Res PyLit;
}.

(** ** Log records (warning and error level) *)

Inductive LogRecord : Type :=
| WarnValueNotFound (command_name : CommandName) (value : PyVal)
    (model_code : string)                      (* robovac.py, line 224 *)
| WarnInitializationFailed                     (* vacuum.py, line 426 *)
| ErrorModelNotSupported                       (* vacuum.py, line 401 *)
| WarnIpAddressNotSet                          (* vacuum.py, line 464 *)
| WarnVacuumNotInitialized                     (* vacuum.py, line 470 *)
| WarnUpdateFailed (failures : Z)              (* vacuum.py, line 482 *)
| ErrorMaxRetries                              (* vacuum.py, line 493 *)
| WarnEntityNotInitialized                     (* vacuum.py, line 519 *)
| WarnNoDataPoints                             (* vacuum.py, line 526 *)
| WarnInvalidBattery (value : PyVal)           (* vacuum.py, line 600 *)
| WarnConsumableDecode (x : PyExc).            (* vacuum.py, line 717 *)

(** ** [robovac.py]: the device *)

Record RoboVac : Type := {
  model_code : string;
  model_details : RobovacModelDetails;
  (** [TuyaDevice._dps], the last snapshot received *)
  _dps : option (gmap string PyVal);
}.

Fixpoint commands_get (cs : list (RobovacCommand.t * CommandEntry))
    (c : RobovacCommand.t) : option CommandEntry :=
  match cs with
  | [] => None
  | (c', entry) :: cs' =>
      if decide (c = c') then Some entry else commands_get cs' c
  end.

Definition _get_command_values (self : RoboVac) (command_name : RobovacCommand.t)
    : option PyDict :=
  match commands_get (commands (model_details self)) command_name with
  | None => None
  | Some (EntryDirect _) => None
  | Some (EntryDict _ None) => None
  | Some (EntryDict _ (Some (ValuesList _))) => None
  | Some (EntryDict _ (Some (ValuesDict values))) => Some values
  end.

(** [list(values.values())] of the FAN_SPEED command *)
Definition getFanSpeeds (self : RoboVac) : list PyVal :=
  match _get_command_values self RobovacCommand.FAN_SPEED with
  | None => []
  | Some values => map snd values
  end.

Definition command_to_dps (key_name : string) : string :=
  if String.eqb key_name "BATTERY" then "BATTERY_LEVEL"
  else if String.eqb key_name "ERROR" then "ERROR_CODE"
  else key_name.

(** One iteration of the loop of [getDpsCodes]. *)
Definition getDpsCodes_step (codes : gmap string string)
    (item : RobovacCommand.t * CommandEntry) : gmap string string :=
  let dps_name := command_to_dps (RobovacCommand.name (fst item)) in
  match snd item with
  | EntryDict (Some code) _ => <[dps_name := py_str code]> codes
  | EntryDict None _ => codes
  | EntryDirect v => <[dps_name := py_str v]> codes
  end.

Definition getDpsCodes (self : RoboVac) : gmap string string :=
  fold_left getDpsCodes_step (commands (model_details self)) ∅.

Section Translation.
Context `{Environment}.

(** [command_name if isinstance(command_name, RobovacCommand)
     else RobovacCommand(command_name)] *)
Definition to_command (command_name : CommandName) : Res RobovacCommand.t :=
  match command_name with
  | Member c => Ret c
  | NotMember v =>
      match RobovacCommand_of_value v with
      | Some c => Ret c
      | None => Raise ValueError
      end
  end.

(** The [try] block of [getRoboVacCommandValue]: [Some r] when it executes
    [return r], [None] when it falls through. *)
Definition getRoboVacCommandValue_body (self : RoboVac)
    (command_name : CommandName) (value : PyVal) : Res (option PyVal) :=
  cmd ← to_command command_name;
  match _get_command_values self cmd with
  | Some values =>
      if dict_contains values value then
        v ← dict_getitem values value; Ret (Some (PyStr (py_str v)))
      else Ret None
  | None => Ret None
  end.

Definition getRoboVacCommandValue (self : RoboVac)
    (command_name : CommandName) (value : PyVal) : Res PyVal :=
  r ← try_except (getRoboVacCommandValue_body self command_name value)
        [CValueError; CKeyError] (fun _ => Ret None);
  match r with
  | Some device_value => Ret device_value
  | None => Ret value
  end.

(** The [try] block of [getRoboVacHumanReadableValue]: membership is
    tested with [str(value)], the entry is read with [value]. *)
Definition getRoboVacHumanReadableValue_body (self : RoboVac)
    (command_name : CommandName) (value : PyVal) : Res (option PyVal) :=
  cmd ← to_command command_name;
  match _get_command_values self cmd with
  | Some values =>
      if dict_contains values (PyStr (py_str value)) then
        v ← dict_getitem values value; Ret (Some (PyStr (py_str v)))
      else Ret None
  | None => Ret None
  end.

(** The result and the log records emitted. *)
Definition getRoboVacHumanReadableValue (self : RoboVac)
    (command_name : CommandName) (value : PyVal)
    : Res PyVal * list LogRecord :=
  match try_except (getRoboVacHumanReadableValue_body self command_name value)
          [CValueError; CKeyError] (fun _ => Ret None) with
  | Ret (Some human) => (Ret human, [])
  | Ret None =>
      (Ret value,
       [WarnValueNotFound command_name value (model_code self)])
  | Raise x => (Raise x, [])
  end.
End Translation.

(** ** [vacuum.py]: the entity *)

Record RoboVacEntity : Type := {
  _attr_battery_level : Z;
  _attr_model_code : option string;
  _attr_ip_address : option string;
  vacuum : option RoboVac;
  update_failures : Z;
  tuyastatus : option (gmap string PyVal);
  _attr_error_code : PyVal;
  _attr_tuya_state : PyVal;
  _attr_mode : PyVal;
  _attr_fan_speed : PyVal;
  _attr_cleaning_area : option string;
  _attr_cleaning_time : option string;
  _attr_auto_return : option string;
  _attr_do_not_disturb : option string;
  _attr_boost_iq : option string;
  _attr_consumables : PyLit;
  _attr_robovac_supported : option Z;
  _attr_activity_mapping : option (gmap string VacuumActivity.t);
}.

(** Attribute assignment, [self.attr = v]. *)
Definition set_attr_battery_level (v : Z)
    (self : RoboVacEntity) : RoboVacEntity :=
  {|
    _attr_battery_level := v; _attr_model_code := _attr_model_code self;
    _attr_ip_address := _attr_ip_address self; vacuum := vacuum self;
    update_failures := update_failures self; tuyastatus := tuyastatus self;
    _attr_error_code := _attr_error_code self;
    _attr_tuya_state := _attr_tuya_state self; _attr_mode := _attr_mode self;
    _attr_fan_speed := _attr_fan_speed self;
    _attr_cleaning_area := _attr_cleaning_area self;
    _attr_cleaning_time := _attr_cleaning_time self;
    _attr_auto_return := _attr_auto_return self;
    _attr_do_not_disturb := _attr_do_not_disturb self;
    _attr_boost_iq := _attr_boost_iq self;
    _attr_consumables := _attr_consumables self;
    _attr_robovac_supported := _attr_robovac_supported self;
    _attr_activity_mapping := _attr_activity_mapping self;
  |}.

Definition set_vacuum (v : option RoboVac)
    (self : RoboVacEntity) : RoboVacEntity :=
  {|
    _attr_battery_level := _attr_battery_level self;
    _attr_model_code := _attr_model_code self;
    _attr_ip_address := _attr_ip_address self; vacuum := v;
    update_failures := update_failures self; tuyastatus := tuyastatus self;
    _attr_error_code := _attr_error_code self;
    _attr_tuya_state := _attr_tuya_state self; _attr_mode := _attr_mode self;
    _attr_fan_speed := _attr_fan_speed self;
    _attr_cleaning_area := _attr_cleaning_area self;
    _attr_cleaning_time := _attr_cleaning_time self;
    _attr_auto_return := _attr_auto_return self;
    _attr_do_not_disturb := _attr_do_not_disturb self;
    _attr_boost_iq := _attr_boost_iq self;
    _attr_consumables := _attr_consumables self;
    _attr_robovac_supported := _attr_robovac_supported self;
    _attr_activity_mapping := _attr_activity_mapping self;
  |}.

Definition set_update_failures (v : Z) (self : RoboVacEntity) : RoboVacEntity :=
  {|
     _attr_battery_level := _attr_battery_level self; _attr_model_code :=
     _attr_model_code self; _attr_ip_address := _attr_ip_address self;
     vacuum := vacuum self; update_failures := v; tuyastatus := tuyastatus
     self; _attr_error_code := _attr_error_code self; _attr_tuya_state :=
     _attr_tuya_state self; _attr_mode := _attr_mode self; _attr_fan_speed
     := _attr_fan_speed self; _attr_cleaning_area := _attr_cleaning_area
     self; _attr_cleaning_time := _attr_cleaning_time self;
     _attr_auto_return := _attr_auto_return self; _attr_do_not_disturb :=
     _attr_do_not_disturb self; _attr_boost_iq := _attr_boost_iq self;
     _attr_consumables := _attr_consumables self; _attr_robovac_supported :=
     _attr_robovac_supported self; _attr_activity_mapping :=
     _attr_activity_mapping self;
  |}.

Definition set_tuyastatus (v : option (gmap string PyVal))
    (self : RoboVacEntity) : RoboVacEntity :=
  {|
    _attr_battery_level := _attr_battery_level self;
    _attr_model_code := _attr_model_code self;
    _attr_ip_address := _attr_ip_address self; vacuum := vacuum self;
    update_failures := update_failures self; tuyastatus := v;
    _attr_error_code := _attr_error_code self;
    _attr_tuya_state := _attr_tuya_state self; _attr_mode := _attr_mode self;
    _attr_fan_speed := _attr_fan_speed self;
    _attr_cleaning_area := _attr_cleaning_area self;
    _attr_cleaning_time := _attr_cleaning_time self;
    _attr_auto_return := _attr_auto_return self;
    _attr_do_not_disturb := _attr_do_not_disturb self;
    _attr_boost_iq := _attr_boost_iq self;
    _attr_consumables := _attr_consumables self;
    _attr_robovac_supported := _attr_robovac_supported self;
    _attr_activity_mapping := _attr_activity_mapping self;
  |}.

Definition set_attr_error_code (v : PyVal)
    (self : RoboVacEntity) : RoboVacEntity :=
  {|
    _attr_battery_level := _attr_battery_level self;
    _attr_model_code := _attr_model_code self;
    _attr_ip_address := _attr_ip_address self; vacuum := vacuum self;
    update_failures := update_failures self; tuyastatus := tuyastatus self;
    _attr_error_code := v; _attr_tuya_state := _attr_tuya_state self;
    _attr_mode := _attr_mode self; _attr_fan_speed := _attr_fan_speed self;
    _attr_cleaning_area := _attr_cleaning_area self;
    _attr_cleaning_time := _attr_cleaning_time self;
    _attr_auto_return := _attr_auto_return self;
    _attr_do_not_disturb := _attr_do_not_disturb self;
    _attr_boost_iq := _attr_boost_iq self;
    _attr_consumables := _attr_consumables self;
    _attr_robovac_supported := _attr_robovac_supported self;
    _attr_activity_mapping := _attr_activity_mapping self;
  |}.

Definition set_attr_tuya_state (v : PyVal)
    (self : RoboVacEntity) : RoboVacEntity :=
  {|
    _attr_battery_level := _attr_battery_level self;
    _attr_model_code := _attr_model_code self;
    _attr_ip_address := _attr_ip_address self; vacuum := vacuum self;
    update_failures := update_failures self; tuyastatus := tuyastatus self;
    _attr_error_code := _attr_error_code self; _attr_tuya_state := v;
    _attr_mode := _attr_mode self; _attr_fan_speed := _attr_fan_speed self;
    _attr_cleaning_area := _attr_cleaning_area self;
    _attr_cleaning_time := _attr_cleaning_time self;
    _attr_auto_return := _attr_auto_return self;
    _attr_do_not_disturb := _attr_do_not_disturb self;
    _attr_boost_iq := _attr_boost_iq self;
    _attr_consumables := _attr_consumables self;
    _attr_robovac_supported := _attr_robovac_supported self;
    _attr_activity_mapping := _attr_activity_mapping self;
  |}.

Definition set_attr_mode (v : PyVal) (self : RoboVacEntity) : RoboVacEntity :=
  {|
     _attr_battery_level := _attr_battery_level self; _attr_model_code :=
     _attr_model_code self; _attr_ip_address := _attr_ip_address self;
     vacuum := vacuum self; update_failures := update_failures self;
     tuyastatus := tuyastatus self; _attr_error_code := _attr_error_code
     self; _attr_tuya_state := _attr_tuya_state self; _attr_mode := v;
     _attr_fan_speed := _attr_fan_speed self; _attr_cleaning_area :=
     _attr_cleaning_area self; _attr_cleaning_time := _attr_cleaning_time
     self; _attr_auto_return := _attr_auto_return self; _attr_do_not_disturb
     := _attr_do_not_disturb self; _attr_boost_iq := _attr_boost_iq self;
     _attr_consumables := _attr_consumables self; _attr_robovac_supported :=
     _attr_robovac_supported self; _attr_activity_mapping :=
     _attr_activity_mapping self;
  |}.

Definition set_attr_fan_speed (v : PyVal)
    (self : RoboVacEntity) : RoboVacEntity :=
  {|
    _attr_battery_level := _attr_battery_level self;
    _attr_model_code := _attr_model_code self;
    _attr_ip_address := _attr_ip_address self; vacuum := vacuum self;
    update_failures := update_failures self; tuyastatus := tuyastatus self;
    _attr_error_code := _attr_error_code self;
    _attr_tuya_state := _attr_tuya_state self; _attr_mode := _attr_mode self;
    _attr_fan_speed := v; _attr_cleaning_area := _attr_cleaning_area self;
    _attr_cleaning_time := _attr_cleaning_time self;
    _attr_auto_return := _attr_auto_return self;
    _attr_do_not_disturb := _attr_do_not_disturb self;
    _attr_boost_iq := _attr_boost_iq self;
    _attr_consumables := _attr_consumables self;
    _attr_robovac_supported := _attr_robovac_supported self;
    _attr_activity_mapping := _attr_activity_mapping self;
  |}.

Definition set_attr_cleaning_area (v : option string)
    (self : RoboVacEntity) : RoboVacEntity :=
  {|
    _attr_battery_level := _attr_battery_level self;
    _attr_model_code := _attr_model_code self;
    _attr_ip_address := _attr_ip_address self; vacuum := vacuum self;
    update_failures := update_failures self; tuyastatus := tuyastatus self;
    _attr_error_code := _attr_error_code self;
    _attr_tuya_state := _attr_tuya_state self; _attr_mode := _attr_mode self;
    _attr_fan_speed := _attr_fan_speed self; _attr_cleaning_area := v;
    _attr_cleaning_time := _attr_cleaning_time self;
    _attr_auto_return := _attr_auto_return self;
    _attr_do_not_disturb := _attr_do_not_disturb self;
    _attr_boost_iq := _attr_boost_iq self;
    _attr_consumables := _attr_consumables self;
    _attr_robovac_supported := _attr_robovac_supported self;
    _attr_activity_mapping := _attr_activity_mapping self;
  |}.

Definition set_attr_cleaning_time (v : option string)
    (self : RoboVacEntity) : RoboVacEntity :=
  {|
    _attr_battery_level := _attr_battery_level self;
    _attr_model_code := _attr_model_code self;
    _attr_ip_address := _attr_ip_address self; vacuum := vacuum self;
    update_failures := update_failures self; tuyastatus := tuyastatus self;
    _attr_error_code := _attr_error_code self;
    _attr_tuya_state := _attr_tuya_state self; _attr_mode := _attr_mode self;
    _attr_fan_speed := _attr_fan_speed self;
    _attr_cleaning_area := _attr_cleaning_area self; _attr_cleaning_time := v;
    _attr_auto_return := _attr_auto_return self;
    _attr_do_not_disturb := _attr_do_not_disturb self;
    _attr_boost_iq := _attr_boost_iq self;
    _attr_consumables := _attr_consumables self;
    _attr_robovac_supported := _attr_robovac_supported self;
    _attr_activity_mapping := _attr_activity_mapping self;
  |}.

Definition set_attr_auto_return (v : option string)
    (self : RoboVacEntity) : RoboVacEntity :=
  {|
    _attr_battery_level := _attr_battery_level self;
    _attr_model_code := _attr_model_code self;
    _attr_ip_address := _attr_ip_address self; vacuum := vacuum self;
    update_failures := update_failures self; tuyastatus := tuyastatus self;
    _attr_error_code := _attr_error_code self;
    _attr_tuya_state := _attr_tuya_state self; _attr_mode := _attr_mode self;
    _attr_fan_speed := _attr_fan_speed self;
    _attr_cleaning_area := _attr_cleaning_area self;
    _attr_cleaning_time := _attr_cleaning_time self; _attr_auto_return := v;
    _attr_do_not_disturb := _attr_do_not_disturb self;
    _attr_boost_iq := _attr_boost_iq self;
    _attr_consumables := _attr_consumables self;
    _attr_robovac_supported := _attr_robovac_supported self;
    _attr_activity_mapping := _attr_activity_mapping self;
  |}.

Definition set_attr_do_not_disturb (v : option string)
    (self : RoboVacEntity) : RoboVacEntity :=
  {|
    _attr_battery_level := _attr_battery_level self;
    _attr_model_code := _attr_model_code self;
    _attr_ip_address := _attr_ip_address self; vacuum := vacuum self;
    update_failures := update_failures self; tuyastatus := tuyastatus self;
    _attr_error_code := _attr_error_code self;
    _attr_tuya_state := _attr_tuya_state self; _attr_mode := _attr_mode self;
    _attr_fan_speed := _attr_fan_speed self;
    _attr_cleaning_area := _attr_cleaning_area self;
    _attr_cleaning_time := _attr_cleaning_time self;
    _attr_auto_return := _attr_auto_return self; _attr_do_not_disturb := v;
    _attr_boost_iq := _attr_boost_iq self;
    _attr_consumables := _attr_consumables self;
    _attr_robovac_supported := _attr_robovac_supported self;
    _attr_activity_mapping := _attr_activity_mapping self;
  |}.

Definition set_attr_boost_iq (v : option string)
    (self : RoboVacEntity) : RoboVacEntity :=
  {|
    _attr_battery_level := _attr_battery_level self;
    _attr_model_code := _attr_model_code self;
    _attr_ip_address := _attr_ip_address self; vacuum := vacuum self;
    update_failures := update_failures self; tuyastatus := tuyastatus self;
    _attr_error_code := _attr_error_code self;
    _attr_tuya_state := _attr_tuya_state self; _attr_mode := _attr_mode self;
    _attr_fan_speed := _attr_fan_speed self;
    _attr_cleaning_area := _attr_cleaning_area self;
    _attr_cleaning_time := _attr_cleaning_time self;
    _attr_auto_return := _attr_auto_return self;
    _attr_do_not_disturb := _attr_do_not_disturb self; _attr_boost_iq := v;
    _attr_consumables := _attr_consumables self;
    _attr_robovac_supported := _attr_robovac_supported self;
    _attr_activity_mapping := _attr_activity_mapping self;
  |}.

Definition set_attr_consumables (v : PyLit)
    (self : RoboVacEntity) : RoboVacEntity :=
  {|
    _attr_battery_level := _attr_battery_level self;
    _attr_model_code := _attr_model_code self;
    _attr_ip_address := _attr_ip_address self; vacuum := vacuum self;
    update_failures := update_failures self; tuyastatus := tuyastatus self;
    _attr_error_code := _attr_error_code self;
    _attr_tuya_state := _attr_tuya_state self; _attr_mode := _attr_mode self;
    _attr_fan_speed := _attr_fan_speed self;
    _attr_cleaning_area := _attr_cleaning_area self;
    _attr_cleaning_time := _attr_cleaning_time self;
    _attr_auto_return := _attr_auto_return self;
    _attr_do_not_disturb := _attr_do_not_disturb self;
    _attr_boost_iq := _attr_boost_iq self; _attr_consumables := v;
    _attr_robovac_supported := _attr_robovac_supported self;
    _attr_activity_mapping := _attr_activity_mapping self;
  |}.

(** The entity monad: an entity method takes the entity, and gives its
    outcome, the entity as it left it, and the log records it emitted. *)
Definition M (A : Type) : Type :=
  RoboVacEntity -> Res A * RoboVacEntity * list LogRecord.

#[global] Instance M_ret : MRet M := fun A a self => (Ret a, self, []).
#[global] Instance M_bind : MBind M := fun A B k m self =>
  match m self with
  | (Ret a, self1, log1) =>
      match k a self1 with
      | (r, self2, log2) => (r, self2, (log1 ++ log2)%list)
      end
  | (Raise x, self1, log1) => (Raise x, self1, log1)
  end.

Definition get_self : M RoboVacEntity := fun self => (Ret self, self, []).
Definition assign (f : RoboVacEntity -> RoboVacEntity) : M unit :=
  fun self => (Ret tt, f self, []).
Definition emit (r : LogRecord) : M unit := fun self => (Ret tt, self, [r]).
Definition raise {A} (x : PyExc) : M A := fun self => (Raise x, self, []).
Definition lift {A} (r : Res A) : M A := fun self => (r, self, []).
(** A call into the device that logs. *)
Definition call {A} (r : Res A * list LogRecord) : M A :=
  fun self => (fst r, self, snd r).

(** [try: body except classes: handler] *)
Definition m_try {A} (body : M A) (classes : list ExcClass)
    (handler : PyExc -> M A) : M A := fun self =>
  match body self with
  | (Ret a, self1, log1) => (Ret a, self1, log1)
  | (Raise x, self1, log1) =>
      if caught_by classes x then
        match handler x self1 with
        | (r, self2, log2) => (r, self2, (log1 ++ log2)%list)
        end
      else (Raise x, self1, log1)
  end.

(** [for x in xs: body x] *)
Fixpoint m_for {A} (xs : list A) (body : A -> M unit) : M unit :=
  match xs with
  | [] => mret tt
  | x :: xs' => body x;; m_for xs' body
  end.

(** [snapshot.get(code)] *)
Definition dps_get (snapshot : gmap string PyVal) (code : string) : PyVal :=
  default PyNone (snapshot !! code).

(** [str(v) if v is not None else None] *)
Definition str_or_none (v : PyVal) : option string :=
  if is_none v then None else Some (py_str v).

(** Truth value of an attribute of type [str | None]. *)
Definition opt_truthy (o : option string) : bool :=
  match o with
  | Some s => negb (String.eqb s EmptyString)
  | None => false
  end.

(** [text.split(",")] *)
Fixpoint split_commas (l : list ascii) (cur : list ascii) : list (list ascii) :=
  match l with
  | [] => [rev cur]
  | c :: l' =>
      if code_of c =? 44 then rev cur :: split_commas l' []
      else split_commas l' (c :: cur)
  end.

(** [int(v)] *)
Definition py_int `{Environment} (v : PyVal) : Res Z :=
  match v with
  | PyNone => Raise TypeError
  | PyBool b => Ret (int_of_bool b)
  | PyInt z => Ret z
  | PyStr s =>
      match int_of_str s with
      | Some z => Ret z
      | None => Raise ValueError
      end
  end.

(** What a poll of the device does: [async_get] returns after storing a
    snapshot, or raises. *)
Inductive GetOutcome : Type :=
| GetReturns (snapshot : option (gmap string PyVal))
| GetRaises (x : PyExc).

(** The entries of the configuration item that the modelled state reads. *)
Record ConfigItem : Type := {
  CONF_MODEL : option string;
  CONF_IP_ADDRESS : option string;
}.

Definition UPDATE_RETRIES : Z := 3.

Section Entity.
Context `{Environment}.

(** [RoboVac.__init__]; the snapshot of a new device is empty. *)
Definition RoboVac_init (code : string) : option RoboVac :=
  match ROBOVAC_MODELS code with
  | None => None     (* raises ModelNotSupportedException *)
  | Some details =>
      Some {| model_code := code; model_details := details; _dps := Some ∅ |}
  end.

(** [RoboVacEntity.__init__] *)
Definition RoboVacEntity_init (item : ConfigItem)
    : RoboVacEntity * list LogRecord :=
  let model_code_prefix :=
    match CONF_MODEL item with
    | Some m => String.substring 0 5 m
    | None => EmptyString
    end in
  match RoboVac_init model_code_prefix with
  | Some device =>
      ({| _attr_battery_level := 0;
          _attr_model_code := CONF_MODEL item;
          _attr_ip_address := CONF_IP_ADDRESS item;
          vacuum := Some device;
          update_failures := 0;
          tuyastatus := None;
          _attr_error_code := PyNone;
          _attr_tuya_state := PyNone;
          _attr_mode := PyNone;
          _attr_fan_speed := PyNone;
          _attr_cleaning_area := None;
          _attr_cleaning_time := None;
          _attr_auto_return := None;
          _attr_do_not_disturb := None;
          _attr_boost_iq := None;
          _attr_consumables := LNone;
          _attr_robovac_supported :=
            Some (robovac_features (model_details device));
          _attr_activity_mapping :=
            activity_mapping (model_details device) |}, [])
  | None =>
      ({| _attr_battery_level := 0;
          _attr_model_code := CONF_MODEL item;
          _attr_ip_address := CONF_IP_ADDRESS item;
          vacuum := None;
          update_failures := 0;
          tuyastatus := None;
          _attr_error_code := PyStr "UNSUPPORTED_MODEL";
          _attr_tuya_state := PyNone;
          _attr_mode := PyNone;
          _attr_fan_speed := PyNone;
          _attr_cleaning_area := None;
          _attr_cleaning_time := None;
          _attr_auto_return := None;
          _attr_do_not_disturb := None;
          _attr_boost_iq := None;
          _attr_consumables := LNone;
          _attr_robovac_supported := Some 0;
          _attr_activity_mapping := None |},
       [ErrorModelNotSupported; WarnInitializationFailed])
  end.

(** [enum_value.value if enum_value else ""] for
    [enum_value = getattr(TuyaCodes, code_name, None)], on a name that is a
    member of [TuyaCodes] or no truthy attribute of it, as the field names
    are that the entity passes; [fallback_code] below has every name. *)
Definition TuyaCodes_default (code_name : string) : string :=
  match TuyaCodes code_name with
  | Some value => value
  | None => EmptyString
  end.

(** [_get_dps_code] on a field name, where it returns;
    [_get_dps_code_call] below has every name and the outcome. *)
Definition _get_dps_code (self : RoboVacEntity) (code_name : string)
    : string :=
  match vacuum self with
  | None => TuyaCodes_default code_name
  | Some device =>
      match getDpsCodes device !! code_name with
      | Some code => code
      | None => TuyaCodes_default code_name
      end
  end.

(** [enum_value.value if enum_value else ""] for
    [enum_value = getattr(TuyaCodes, code_name, None)], on any name: a member
    gives its value (the empty text if that is its value), no attribute and a
    falsy attribute give the empty text, and a truthy attribute that is no
    member has no [value]. *)
Definition fallback_code (code_name : string) : Res string :=
  match TuyaCodes code_name with
  | Some value => Ret value
  | None =>
      match TuyaCodes_other code_name with
      | Some true => Raise AttributeError
      | Some false | None => Ret EmptyString
      end
  end.

(** The call [self._get_dps_code(code_name)] on any name, with its
    outcome. *)
Definition _get_dps_code_call (self : RoboVacEntity) (code_name : string)
    : Res string :=
  match vacuum self with
  | None => fallback_code code_name
  | Some device =>
      match getDpsCodes device !! code_name with
      | Some code => Ret code
      | None => fallback_code code_name
      end
  end.

Definition _get_consumables_codes (self : RoboVacEntity) : list string :=
  match vacuum self with
  | None => TUYA_CONSUMABLES_CODES
  | Some device =>
      match getDpsCodes device !! "CONSUMABLES" with
      | Some consumables =>
          map (fun code => string_of_list_ascii (strip code))
            (split_commas (list_ascii_of_string consumables) [])
      | None => TUYA_CONSUMABLES_CODES
      end
  end.

(** [value & flag], as a truth value *)
Definition supports (supported : option Z) (flag : Z) : bool :=
  match supported with
  | Some features => negb (Z.land features flag =? 0)
  | None => false
  end.

(** The [activity] property. *)
Definition activity (self : RoboVacEntity) : option VacuumActivity.t :=
  let state := _attr_tuya_state self in
  let error_code := _attr_error_code self in
  if is_none state || py_eq state (PyInt 0) then None
  else if py_truthy error_code
          && negb (py_in_list error_code [PyInt 0; PyStr "no_error"])
  then Some VacuumActivity.ERROR
  else
    match _attr_activity_mapping self with
    | Some mapping => mapping !! py_str state
    | None =>
        if py_eq state (PyStr "Charging") || py_eq state (PyStr "completed")
        then Some VacuumActivity.DOCKED
        else if py_eq state (PyStr "Recharge")
        then Some VacuumActivity.RETURNING
        else if py_eq state (PyStr "Sleeping") || py_eq state (PyStr "standby")
        then Some VacuumActivity.IDLE
        else if py_eq state (PyStr "Paused")
        then Some VacuumActivity.PAUSED
        else Some VacuumActivity.CLEANING
    end.

Definition add_if (cond : bool) (key : string) (value : PyLit)
    (data : gmap string PyLit) : gmap string PyLit :=
  if cond then <[key := value]> data else data.

Definition attr_lit (o : option string) : PyLit :=
  match o with Some s => LStr s | None => LNone end.

(** The [extra_state_attributes] property. *)
Definition extra_state_attributes (self : RoboVacEntity)
    : gmap string PyLit :=
  let supported := _attr_robovac_supported self in
  let error_code := _attr_error_code self in
  let data : gmap string PyLit := ∅ in
  let data :=
    add_if (negb (is_none error_code)
            && negb (py_in_list error_code [PyInt 0; PyStr "no_error"]))
      "error" (lit_of_val (getErrorMessage error_code)) data in
  let data :=
    add_if (supports supported FEATURE_CLEANING_AREA
            && opt_truthy (_attr_cleaning_area self))
      "cleaning_area" (attr_lit (_attr_cleaning_area self)) data in
  let data :=
    add_if (supports supported FEATURE_CLEANING_TIME
            && opt_truthy (_attr_cleaning_time self))
      "cleaning_time" (attr_lit (_attr_cleaning_time self)) data in
  let data :=
    add_if (supports supported FEATURE_AUTO_RETURN
            && opt_truthy (_attr_auto_return self))
      "auto_return" (attr_lit (_attr_auto_return self)) data in
  let data :=
    add_if (supports supported FEATURE_DO_NOT_DISTURB
            && opt_truthy (_attr_do_not_disturb self))
      "do_not_disturb" (attr_lit (_attr_do_not_disturb self)) data in
  let data :=
    add_if (supports supported FEATURE_BOOST_IQ
            && opt_truthy (_attr_boost_iq self))
      "boost_iq" (attr_lit (_attr_boost_iq self)) data in
  let data :=
    add_if (supports supported FEATURE_CONSUMABLES
            && lit_truthy (_attr_consumables self))
      "consumables" (_attr_consumables self) data in
  add_if (py_truthy (_attr_mode self))
    "mode" (lit_of_val (_attr_mode self)) data.

Definition _update_battery_level : M unit :=
  self ← get_self;
  match tuyastatus self with
  | None => mret tt
  | Some snapshot =>
      let battery_level :=
        dps_get snapshot (_get_dps_code self "BATTERY_LEVEL") in
      if negb (is_none battery_level) then
        m_try
          (level ← lift (py_int battery_level);
           assign (set_attr_battery_level level);;
           assign (set_attr_battery_level (Z.max 0 (Z.min 100 level))))
          [CValueError; CTypeError]
          (fun _ =>
             emit (WarnInvalidBattery battery_level);;
             assign (set_attr_battery_level 0))
      else assign (set_attr_battery_level 0)
  end.

Definition _update_state_and_error : M unit :=
  self ← get_self;
  match tuyastatus self with
  | None => mret tt
  | Some snapshot =>
      let tuya_state := dps_get snapshot (_get_dps_code self "STATUS") in
      let error_code := dps_get snapshot (_get_dps_code self "ERROR_CODE") in
      match vacuum self with
      | Some device =>
          (if negb (is_none tuya_state) then
             human ← call (getRoboVacHumanReadableValue device
                             (Member RobovacCommand.STATUS) tuya_state);
             assign (set_attr_tuya_state human)
           else assign (set_attr_tuya_state (PyInt 0)));;
          (if negb (is_none error_code) then
             human ← call (getRoboVacHumanReadableValue device
                             (Member RobovacCommand.ERROR) error_code);
             assign (set_attr_error_code human)
           else assign (set_attr_error_code (PyInt 0)))
      | None =>
          assign (set_attr_tuya_state (PyInt 0));;
          assign (set_attr_error_code (PyInt 0))
      end
  end.

(** The display form of a fan speed. *)
Definition format_fan_speed (fan_speed : PyVal) : PyVal :=
  if py_eq fan_speed (PyStr "No_suction") then PyStr "No Suction"
  else if py_eq fan_speed (PyStr "Boost_IQ") then PyStr "Boost IQ"
  else if py_eq fan_speed (PyStr "Quiet") then PyStr "Pure"
  else fan_speed.

Definition _update_mode_and_fan_speed : M unit :=
  self ← get_self;
  match tuyastatus self with
  | None => mret tt
  | Some snapshot =>
      let mode := dps_get snapshot (_get_dps_code self "MODE") in
      let fan_speed := dps_get snapshot (_get_dps_code self "FAN_SPEED") in
      match vacuum self with
      | Some device =>
          if negb (is_none mode) then
            human ← call (getRoboVacHumanReadableValue device
                            (Member RobovacCommand.MODE) mode);
            assign (set_attr_mode human)
          else assign (set_attr_mode (PyStr EmptyString))
      | None => assign (set_attr_mode (PyStr EmptyString))
      end;;
      assign (set_attr_fan_speed
                (if is_none fan_speed then PyStr EmptyString else fan_speed));;
      assign (fun self =>
                set_attr_fan_speed (format_fan_speed (_attr_fan_speed self))
                  self)
  end.

(** The body of the [try] block that decodes one consumables value:
    [Some duration] when it reaches the assignment, [None] when one of the
    two membership tests is false. *)
Definition decode_consumable (consumable_data : string)
    : Res (option PyLit) :=
  bytes ← b64decode consumable_data;
  text ← decode_ascii bytes;
  consumables ← literal_eval text;
  has_consumable ← lit_contains "consumable" consumables;
  if (has_consumable : bool) then
    entry ← lit_getitem consumables "consumable";
    has_duration ← lit_contains "duration" entry;
    if (has_duration : bool) then
      entry ← lit_getitem consumables "consumable";
      duration ← lit_getitem entry "duration";
      Ret (Some duration)
    else Ret None
  else Ret None.

(** The [try] statement for one consumables value. *)
Definition _update_consumable (consumable_data : string) : M unit :=
  m_try
    (found ← lift (decode_consumable consumable_data);
     match found with
     | Some duration => assign (set_attr_consumables duration)
     | None => mret tt
     end)
    [CException]
    (fun x => emit (WarnConsumableDecode x)).

Definition _update_cleaning_stats : M unit :=
  self ← get_self;
  match tuyastatus self with
  | None => mret tt
  | Some snapshot =>
      let cleaning_area :=
        dps_get snapshot (_get_dps_code self "CLEANING_AREA") in
      (if negb (is_none cleaning_area) then
         assign (set_attr_cleaning_area (Some (py_str cleaning_area)))
       else mret tt);;
      let cleaning_time :=
        dps_get snapshot (_get_dps_code self "CLEANING_TIME") in
      (if negb (is_none cleaning_time) then
         assign (set_attr_cleaning_time (Some (py_str cleaning_time)));;
         assign (set_attr_auto_return
                   (str_or_none
                      (dps_get snapshot (_get_dps_code self "AUTO_RETURN"))));;
         assign (set_attr_do_not_disturb
                   (str_or_none
                      (dps_get snapshot
                         (_get_dps_code self "DO_NOT_DISTURB"))));;
         assign (set_attr_boost_iq
                   (str_or_none
                      (dps_get snapshot (_get_dps_code self "BOOST_IQ"))))
       else mret tt);;
      if supports (_attr_robovac_supported self) FEATURE_CONSUMABLES then
        m_for (_get_consumables_codes self) (fun CONSUMABLE_CODE =>
          match snapshot !! CONSUMABLE_CODE with
          | Some (PyStr consumable_data) =>
              _update_consumable consumable_data
          | _ => mret tt
          end)
      else mret tt
  end.

Definition update_entity_values : M unit :=
  self ← get_self;
  match vacuum self with
  | None => emit WarnEntityNotInitialized
  | Some device =>
      assign (set_tuyastatus (_dps device));;
      match _dps device with
      | None => emit WarnNoDataPoints
      | Some snapshot =>
          if decide (snapshot = ∅) then emit WarnNoDataPoints
          else
            _update_battery_level;;
            _update_state_and_error;;
            _update_mode_and_fan_speed;;
            _update_cleaning_stats
      end
  end.

(** [await self.vacuum.async_get()] with the given outcome. *)
Definition async_get (outcome : GetOutcome) : M unit :=
  match outcome with
  | GetReturns snapshot =>
      assign (fun self =>
        match vacuum self with
        | Some device =>
            set_vacuum
              (Some {| model_code := model_code device;
                       model_details := model_details device;
                       _dps := snapshot |}) self
        | None => self
        end)
  | GetRaises x => raise x
  end.

Definition async_update (outcome : GetOutcome) : M unit :=
  self ← get_self;
  if py_eq (_attr_error_code self) (PyStr "UNSUPPORTED_MODEL") then mret tt
  else if negb (opt_truthy (_attr_ip_address self)) then
    emit WarnIpAddressNotSet;;
    assign (set_attr_error_code (PyStr "IP_ADDRESS"))
  else
    match vacuum self with
    | None =>
        emit WarnVacuumNotInitialized;;
        assign (set_attr_error_code (PyStr "INITIALIZATION_FAILED"))
    | Some _ =>
        m_try
          (async_get outcome;;
           assign (set_update_failures 0);;
           update_entity_values)
          [CTuyaException]
          (fun _ =>
             assign (fun self =>
                       set_update_failures (update_failures self + 1) self);;
             self ← get_self;
             emit (WarnUpdateFailed (update_failures self));;
             if UPDATE_RETRIES <=? update_failures self then
               assign (set_attr_error_code (PyStr "CONNECTION_FAILED"));;
               emit ErrorMaxRetries
             else mret tt)
    end.

(** [pushed_update_handler]: the device has stored the pushed snapshot. *)
Definition pushed_update_handler : M unit := update_entity_values.
End Entity.

(** ** [robovac.py]: the remaining accessors *)

Definition getRoboVacFeatures (self : RoboVac) : Z :=
  robovac_features (model_details self).

Definition getRoboVacActivityMapping (self : RoboVac)
    : option (gmap string VacuumActivity.t) :=
  activity_mapping (model_details self).

(** [list(self.model_details.commands.keys())] *)
Definition getSupportedCommands (self : RoboVac) : list RobovacCommand.t :=
  map fst (commands (model_details self)).

(** ** [vacuum.py]: the command methods

    A command method ends with one call into the device ([async_set] or
    [async_disable]); nothing follows the call and no handler guards it, so
    an exception of the transport leaves the method as it is raised.  A
    method is modelled up to that call: by the entity it leaves, the call
    and the error records it makes, and [Ret tt] if it raised nothing on the
    way there.  [Ret tt] does not say that the call returns: [completes]
    gives the outcome of the method from the outcome of the call. *)

(** What the command methods take from the host at the moment of a call:
    [str.lower], the reading of the clock, and the envelope of a room clean
    (the base64 text of the JSON method call built from the room ids, the
    count and the timestamp). *)
Class HostCalls : Type := {
  str_lower : string -> string;
  (** [round(time.time() * 1000)] *)
  time_ms : Z;
  room_clean_envelope : PyLit -> PyLit -> Z -> Res string;
}.

(** The [params] argument of [async_send_command]. *)
Inductive Params : Type :=
| ParamsNone
| ParamsList (l : list PyLit)
| ParamsDict (d : list (PyLit * PyLit)).

Inductive CommandEffect : Type :=
| ErrorNotInitialized (action : string)  (* "Cannot ...: vacuum not initialized" *)
| AsyncSet (dps : gmap string PyVal)     (* await self.vacuum.async_set(dps) *)
| AsyncDisable.                          (* await self.vacuum.async_disable() *)

Definition Command : Type :=
  RoboVacEntity -> Res unit * RoboVacEntity * list CommandEffect.

(** A call into the device. *)
Definition is_call (effect : CommandEffect) : bool :=
  match effect with
  | AsyncSet _ | AsyncDisable => true
  | ErrorNotInitialized _ => false
  end.

(** The outcome of the method itself, given the outcome [transport] of the
    call it awaits: a method that has reached its call returns or raises as
    the call does; one that makes no call has its own outcome. *)
Definition completes (transport : Res unit)
    (result : Res unit * RoboVacEntity * list CommandEffect) : Res unit :=
  match fst (fst result) with
  | Ret _ => if existsb is_call (snd result) then transport else Ret tt
  | Raise x => Raise x
  end.

(** An attribute of type [str | None] as a value. *)
Definition attr_val (o : option string) : PyVal :=
  match o with Some s => PyStr s | None => PyNone end.

(** [text.replace(" ", "_")] *)
Definition replace_spaces (text : string) : string :=
  string_of_list_ascii
    (map (fun c => if code_of c =? 32 then chr 95 else c)
       (list_ascii_of_string text)).

(** The lookup in the [mode_commands] dict of [async_send_command]. *)
Definition mode_commands (command : string) : option string :=
  if String.eqb command "edgeClean" then Some "edge"
  else if String.eqb command "smallRoomClean" then Some "small_room"
  else if String.eqb command "autoClean" then Some "auto"
  else None.

(** ASCII lower-casing, the [str.lower] of the reference runtime. *)
Definition ref_lower (text : string) : string :=
  string_of_list_ascii
    (map (fun c => if between 65 (code_of c) 90 then chr (code_of c + 32)
                   else c)
       (list_ascii_of_string text)).

Section Commands.
Context `{Environment} `{HostCalls}.

Definition _is_value_true (value : PyVal) : bool :=
  match value with
  | PyBool true => true
  | PyStr text => String.eqb text "True" || String.eqb (str_lower text) "true"
  | _ => false
  end.

(** [await self.vacuum.async_set({code: value})], up to the call: the
    argument is evaluated first, and there is no call if that raises. *)
Definition send (code : string) (value : Res PyVal) : Command := fun self =>
  match value with
  | Ret v => (Ret tt, self, [AsyncSet {[code := v]}])
  | Raise x => (Raise x, self, [])
  end.

Definition _get_mode_command_data (self : RoboVacEntity) (mode : PyVal)
    : Res (option (gmap string PyVal)) :=
  match vacuum self with
  | None => Ret None
  | Some device =>
      v ← getRoboVacCommandValue device (Member RobovacCommand.MODE) mode;
      Ret (Some {[_get_dps_code self "MODE" := v]})
  end.

Definition async_locate : Command := fun self =>
  match vacuum self with
  | None => (Ret tt, self, [ErrorNotInitialized "locate vacuum"])
  | Some device =>
      let locate_code := _get_dps_code self "LOCATE" in
      let located :=
        match tuyastatus self with
        | Some snapshot => py_truthy (dps_get snapshot locate_code)
        | None => false
        end in
      send locate_code (Ret (PyBool (negb located))) self
  end.

Definition async_return_to_base : Command := fun self =>
  match vacuum self with
  | None => (Ret tt, self, [ErrorNotInitialized "return to base"])
  | Some device =>
      send (_get_dps_code self "RETURN_HOME")
        (getRoboVacCommandValue device (Member RobovacCommand.RETURN_HOME)
           (PyStr "return")) self
  end.

Definition async_start : Command := fun self =>
  let self := set_attr_mode (PyStr "auto") self in
  match vacuum self with
  | None => (Ret tt, self, [ErrorNotInitialized "start vacuum"])
  | Some device =>
      send (_get_dps_code self "MODE")
        (getRoboVacCommandValue device (Member RobovacCommand.MODE)
           (PyStr "auto")) self
  end.

Definition async_pause : Command := fun self =>
  match vacuum self with
  | None => (Ret tt, self, [ErrorNotInitialized "pause vacuum"])
  | Some device =>
      send (_get_dps_code self "START_PAUSE")
        (getRoboVacCommandValue device (Member RobovacCommand.START_PAUSE)
           (PyStr "pause")) self
  end.

Definition async_stop : Command := async_return_to_base.

Definition async_clean_spot : Command := fun self =>
  match vacuum self with
  | None => (Ret tt, self, [ErrorNotInitialized "clean spot"])
  | Some device =>
      send (_get_dps_code self "MODE")
        (getRoboVacCommandValue device (Member RobovacCommand.MODE)
           (PyStr "spot")) self
  end.

Definition async_set_fan_speed (fan_speed : string) : Command := fun self =>
  match vacuum self with
  | None => (Ret tt, self, [ErrorNotInitialized "set fan speed"])
  | Some device =>
      let normalized_fan_speed := replace_spaces (str_lower fan_speed) in
      send (_get_dps_code self "FAN_SPEED")
        (getRoboVacCommandValue device (Member RobovacCommand.FAN_SPEED)
           (PyStr normalized_fan_speed)) self
  end.

(** The toggles [autoReturn], [doNotDisturb] and [boostIQ]. *)
Definition toggle (code_name : string) (current : option string) : Command :=
  fun self =>
    let new_value := negb (_is_value_true (attr_val current)) in
    send (_get_dps_code self code_name) (Ret (PyBool new_value)) self.

Definition async_send_command (command : string) (params : Params)
    : Command := fun self =>
  match vacuum self with
  | None => (Ret tt, self, [ErrorNotInitialized "send command"])
  | Some device =>
      match mode_commands command with
      | Some mode =>
          match _get_mode_command_data self (PyStr mode) with
          | Ret (Some command_data) =>
              if decide (command_data = ∅) then (Ret tt, self, [])
              else (Ret tt, self, [AsyncSet command_data])
          | Ret None => (Ret tt, self, [])
          | Raise x => (Raise x, self, [])
          end
      | None =>
          if String.eqb command "autoReturn" then
            toggle "AUTO_RETURN" (_attr_auto_return self) self
          else if String.eqb command "doNotDisturb" then
            toggle "DO_NOT_DISTURB" (_attr_do_not_disturb self) self
          else if String.eqb command "boostIQ" then
            toggle "BOOST_IQ" (_attr_boost_iq self) self
          else if String.eqb command "roomClean" then
            match params with
            | ParamsDict d =>
                let room_ids :=
                  default (LList [LInt 1]) (lit_dict_get d "roomIds") in
                let count := default (LInt 1) (lit_dict_get d "count") in
                match room_clean_envelope room_ids count time_ms with
                | Ret base64_str =>
                    match TuyaCodes "ROOM_CLEAN" with
                    | Some room_clean =>
                        send room_clean (Ret (PyStr base64_str)) self
                    | None => (Raise AttributeError, self, [])
                    end
                | Raise x => (Raise x, self, [])
                end
            | _ => (Ret tt, self, [])
            end
          else (Ret tt, self, [])
      end
  end.

Definition async_will_remove_from_hass : Command := fun self =>
  match vacuum self with
  | None => (Ret tt, self, [])
  | Some device => (Ret tt, self, [AsyncDisable])
  end.
End Commands.

(** ** The model tables *)

(** A dict display [{k1: v1, ..., kn: vn}] with string keys: a later entry
    for a key replaces an earlier one. *)
Definition dict_display {V} (items : list (string * V)) : gmap string V :=
  fold_left (fun m item => <[fst item := snd item]> m) items ∅.

Definition flags (l : list Z) : Z := fold_left Z.lor l 0.

Definition str_items (l : list (string * string)) : PyDict :=
  map (fun item => (PyStr (fst item), PyStr (snd item))) l.

Definition int_code (n : Z) : option PyVal := Some (PyInt n).

Section Models.
Context `{RoboVacEntityFeature}.
Import VacuumActivity.

(** [vacuums/T2080.py] *)
Definition T2080 : RobovacModelDetails := {|
  robovac_features :=
    flags [FEATURE_CLEANING_TIME; FEATURE_CLEANING_AREA;
           FEATURE_DO_NOT_DISTURB; FEATURE_AUTO_RETURN; FEATURE_ROOM;
           FEATURE_ZONE; FEATURE_BOOST_IQ; FEATURE_MAP; FEATURE_CONSUMABLES];
  commands := [
    (RobovacCommand.START_PAUSE, EntryDict (int_code 2) None);
    (RobovacCommand.DIRECTION,
     EntryDict (int_code 176)
       (Some (ValuesList [PyStr "forward"; PyStr "back"; PyStr "left";
                          PyStr "right"])));
    (RobovacCommand.MODE,
     EntryDict (int_code 152)
       (Some (ValuesDict (str_items [
          ("BBoCCAE=", "auto");
          ("AggN", "pause");
          ("AA==", "Spot");
          ("AggG", "return");
          ("AggO", "Nosweep")]))));
    (RobovacCommand.STATUS,
     EntryDict (int_code 153)
       (Some (ValuesDict (str_items [
          ("CAoAEAUyAggB", "Paused");
          ("CAoCCAEQBTIA", "Room Cleaning");
          ("CAoCCAEQBVIA", "Room Positioning");
          ("DAoCCAEQBTICEAFSAA==", "Room Positioning");
          ("CgoCCAEQBTICCAE=", "Room Paused");
          ("BhAHQgBSAA==", "Standby");
          ("BgoAEAUyAA==", "Standby");
          ("BBAHQgA=", "Heading Home");
          ("BBADGgA=", "Charging");
          ("BhADGgIIAQ==", "Completed");
          ("AA==", "Standby");
          ("AgoA", "Heading Home");
          ("AhAB", "Sleeping");
          ("DAoCCAEQCRoCCAEyAA==", "Adding Water");
          ("BhAJOgIQAg==", "Drying Mop");
          ("CBAJGgA6AhAC", "Drying Mop");
          ("ChAJGgIIAToCEAI=", "Drying Mop");
          ("EAoCCAEQCRoCCAEyADoCEAE=", "Washing Mop");
          ("BhAJOgIQAQ==", "Washing Mop");
          ("AhAJ", "Removing Dirty Water");
          ("BhAGGgIIAQ==", "Manual Control");
          ("CgoAEAkaAggBMgA=", "Auto Cleaning")]))));
    (RobovacCommand.RETURN_HOME,
     EntryDict (int_code 152) (Some (ValuesList [PyStr "AggB"])));
    (RobovacCommand.LOCATE, EntryDict (int_code 103) None);
    (RobovacCommand.ERROR, EntryDict (int_code 106) None);
    (RobovacCommand.FAN_SPEED,
     EntryDict (int_code 158)
       (Some (ValuesDict (str_items [
          ("quiet", "Quiet");
          ("standard", "Standard");
          ("turbo", "Turbo");
          ("max", "Max")]))));
    (RobovacCommand.BATTERY, EntryDict (int_code 163) None);
    (RobovacCommand.BOOST_IQ, EntryDict (int_code 159) None);
    (RobovacCommand.CLEANING_TIME, EntryDict (int_code 6) None);
    (RobovacCommand.CLEANING_AREA, EntryDict (int_code 7) None)];
  activity_mapping := Some (dict_display [
    ("AUTO", CLEANING);
    ("POSITION", CLEANING);
    ("Paused", PAUSED);
    ("Auto Cleaning", CLEANING);
    ("Room Cleaning", CLEANING);
    ("Room Positioning", CLEANING);
    ("Room Paused", PAUSED);
    ("SPOT", CLEANING);
    ("SPOT_POSITION", CLEANING);
    ("SPOT_PAUSE", PAUSED);
    ("START_MANUAL", CLEANING);
    ("Standby", IDLE);
    ("Heading Home", RETURNING);
    ("Charging", DOCKED);
    ("Completed", DOCKED);
    ("Sleeping", IDLE);
    ("Drying Mop", DOCKED);
    ("Washing Mop", DOCKED);
    ("Removing Dirty Water", DOCKED);
    ("Emptying Dust", DOCKED);
    ("Manual Control", CLEANING)]);
|}.

(** [vacuums/T2193.py] *)
Definition T2193 : RobovacModelDetails := {|
  robovac_features :=
    flags [FEATURE_CLEANING_TIME; FEATURE_CLEANING_AREA;
           FEATURE_DO_NOT_DISTURB; FEATURE_AUTO_RETURN; FEATURE_ROOM;
           FEATURE_ZONE; FEATURE_BOOST_IQ; FEATURE_MAP; FEATURE_CONSUMABLES];
  commands := [
    (RobovacCommand.START_PAUSE, EntryDict (int_code 2) None);
    (RobovacCommand.DIRECTION,
     EntryDict (int_code 3)
       (Some (ValuesDict (str_items [
          ("forward", "Forward");
          ("back", "Back");
          ("left", "Left");
          ("right", "Right")]))));
    (RobovacCommand.MODE,
     EntryDict (int_code 5)
       (Some (ValuesDict (str_items [
          ("auto", "Auto");
          ("small_room", "SmallRoom");
          ("spot", "Spot");
          ("edge", "Edge");
          ("nosweep", "Nosweep")]))));
    (RobovacCommand.STATUS, EntryDict (int_code 15) None);
    (RobovacCommand.RETURN_HOME, EntryDict (int_code 101) None);
    (RobovacCommand.FAN_SPEED,
     EntryDict (int_code 102)
       (Some (ValuesDict (str_items [
          ("quiet", "Quiet");
          ("standard", "Standard");
          ("turbo", "Turbo");
          ("max", "Max")]))));
    (RobovacCommand.LOCATE, EntryDict (int_code 103) None);
    (RobovacCommand.BATTERY, EntryDict (int_code 104) None);
    (RobovacCommand.ERROR, EntryDict (int_code 106) None)];
  activity_mapping := None;
|}.

(** [vacuums/T2276.py]; its codes are strings. *)
Definition T2276 : RobovacModelDetails := {|
  robovac_features := flags [FEATURE_DO_NOT_DISTURB; FEATURE_BOOST_IQ];
  commands := [
    (RobovacCommand.START_PAUSE,
     EntryDict (Some (PyStr "1"))
       (Some (ValuesDict [(PyStr "start", PyBool true);
                          (PyStr "stop", PyBool false)])));
    (RobovacCommand.STATUS, EntryDict (Some (PyStr "15")) None);
    (RobovacCommand.MODE,
     EntryDict (Some (PyStr "5"))
       (Some (ValuesDict (str_items [
          ("auto", "auto");
          ("spot", "spot");
          ("edge", "edge")]))));
    (RobovacCommand.RETURN_HOME,
     EntryDict (Some (PyStr "7"))
       (Some (ValuesDict [(PyStr "return_home", PyBool true)])));
    (RobovacCommand.FAN_SPEED,
     EntryDict (Some (PyStr "102"))
       (Some (ValuesDict (str_items [
          ("max", "Max");
          ("mid", "Mid");
          ("min", "Min")]))));
    (RobovacCommand.BATTERY, EntryDict (Some (PyStr "104")) None);
    (RobovacCommand.ERROR, EntryDict (Some (PyStr "2")) None)];
  activity_mapping := None;
|}.

(** [vacuums/T2278.py] *)
Definition T2278 : RobovacModelDetails := {|
  robovac_features := flags [FEATURE_DO_NOT_DISTURB; FEATURE_BOOST_IQ];
  commands := [
    (RobovacCommand.MODE,
     EntryDict (int_code 152)
       (Some (ValuesDict (str_items [
          ("small_room", "AA==");
          ("pause", "AggN");
          ("edge", "AggG");
          ("auto", "BBoCCAE=");
          ("nosweep", "AggO")]))));
    (RobovacCommand.STATUS, EntryDict (int_code 173) None);
    (RobovacCommand.RETURN_HOME,
     EntryDict (int_code 153)
       (Some (ValuesDict (str_items [("return_home", "AggB")]))));
    (RobovacCommand.FAN_SPEED,
     EntryDict (int_code 154)
       (Some (ValuesDict (str_items [
          ("fan_speed", "AgkBCgIKAQoDCgEKBAoB")]))));
    (RobovacCommand.LOCATE,
     EntryDict (int_code 153)
       (Some (ValuesDict (str_items [("locate", "AggC")]))));
    (RobovacCommand.BATTERY, EntryDict (int_code 172) None);
    (RobovacCommand.ERROR, EntryDict (int_code 169) None)];
  activity_mapping := None;
|}.

(** [vacuums/T2320.py] *)
Definition T2320 : RobovacModelDetails := {|
  robovac_features := flags [FEATURE_DO_NOT_DISTURB; FEATURE_BOOST_IQ];
  commands := [
    (RobovacCommand.START_PAUSE,
     EntryDict (int_code 2)
       (Some (ValuesDict [(PyStr "start", PyBool true);
                          (PyStr "pause", PyBool false)])));
    (RobovacCommand.MODE,
     EntryDict (int_code 152)
       (Some (ValuesDict (str_items [
          ("auto", "auto");
          ("return", "return");
          ("pause", "pause");
          ("small_room", "small_room");
          ("single_room", "single_room")]))));
    (RobovacCommand.STATUS, EntryDict (int_code 173) None);
    (RobovacCommand.RETURN_HOME,
     EntryDict (int_code 153)
       (Some (ValuesDict [(PyStr "return_home", PyBool true)])));
    (RobovacCommand.FAN_SPEED,
     EntryDict (int_code 154)
       (Some (ValuesDict (str_items [
          ("Standard", "standard");
          ("Boost IQ", "boost_iq");
          ("Max", "max");
          ("Quiet", "Quiet")]))));
    (RobovacCommand.LOCATE,
     EntryDict (int_code 153)
       (Some (ValuesDict [(PyStr "locate", PyBool true)])));
    (RobovacCommand.BATTERY, EntryDict (int_code 172) None);
    (RobovacCommand.ERROR, EntryDict (int_code 169) None)];
  activity_mapping := None;
|}.
End Models.

(** ** A reference environment

    Sample contents for what the sources import: flag values that are
    distinct powers of two, enum values that are the lower-case member names,
    a default code table, the five model tables as registry, an error
    message table that leaves codes as they are, and the reference runtime. *)

Definition ref_features : RoboVacEntityFeature := {|
  FEATURE_EDGE := 1;
  FEATURE_SMALL_ROOM := 2;
  FEATURE_CLEANING_TIME := 4;
  FEATURE_CLEANING_AREA := 8;
  FEATURE_DO_NOT_DISTURB := 16;
  FEATURE_AUTO_RETURN := 32;
  FEATURE_CONSUMABLES := 64;
  FEATURE_ROOM := 128;
  FEATURE_ZONE := 256;
  FEATURE_MAP := 512;
  FEATURE_BOOST_IQ := 1024;
|}.

Definition assoc {V} (l : list (string * V)) (k : string) : option V :=
  snd <$> find (fun item => String.eqb k (fst item)) l.

Definition ref_command_of_value (v : PyVal) : option RobovacCommand.t :=
  match v with
  | PyStr s =>
      assoc [("status", RobovacCommand.STATUS);
             ("mode", RobovacCommand.MODE);
             ("fan_speed", RobovacCommand.FAN_SPEED);
             ("battery", RobovacCommand.BATTERY);
             ("error", RobovacCommand.ERROR);
             ("start_pause", RobovacCommand.START_PAUSE);
             ("return_home", RobovacCommand.RETURN_HOME);
             ("locate", RobovacCommand.LOCATE);
             ("direction", RobovacCommand.DIRECTION);
             ("cleaning_area", RobovacCommand.CLEANING_AREA);
             ("cleaning_time", RobovacCommand.CLEANING_TIME);
             ("boost_iq", RobovacCommand.BOOST_IQ);
             ("auto_return", RobovacCommand.AUTO_RETURN);
             ("do_not_disturb", RobovacCommand.DO_NOT_DISTURB);
             ("consumables", RobovacCommand.CONSUMABLES);
             ("room_clean", RobovacCommand.ROOM_CLEAN)] s
  | _ => None
  end.

Definition ref_TuyaCodes : string -> option string :=
  assoc [("START_PAUSE", "2"); ("DIRECTION", "3"); ("MODE", "5");
         ("STATUS", "15"); ("RETURN_HOME", "101"); ("FAN_SPEED", "102");
         ("LOCATE", "103"); ("BATTERY_LEVEL", "104"); ("ERROR_CODE", "106");
         ("DO_NOT_DISTURB", "107"); ("CLEANING_TIME", "109");
         ("CLEANING_AREA", "110"); ("BOOST_IQ", "118");
         ("ROOM_CLEAN", "124"); ("AUTO_RETURN", "135")].

(** Some attributes of an enumeration class that are no members. *)
Definition ref_TuyaCodes_other : string -> option bool :=
  assoc [("__name__", true); ("__members__", true); ("__module__", true);
         ("__qualname__", true)].

Definition ref_ROBOVAC_MODELS : string -> option RobovacModelDetails :=
  assoc [("T2080", T2080 (H := ref_features));
         ("T2193", T2193 (H := ref_features));
         ("T2276", T2276 (H := ref_features));
         ("T2278", T2278 (H := ref_features));
         ("T2320", T2320 (H := ref_features))].

Definition ref_environment : Environment := {|
  env_features := ref_features;
  RobovacCommand_of_value := ref_command_of_value;
  TuyaCodes := ref_TuyaCodes;
  TuyaCodes_other := ref_TuyaCodes_other;
  TUYA_CONSUMABLES_CODES := ["142"; "116"];
  ROBOVAC_MODELS := ref_ROBOVAC_MODELS;
  getErrorMessage := fun error_code => error_code;
  int_of_str := ref_int_of_str;
  b64decode := ref_b64decode;
  decode_ascii := ref_decode_ascii;
  literal_eval := ref_literal_eval;
|}.

(** ** Sample entities *)

(** The snapshot of the end-to-end example. *)
Definition T2080_snapshot : gmap string PyVal :=
  dict_display [("153", PyStr "BhAHQgBSAA=="); ("163", PyStr "85");
                ("106", PyInt 0)].

(** A T2080 device that holds that snapshot. *)
Definition T2080_device `{RoboVacEntityFeature} (code : string) : RoboVac :=
  {| model_code := code; model_details := T2080;
     _dps := Some T2080_snapshot |}.

(** A T2080 entity with the given decoded status and error code. *)
Definition T2080_entity_with `{Environment} (state error_code : PyVal)
    : RoboVacEntity :=
  set_attr_tuya_state state
    (set_attr_error_code error_code
       (fst (RoboVacEntity_init
               {| CONF_MODEL := Some "T2080";
                  CONF_IP_ADDRESS := Some "192.168.1.100" |}))).

(** ** Derived notions used in the statements *)

Section Notions.
Context `{Environment}.

(** Encoding a human value and decoding the result again. *)
Definition round_trip (self : RoboVac) (command_name : CommandName)
    (h : PyVal) : Res PyVal :=
  d ← getRoboVacCommandValue self command_name h;
  fst (getRoboVacHumanReadableValue self command_name d).

(** What the round trip logs: the encoder logs nothing, the decoder logs
    when it misses. *)
Definition round_trip_log (self : RoboVac) (command_name : CommandName)
    (h : PyVal) : list LogRecord :=
  match getRoboVacCommandValue self command_name h with
  | Ret d => snd (getRoboVacHumanReadableValue self command_name d)
  | Raise _ => []
  end.

(** The code a command entry declares: the ["code"] of a dict, or a direct
    value; a dict without ["code"] declares none. *)
Definition declared_code (entry : CommandEntry) : option string :=
  match entry with
  | EntryDict (Some c) _ => Some (py_str c)
  | EntryDict None _ => None
  | EntryDirect v => Some (py_str v)
  end.

(** The name under which [getDpsCodes] reports a command. *)
Definition dps_name (cmd : RobovacCommand.t) : string :=
  command_to_dps (RobovacCommand.name cmd).

(** The first half of [decode_consumable]: the value parsed from the data. *)
Definition parse_consumable (consumable_data : string) : Res PyLit :=
  bytes ← b64decode consumable_data;
  text ← decode_ascii bytes;
  literal_eval text.

(** The second half: the guarded extraction of [consumable.duration]. *)
Definition extract_duration (consumables : PyLit) : Res (option PyLit) :=
  has_consumable ← lit_contains "consumable" consumables;
  if (has_consumable : bool) then
    entry ← lit_getitem consumables "consumable";
    has_duration ← lit_contains "duration" entry;
    if (has_duration : bool) then
      entry ← lit_getitem consumables "consumable";
      duration ← lit_getitem entry "duration";
      Ret (Some duration)
    else Ret None
  else Ret None.

(** What one decoded consumables value does to the entity and to the log. *)
Definition consumable_effect (decoded : Res (option PyLit))
    (self : RoboVacEntity) : RoboVacEntity :=
  match decoded with
  | Ret (Some duration) => set_attr_consumables duration self
  | _ => self
  end.

Definition consumable_log (decoded : Res (option PyLit)) : list LogRecord :=
  match decoded with
  | Raise x => [WarnConsumableDecode x]
  | _ => []
  end.

(** The snapshot holds a string under the code. *)
Definition holds_text (snapshot : gmap string PyVal) (code : string) : bool :=
  match snapshot !! code with
  | Some (PyStr _) => true
  | _ => false
  end.

(** The error test of the [activity] property. *)
Definition error_active (error_code : PyVal) : bool :=
  py_truthy error_code
  && negb (py_in_list error_code [PyInt 0; PyStr "no_error"]).

(** An initialised entity that is neither unsupported nor without address:
    [async_update] reaches its [try] block. *)
Definition polls (self : RoboVacEntity) : Prop :=
  py_eq (_attr_error_code self) (PyStr "UNSUPPORTED_MODEL") = false
  /\ opt_truthy (_attr_ip_address self) = true
  /\ vacuum self <> None.

(** One poll: the snapshot the device answers with, or a transport failure. *)
Inductive Poll : Type :=
| Success (snapshot : option (gmap string PyVal))
| Failure.

Definition outcome_of (p : Poll) : GetOutcome :=
  match p with
  | Success snapshot => GetReturns snapshot
  | Failure => GetRaises TuyaException
  end.

(** The entity after a sequence of polls. *)
Definition poll_all (history : list Poll) (self : RoboVacEntity)
    : RoboVacEntity :=
  fold_left (fun self p => snd (fst (async_update (outcome_of p) self)))
    history self.

(** The number of failures since the last success. *)
Definition consecutive_failures (history : list Poll) : Z :=
  fold_left (fun n p => match p with Success _ => 0 | Failure => n + 1 end)
    history 0.

(** Started on an entity that satisfies [P], [m] ends by returning or by
    raising an exception of [E], leaves an entity that satisfies [P], and
    logs only records of [quiet]. *)
Definition keeps {A} (P : RoboVacEntity -> Prop) (quiet : LogRecord -> Prop)
    (E : PyExc -> Prop) (m : M A) : Prop :=
  forall self, P self -> exists r self' log,
    m self = (r, self', log)
    /\ P self'
    /\ Forall quiet log
    /\ match r with Ret _ => True | Raise x => E x end.

Definition any_record (r : LogRecord) : Prop := True.
Definition any_exception (x : PyExc) : Prop := True.
Definition in_range (self : RoboVacEntity) : Prop :=
  0 <= _attr_battery_level self <= 100.

Definition never (x : PyExc) : Prop := False.
End Notions.

(** ** Further notions *)

(** The keys of a dict are pairwise different, as in any Python dict. *)
Fixpoint distinct_keys (d : PyDict) : bool :=
  match d with
  | [] => true
  | (k, _) :: d' => negb (dict_contains d' k) && distinct_keys d'
  end.

(** The status is there: neither [None] nor equal to [0]. *)
Definition status_present (self : RoboVacEntity) : bool :=
  negb (is_none (_attr_tuya_state self)
        || py_eq (_attr_tuya_state self) (PyInt 0)).

(** The names under which [extra_state_attributes] reports. *)
Definition attribute_names : list string :=
  ["error"; "cleaning_area"; "cleaning_time"; "auto_return";
   "do_not_disturb"; "boost_iq"; "consumables"; "mode"].

(** The flag that gates a state attribute, for the gated ones. *)
Definition attribute_feature `{RoboVacEntityFeature} (name : string)
    : option Z :=
  if String.eqb name "cleaning_area" then Some FEATURE_CLEANING_AREA
  else if String.eqb name "cleaning_time" then Some FEATURE_CLEANING_TIME
  else if String.eqb name "auto_return" then Some FEATURE_AUTO_RETURN
  else if String.eqb name "do_not_disturb" then Some FEATURE_DO_NOT_DISTURB
  else if String.eqb name "boost_iq" then Some FEATURE_BOOST_IQ
  else if String.eqb name "consumables" then Some FEATURE_CONSUMABLES
  else None.

(** A field name: the class [TuyaCodes] has a member of that name, or no
    truthy attribute of that name; so every name but those of the truthy
    attributes that are no members ([__name__], [__members__], ...). *)
Definition field_name `{Environment} (code_name : string) : Prop :=
  TuyaCodes code_name <> None \/ TuyaCodes_other code_name <> Some true.

(** The members of [RobovacCommand]. *)
Definition RobovacCommand_members : list RobovacCommand.t :=
  [RobovacCommand.STATUS; RobovacCommand.MODE; RobovacCommand.FAN_SPEED;
   RobovacCommand.BATTERY; RobovacCommand.ERROR; RobovacCommand.START_PAUSE;
   RobovacCommand.RETURN_HOME; RobovacCommand.LOCATE;
   RobovacCommand.DIRECTION; RobovacCommand.CLEANING_AREA;
   RobovacCommand.CLEANING_TIME; RobovacCommand.BOOST_IQ;
   RobovacCommand.AUTO_RETURN; RobovacCommand.DO_NOT_DISTURB;
   RobovacCommand.CONSUMABLES; RobovacCommand.ROOM_CLEAN].

(** The call returns. *)
Definition is_ret {A} (r : Res A) : bool :=
  match r with Ret _ => true | Raise _ => false end.

(** The model code that [RoboVacEntity.__init__] hands to the device. *)
Definition model_code_prefix (item : ConfigItem) : string :=
  match CONF_MODEL item with
  | Some model => String.substring 0 5 model
  | None => EmptyString
  end.

(** The records logged by a sequence of polls. *)
Fixpoint poll_log `{Environment} (history : list Poll) (self : RoboVacEntity)
    : list LogRecord :=
  match history with
  | [] => []
  | p :: history' =>
      let result := async_update (outcome_of p) self in
      (snd result ++ poll_log history' (snd (fst result)))%list
  end.

(** A host for the examples, at one moment: ASCII lower-casing and a
    reading of the clock; the JSON and base64 encoding of the envelope of a
    room clean is left out (asking for it raises). *)
Definition sample_host : HostCalls := {|
  str_lower := ref_lower;
  time_ms := 1700000000000;
  room_clean_envelope := fun _ _ _ => Raise OtherException;
|}.

(** The normal form under which [async_set_fan_speed] looks a name up. *)
Definition normalized `{HostCalls} (fan_speed : string) : string :=
  replace_spaces (str_lower fan_speed).

(** ** The command translator *)

Section TranslatorFacts.
Context `{Environment}.

Lemma to_command_raise command_name x :
  to_command command_name = Raise x -> x = ValueError.
Proof.
  destruct command_name as [c|v]; simpl; [discriminate|].
  destruct (RobovacCommand_of_value v); congruence.
Qed.

Lemma dict_contains_getitem values k :
  dict_contains values k = true -> exists v, dict_getitem values k = Ret v.
Proof.
  unfold dict_contains, dict_getitem.
  destruct (dict_get values k) as [v|]; [eauto | discriminate].
Qed.

Lemma dict_contains_false values k :
  dict_contains values k = false -> dict_getitem values k = Raise KeyError.
Proof.
  unfold dict_contains, dict_getitem.
  destruct (dict_get values k); [discriminate | reflexivity].
Qed.

(** The decoder returns on every input: its [try] block raises nothing but
    [ValueError] and [KeyError]. *)
Lemma getRoboVacHumanReadableValue_returns self command_name value :
  exists human, fst (getRoboVacHumanReadableValue self command_name value)
                = Ret human.
Proof.
  unfold getRoboVacHumanReadableValue, getRoboVacHumanReadableValue_body.
  destruct (to_command command_name) as [cmd|x] eqn:Hc; simpl.
  - destruct (_get_command_values self cmd) as [values|]; simpl; [|eauto].
    destruct (dict_contains values (PyStr (py_str value))); simpl; [|eauto].
    unfold dict_getitem. destruct (dict_get values value); simpl; eauto.
  - apply to_command_raise in Hc as ->. simpl. eauto.
Qed.

Lemma getRoboVacHumanReadableValue_log self command_name value :
  Forall (fun r => exists c v m, r = WarnValueNotFound c v m)
    (snd (getRoboVacHumanReadableValue self command_name value)).
Proof.
  unfold getRoboVacHumanReadableValue.
  destruct (try_except _ _ _) as [[human|]|x]; simpl; repeat constructor.
  eauto.
Qed.
End TranslatorFacts.

(** C7.  Encoding passes a value through unchanged, and returns normally,
    whenever the command name is no command at all, the command is not in the
    model's table, the command has no [values] dict, or the value is not a
    key of that dict.  Besides, encoding returns normally on every input. *)
Theorem getRoboVacCommandValue_pass_through `{Environment}
    (self : RoboVac) (command_name : CommandName) (value : PyVal) :
  returns (getRoboVacCommandValue self command_name value)
  /\ ((to_command command_name = Raise ValueError
       \/ (exists cmd, to_command command_name = Ret cmd
             /\ commands_get (commands (model_details self)) cmd = None)
       \/ (exists cmd, to_command command_name = Ret cmd
             /\ _get_command_values self cmd = None)
       \/ (exists cmd values, to_command command_name = Ret cmd
             /\ _get_command_values self cmd = Some values
             /\ dict_contains values value = false))
      -> getRoboVacCommandValue self command_name value = Ret value).
Proof.
  unfold getRoboVacCommandValue, getRoboVacCommandValue_body, returns.
  split.
  - destruct (to_command command_name) as [cmd|x] eqn:Hc; simpl.
    + destruct (_get_command_values self cmd) as [values|]; simpl; [|eauto].
      destruct (dict_contains values value) eqn:Hin; simpl; [|eauto].
      destruct (dict_contains_getitem _ _ Hin) as [v ->]. simpl. eauto.
    + apply to_command_raise in Hc as ->. simpl. eauto.
  - intros [Hc | [(cmd & Hc & Hcmd) | [(cmd & Hc & Hv) | (cmd & vs & Hc & Hv & Hin)]]];
      rewrite Hc; simpl; try reflexivity.
    + unfold _get_command_values. rewrite Hcmd. reflexivity.
    + rewrite Hv. reflexivity.
    + rewrite Hv, Hin. reflexivity.
Qed.

(** The four cases of C7 on the T2320 table: a name that is no command, a
    command the table lacks, a command without [values], an undeclared key. *)
Lemma getRoboVacCommandValue_pass_through_witness :
  let self := {| model_code := "T2320"; model_details := T2320 (H := ref_features);
                 _dps := None |} in
  @getRoboVacCommandValue ref_environment self
    (NotMember (PyStr "INVALID_COMMAND")) (PyStr "some_value")
  = Ret (PyStr "some_value")
  /\ @getRoboVacCommandValue ref_environment self
       (Member RobovacCommand.DIRECTION) (PyStr "forward")
     = Ret (PyStr "forward")
  /\ @getRoboVacCommandValue ref_environment self
       (Member RobovacCommand.STATUS) PyNone
     = Ret PyNone
  /\ @getRoboVacCommandValue ref_environment self
       (Member RobovacCommand.MODE) (PyStr "unknown_mode")
     = Ret (PyStr "unknown_mode").
Proof.
  intros self. split; [|split; [|split]].
  - apply (@getRoboVacCommandValue_pass_through ref_environment).
    left. reflexivity.
  - apply (@getRoboVacCommandValue_pass_through ref_environment).
    right; left. exists RobovacCommand.DIRECTION. split; reflexivity.
  - apply (@getRoboVacCommandValue_pass_through ref_environment).
    right; right; left. exists RobovacCommand.STATUS. split; reflexivity.
  - apply (@getRoboVacCommandValue_pass_through ref_environment).
    right; right; right.
    eexists RobovacCommand.MODE, _. repeat split; reflexivity.
Defined.

(** C10.  Decoding a value [v] that is not a string, whose [str(v)] is a key
    of the command's [values] dict while [v] itself is not: the membership
    test succeeds, the indexing [values[v]] raises [KeyError], the handler
    swallows it, and [v] comes back unchanged with the warning logged; no
    label is returned. *)
Theorem getRoboVacHumanReadableValue_str_key_mismatch `{Environment}
    (self : RoboVac) (command_name : CommandName) (cmd : RobovacCommand.t)
    (values : PyDict) (v : PyVal) :
  to_command command_name = Ret cmd ->
  _get_command_values self cmd = Some values ->
  is_str v = false ->
  dict_contains values (PyStr (py_str v)) = true ->
  dict_contains values v = false ->
  getRoboVacHumanReadableValue_body self command_name v = Raise KeyError
  /\ getRoboVacHumanReadableValue self command_name v
     = (Ret v, [WarnValueNotFound command_name v (model_code self)])
  /\ forall label,
       fst (getRoboVacHumanReadableValue self command_name v)
       <> Ret (PyStr label).
Proof.
  intros Hc Hv Hstr Hin Hout.
  assert (Hbody :
    getRoboVacHumanReadableValue_body self command_name v = Raise KeyError).
  { unfold getRoboVacHumanReadableValue_body.
    rewrite Hc. simpl. rewrite Hv, Hin.
    rewrite (dict_contains_false _ _ Hout). reflexivity. }
  assert (Hres : getRoboVacHumanReadableValue self command_name v
     = (Ret v, [WarnValueNotFound command_name v (model_code self)])).
  { unfold getRoboVacHumanReadableValue. rewrite Hbody. reflexivity. }
  split; [exact Hbody | split; [exact Hres |]].
  intros label. rewrite Hres. simpl. intros [= ->]. discriminate Hstr.
Qed.

(** C10 on a table that declares the label of error code ["0"], decoding the
    integer [0]. *)
Lemma getRoboVacHumanReadableValue_str_key_mismatch_witness :
  let self :=
    {| model_code := "T0000";
       model_details :=
         {| robovac_features := 0;
            commands :=
              [(RobovacCommand.ERROR,
                EntryDict (int_code 106)
                  (Some (ValuesDict (str_items [("0", "No error")]))))];
            activity_mapping := None |};
       _dps := None |} in
  @getRoboVacHumanReadableValue ref_environment self
    (Member RobovacCommand.ERROR) (PyInt 0)
  = (Ret (PyInt 0),
     [WarnValueNotFound (Member RobovacCommand.ERROR) (PyInt 0) "T0000"]).
Proof.
  intros self.
  apply (@getRoboVacHumanReadableValue_str_key_mismatch ref_environment
           self (Member RobovacCommand.ERROR) RobovacCommand.ERROR
           (str_items [("0", "No error")]) (PyInt 0));
    reflexivity.
Defined.

(** C1 as the specification states it does not hold on the T2278 table:
    ["auto"] is a declared key of the MODE mapping, it encodes to
    ["BBoCCAE="], and decoding that value gives ["BBoCCAE="] back, not
    ["auto"]. *)
Lemma round_trip_T2278_MODE_auto :
  let self := {| model_code := "T2278";
                 model_details := T2278 (H := ref_features);
                 _dps := None |} in
  (exists values,
     _get_command_values self RobovacCommand.MODE = Some values
     /\ dict_contains values (PyStr "auto") = true)
  /\ @round_trip ref_environment self (Member RobovacCommand.MODE)
       (PyStr "auto") = Ret (PyStr "BBoCCAE=")
  /\ @round_trip ref_environment self (Member RobovacCommand.MODE)
       (PyStr "auto") <> Ret (PyStr "auto")
  /\ @round_trip_log ref_environment self (Member RobovacCommand.MODE)
       (PyStr "auto")
     = [WarnValueNotFound (Member RobovacCommand.MODE) (PyStr "BBoCCAE=")
          "T2278"].
Proof.
  intros self. split; [|split; [|split]].
  - eexists. split; reflexivity.
  - reflexivity.
  - discriminate.
  - reflexivity.
Qed.

(** C1, as the code has it.  For a command with a [values] dict and a
    declared key [h] with entry [d], encoding gives [str(d)], and decoding
    looks [str(d)] up as a key of the same dict: the round trip gives
    [str(values[str(d)])] and logs nothing when [str(d)] is a key, and gives
    [str(d)] and logs exactly the not-found warning (for the command, the
    value [str(d)] and the model) otherwise.  It gives [h] back exactly when
    the dict has an entry for [str(d)] whose text is [h]. *)
Theorem round_trip_characterised `{Environment}
    (self : RoboVac) (command_name : CommandName) (cmd : RobovacCommand.t)
    (values : PyDict) (h d : PyVal) :
  to_command command_name = Ret cmd ->
  _get_command_values self cmd = Some values ->
  dict_get values h = Some d ->
  getRoboVacCommandValue self command_name h = Ret (PyStr (py_str d))
  /\ round_trip self command_name h
     = Ret (match dict_get values (PyStr (py_str d)) with
            | Some back => PyStr (py_str back)
            | None => PyStr (py_str d)
            end)
  /\ round_trip_log self command_name h
     = match dict_get values (PyStr (py_str d)) with
       | Some _ => []
       | None =>
           [WarnValueNotFound command_name (PyStr (py_str d))
              (model_code self)]
       end
  /\ (round_trip self command_name h = Ret h
      <-> exists back,
            dict_get values (PyStr (py_str d)) = Some back
            /\ PyStr (py_str back) = h).
Proof.
  intros Hc Hv Hh.
  assert (Henc :
    getRoboVacCommandValue self command_name h = Ret (PyStr (py_str d))).
  { unfold getRoboVacCommandValue, getRoboVacCommandValue_body.
    rewrite Hc. simpl. rewrite Hv.
    unfold dict_contains, dict_getitem. rewrite Hh. reflexivity. }
  assert (Hrt : round_trip self command_name h
     = Ret (match dict_get values (PyStr (py_str d)) with
            | Some back => PyStr (py_str back)
            | None => PyStr (py_str d)
            end)).
  { unfold round_trip. rewrite Henc. simpl.
    unfold getRoboVacHumanReadableValue, getRoboVacHumanReadableValue_body.
    rewrite Hc. simpl. rewrite Hv.
    unfold dict_contains, dict_getitem. simpl.
    destruct (dict_get values (PyStr (py_str d))); reflexivity. }
  assert (Hlog : round_trip_log self command_name h
     = match dict_get values (PyStr (py_str d)) with
       | Some _ => []
       | None =>
           [WarnValueNotFound command_name (PyStr (py_str d))
              (model_code self)]
       end).
  { unfold round_trip_log. rewrite Henc.
    unfold getRoboVacHumanReadableValue, getRoboVacHumanReadableValue_body.
    rewrite Hc. simpl. rewrite Hv.
    unfold dict_contains, dict_getitem. simpl.
    destruct (dict_get values (PyStr (py_str d))); reflexivity. }
  split; [exact Henc | split; [exact Hrt | split; [exact Hlog |]]].
  rewrite Hrt.
  destruct (dict_get values (PyStr (py_str d))) as [back|] eqn:Hback.
  - split.
    + intros [= <-]. eauto.
    + intros (back' & [= <-] & <-). reflexivity.
  - split.
    + intros [= <-]. congruence.
    + intros (back & Hb & _). discriminate Hb.
Qed.

(** C1 on an identity entry: MODE ["auto"] of the T2320 table. *)
Lemma round_trip_characterised_witness :
  let self := {| model_code := "T2320";
                 model_details := T2320 (H := ref_features);
                 _dps := None |} in
  @round_trip ref_environment self (Member RobovacCommand.MODE) (PyStr "auto")
  = Ret (PyStr "auto").
Proof.
  intros self.
  apply (proj2 (proj2 (proj2 (@round_trip_characterised ref_environment self
           (Member RobovacCommand.MODE) RobovacCommand.MODE
           (str_items [("auto", "auto"); ("return", "return");
                       ("pause", "pause"); ("small_room", "small_room");
                       ("single_room", "single_room")])
           (PyStr "auto") (PyStr "auto") eq_refl eq_refl eq_refl)))).
  exists (PyStr "auto"). split; reflexivity.
Defined.

(** ** The DP-code resolver *)

Lemma dps_name_inj (a b : RobovacCommand.t) : dps_name a = dps_name b -> a = b.
Proof.
  destruct a, b; intros E; try reflexivity; vm_compute in E; discriminate E.
Qed.

Lemma getDpsCodes_step_declared codes item :
  getDpsCodes_step codes item
  = match declared_code (snd item) with
    | Some c => <[dps_name (fst item) := c]> codes
    | None => codes
    end.
Proof. destruct item as [cmd [[c|] vs|v]]; reflexivity. Qed.

(** A name that no entry declares keeps the code it had before the loop. *)
Lemma getDpsCodes_fold_other cs (codes : gmap string string) (k : string) :
  (forall cmd entry, In (cmd, entry) cs ->
     declared_code entry <> None -> dps_name cmd <> k) ->
  fold_left getDpsCodes_step cs codes !! k = codes !! k.
Proof.
  revert codes. induction cs as [|[cmd entry] cs IH]; intros codes Hk.
  - reflexivity.
  - simpl. rewrite IH by (intros; eapply Hk; [right|]; eauto).
    rewrite getDpsCodes_step_declared. simpl.
    destruct (declared_code entry) as [c|] eqn:Hd; [|reflexivity].
    apply lookup_insert_ne. apply (Hk cmd entry); [left; reflexivity|].
    congruence.
Qed.

(** In a table with distinct keys, an entry that declares a code is reported
    under its name with that code. *)
Lemma getDpsCodes_fold_declared cs (codes : gmap string string) cmd entry c :
  NoDup (map fst cs) -> In (cmd, entry) cs -> declared_code entry = Some c ->
  fold_left getDpsCodes_step cs codes !! dps_name cmd = Some c.
Proof.
  revert codes. induction cs as [|[cmd' entry'] cs IH]; intros codes Hnd Hin Hd.
  - destruct Hin.
  - simpl in Hnd. apply NoDup_cons in Hnd as [Hfresh Hnd].
    destruct Hin as [[= -> ->]|Hin]; simpl.
    + rewrite getDpsCodes_fold_other.
      * rewrite getDpsCodes_step_declared. simpl. rewrite Hd.
        apply lookup_insert_eq.
      * intros cmd2 entry2 Hin2 _ Heq. apply dps_name_inj in Heq as ->.
        apply Hfresh. apply list_elem_of_In.
        change cmd with (fst (cmd, entry2)). apply in_map. exact Hin2.
    + apply IH; assumption.
Qed.

Section ResolverFacts.
Context `{Environment}.

Lemma fallback_code_field code_name :
  field_name code_name ->
  fallback_code code_name = Ret (TuyaCodes_default code_name).
Proof.
  unfold field_name, fallback_code, TuyaCodes_default.
  destruct (TuyaCodes code_name) as [value|]; [reflexivity|].
  destruct (TuyaCodes_other code_name) as [[|]|]; intros [Hf|Hf];
    first [reflexivity | congruence].
Qed.

Lemma fallback_code_raises code_name x :
  fallback_code code_name = Raise x ->
  x = AttributeError
  /\ TuyaCodes code_name = None /\ TuyaCodes_other code_name = Some true.
Proof.
  unfold fallback_code.
  destruct (TuyaCodes code_name) as [value|]; [discriminate|].
  destruct (TuyaCodes_other code_name) as [[|]|]; try discriminate.
  intros [= <-]. auto.
Qed.

(** A name that no entry of the device's table declares falls back. *)
Lemma _get_dps_code_call_undeclared self code_name :
  (forall device cmd entry,
     vacuum self = Some device ->
     In (cmd, entry) (commands (model_details device)) ->
     declared_code entry <> None -> dps_name cmd <> code_name) ->
  _get_dps_code_call self code_name = fallback_code code_name.
Proof.
  intros Hnone. unfold _get_dps_code_call.
  destruct (vacuum self) as [device|] eqn:Hdev; [|reflexivity].
  unfold getDpsCodes. rewrite getDpsCodes_fold_other.
  - rewrite lookup_empty. reflexivity.
  - intros cmd entry. apply Hnone. reflexivity.
Qed.
End ResolverFacts.

(** C8.  Resolving a logical field never fails, and follows the order
    declared code, default code, empty string.  For the call
    [self._get_dps_code(code_name)] with its outcome:
    - for a command entry of the model's table that declares a code, the
      field named after the command (BATTERY under BATTERY_LEVEL, ERROR under
      ERROR_CODE, every other command under its own name) returns the text
      of that code;
    - a dict entry without ["code"] is skipped: it does not change the table
      of codes;
    - a name that no entry of the table declares, and any name on an entity
      without device, returns the value of the [TuyaCodes] member of that
      name; without such a member it returns the empty string, unless the
      class has a truthy attribute of that name that is no member, on which
      reading [value] raises [AttributeError];
    - so on every field name (a member of [TuyaCodes], or a name that is no
      truthy attribute of the class) the call returns, whatever the entity
      and its model, and what it returns is [_get_dps_code];
    - and the call raises nothing but that [AttributeError], and only on a
      name that is no field name and that the model does not declare. *)
Theorem _get_dps_code_resolution `{Environment}
    (self : RoboVacEntity) (code_name : string) :
  (forall device cmd entry c,
     vacuum self = Some device ->
     NoDup (map fst (commands (model_details device))) ->
     In (cmd, entry) (commands (model_details device)) ->
     declared_code entry = Some c ->
     _get_dps_code_call self (dps_name cmd) = Ret c)
  /\ (dps_name RobovacCommand.BATTERY = "BATTERY_LEVEL"
      /\ dps_name RobovacCommand.ERROR = "ERROR_CODE"
      /\ forall cmd, cmd <> RobovacCommand.BATTERY ->
           cmd <> RobovacCommand.ERROR ->
           dps_name cmd = RobovacCommand.name cmd)
  /\ (forall codes cmd values,
        getDpsCodes_step codes (cmd, EntryDict None values) = codes)
  /\ ((forall device cmd entry,
         vacuum self = Some device ->
         In (cmd, entry) (commands (model_details device)) ->
         declared_code entry <> None -> dps_name cmd <> code_name) ->
      (forall default_code,
         TuyaCodes code_name = Some default_code ->
         _get_dps_code_call self code_name = Ret default_code)
      /\ (TuyaCodes code_name = None ->
          TuyaCodes_other code_name <> Some true ->
          _get_dps_code_call self code_name = Ret EmptyString)
      /\ (TuyaCodes code_name = None ->
          TuyaCodes_other code_name = Some true ->
          _get_dps_code_call self code_name = Raise AttributeError))
  /\ (field_name code_name ->
      _get_dps_code_call self code_name = Ret (_get_dps_code self code_name))
  /\ (forall x,
        _get_dps_code_call self code_name = Raise x ->
        x = AttributeError
        /\ ~ field_name code_name
        /\ forall device,
             vacuum self = Some device ->
             getDpsCodes device !! code_name = None).
Proof.
  split; [|split; [|split; [|split; [|split]]]].
  - intros device cmd entry c Hdev Hnd Hin Hd.
    unfold _get_dps_code_call, getDpsCodes. rewrite Hdev.
    rewrite (getDpsCodes_fold_declared _ _ cmd entry c Hnd Hin Hd).
    reflexivity.
  - split; [reflexivity | split; [reflexivity |]].
    intros cmd Hb He. destruct cmd; try reflexivity; congruence.
  - reflexivity.
  - intros Hnone. rewrite (_get_dps_code_call_undeclared _ _ Hnone).
    unfold fallback_code. split; [|split].
    + intros default_code ->. reflexivity.
    + intros -> Hother.
      destruct (TuyaCodes_other code_name) as [[|]|];
        first [reflexivity | congruence].
    + intros -> ->. reflexivity.
  - intros Hfield. unfold _get_dps_code_call, _get_dps_code.
    destruct (vacuum self) as [device|];
      [destruct (getDpsCodes device !! code_name); [reflexivity|]|];
      apply fallback_code_field; exact Hfield.
  - intros x Hraise. unfold _get_dps_code_call in Hraise.
    assert (Hfallback : fallback_code code_name = Raise x
                        /\ forall device, vacuum self = Some device ->
                             getDpsCodes device !! code_name = None).
    { destruct (vacuum self) as [device|].
      - destruct (getDpsCodes device !! code_name) eqn:Hcode;
          [discriminate Hraise|].
        split; [exact Hraise|]. intros device' [= <-]. exact Hcode.
      - split; [exact Hraise | discriminate]. }
    destruct Hfallback as (Hfallback & Hundeclared).
    destruct (fallback_code_raises _ _ Hfallback) as (-> & Hmember & Hother).
    split; [reflexivity|]. split; [|exact Hundeclared].
    intros [Hf|Hf]; congruence.
Qed.

(** C8 on a T2080 entity: the battery code is the declared ["163"];
    AUTO_RETURN, which the table lacks, is the default ["135"]; the unknown
    field ["HUMIDITY"] is the empty string; and the entity of each model of
    the registry resolves the field of every command.  The name
    ["__name__"] is no field name: the call raises on it. *)
Lemma _get_dps_code_resolution_witness :
  let entity model :=
    fst (@RoboVacEntity_init ref_environment
           {| CONF_MODEL := Some model;
              CONF_IP_ADDRESS := Some "192.168.1.100" |}) in
  let self := entity "T2080" in
  @_get_dps_code_call ref_environment self "BATTERY_LEVEL" = Ret "163"
  /\ @_get_dps_code_call ref_environment self "AUTO_RETURN" = Ret "135"
  /\ @_get_dps_code_call ref_environment self "HUMIDITY" = Ret EmptyString
  /\ @_get_dps_code_call ref_environment self "STATUS"
     = Ret (@_get_dps_code ref_environment self "STATUS")
  /\ forallb (fun model =>
       forallb (fun cmd =>
         is_ret (@_get_dps_code_call ref_environment (entity model)
                   (dps_name cmd)))
         RobovacCommand_members)
       ["T2080"; "T2193"; "T2276"; "T2278"; "T2320"] = true
  /\ @_get_dps_code_call ref_environment self "__name__"
     = Raise AttributeError.
Proof.
  intros entity self.
  assert (Hundeclared : forall code_name,
    ~ In code_name (map (fun item => dps_name (fst item))
                      (commands (T2080 (H := ref_features)))) ->
    forall device cmd entry,
      vacuum self = Some device ->
      In (cmd, entry) (commands (model_details device)) ->
      declared_code entry <> None -> dps_name cmd <> code_name).
  { intros code_name Hfresh device cmd entry [= <-] Hin _ <-.
    apply Hfresh. apply in_map_iff. exists (cmd, entry). auto. }
  split; [|split; [|split; [|split; [|split]]]].
  - refine (proj1 (@_get_dps_code_resolution ref_environment self "BATTERY_LEVEL")
              _ RobovacCommand.BATTERY (EntryDict (int_code 163) None) "163"
              eq_refl _ _ eq_refl).
    + apply (bool_decide_unpack _). vm_compute. reflexivity.
    + vm_compute. tauto.
  - refine (proj1 (proj1 (proj2 (proj2 (proj2
      (@_get_dps_code_resolution ref_environment self "AUTO_RETURN")))) _)
      "135" eq_refl).
    apply Hundeclared. vm_compute. intuition discriminate.
  - refine (proj1 (proj2 (proj1 (proj2 (proj2 (proj2
      (@_get_dps_code_resolution ref_environment self "HUMIDITY")))) _))
      eq_refl _).
    + apply Hundeclared. vm_compute. intuition discriminate.
    + discriminate.
  - refine (proj1 (proj2 (proj2 (proj2 (proj2
      (@_get_dps_code_resolution ref_environment self "STATUS"))))) _).
    left. discriminate.
  - vm_compute. reflexivity.
  - refine (proj2 (proj2 (proj1 (proj2 (proj2 (proj2
      (@_get_dps_code_resolution ref_environment self "__name__")))) _))
      eq_refl eq_refl).
    apply Hundeclared. vm_compute. intuition discriminate.
Defined.

(** ** The activity deriver *)

(** C2.  With a status that is neither [None] nor equal to [0], and an error
    code that is not [None], is truthy, and is equal neither to [0] nor to
    ["no_error"], the activity is ERROR, whatever the status and whatever the
    activity mapping.  ("Equal" is Python's [==], as in the source.) *)
Theorem activity_error_precedence (self : RoboVacEntity) :
  is_none (_attr_tuya_state self) = false ->
  py_eq (_attr_tuya_state self) (PyInt 0) = false ->
  is_none (_attr_error_code self) = false ->
  py_truthy (_attr_error_code self) = true ->
  py_eq (_attr_error_code self) (PyInt 0) = false ->
  py_eq (_attr_error_code self) (PyStr "no_error") = false ->
  activity self = Some VacuumActivity.ERROR.
Proof.
  intros Hnone Hzero _ Htruthy Herr0 Hno_error.
  unfold activity, py_in_list. simpl.
  rewrite Hnone, Hzero, Htruthy, Herr0, Hno_error. reflexivity.
Qed.

(** C2 on the T2080 table: status ["Auto Cleaning"], which the activity
    mapping sends to CLEANING, with error code ["E001"]. *)
Lemma activity_error_precedence_witness :
  (T2080 (H := ref_features)).(activity_mapping)
    ≫= (fun mapping => mapping !! "Auto Cleaning")
  = Some VacuumActivity.CLEANING
  /\ activity
       (@T2080_entity_with ref_environment (PyStr "Auto Cleaning")
          (PyStr "E001"))
     = Some VacuumActivity.ERROR.
Proof.
  split; [vm_compute; reflexivity |].
  apply activity_error_precedence; reflexivity.
Defined.

(** C3.  With an activity mapping declared, a status that is neither [None]
    nor equal to [0], and no active error, the activity is the entry of the
    mapping for the status text [str(status)] (the status itself when it is a
    string): the mapped activity when there is an entry, and no activity at
    all when there is none. *)
Theorem activity_mapping_strict (self : RoboVacEntity)
    (mapping : gmap string VacuumActivity.t) :
  _attr_activity_mapping self = Some mapping ->
  is_none (_attr_tuya_state self) = false ->
  py_eq (_attr_tuya_state self) (PyInt 0) = false ->
  error_active (_attr_error_code self) = false ->
  activity self = mapping !! py_str (_attr_tuya_state self)
  /\ (mapping !! py_str (_attr_tuya_state self) = None ->
      activity self = None)
  /\ (forall mapped,
        mapping !! py_str (_attr_tuya_state self) = Some mapped ->
        activity self = Some mapped)
  /\ (forall status, _attr_tuya_state self = PyStr status ->
        activity self = mapping !! status).
Proof.
  intros Hmap Hnone Hzero Herr.
  assert (Hact : activity self = mapping !! py_str (_attr_tuya_state self)).
  { unfold activity, error_active in *. cbv zeta.
    rewrite Hnone, Hzero, Herr, Hmap. reflexivity. }
  split; [exact Hact | split; [|split]].
  - intros Habsent. rewrite Hact. exact Habsent.
  - intros mapped Hpresent. rewrite Hact. exact Hpresent.
  - intros status Hstatus. rewrite Hact, Hstatus. reflexivity.
Qed.

(** C3 on the T2080 table: the unknown status ["Unknown State"] gives no
    activity, although the heuristics would say CLEANING. *)
Lemma activity_mapping_strict_witness :
  activity
    (@T2080_entity_with ref_environment (PyStr "Unknown State") (PyInt 0))
  = None
  /\ activity
       (@T2080_entity_with ref_environment (PyStr "Standby") (PyInt 0))
     = Some VacuumActivity.IDLE.
Proof.
  split.
  - refine (proj1 (proj2 (activity_mapping_strict
              (@T2080_entity_with ref_environment (PyStr "Unknown State")
                 (PyInt 0)) _ eq_refl eq_refl eq_refl eq_refl)) _).
    vm_compute. reflexivity.
  - refine (proj1 (proj2 (proj2 (activity_mapping_strict
              (@T2080_entity_with ref_environment (PyStr "Standby")
                 (PyInt 0)) _ eq_refl eq_refl eq_refl eq_refl)))
              VacuumActivity.IDLE _).
    vm_compute. reflexivity.
Defined.

(** ** Reasoning about entity methods *)

Section Keeps.
Context `{Environment}.
Context (P : RoboVacEntity -> Prop) (quiet : LogRecord -> Prop).

Lemma keeps_ret {A} E (a : A) : keeps P quiet E (mret a).
Proof. intros self HP. exists (Ret a), self, []. auto. Qed.

Lemma keeps_bind {A C} E (m : M A) (k : A -> M C) :
  keeps P quiet E m -> (forall a, keeps P quiet E (k a)) ->
  keeps P quiet E (m ≫= k).
Proof.
  intros Hm Hk self HP.
  destruct (Hm self HP) as (r & self1 & log1 & Em & HP1 & Hq1 & Hr).
  unfold mbind, M_bind. rewrite Em. destruct r as [a|x].
  - destruct (Hk a self1 HP1) as (r2 & self2 & log2 & Ek & HP2 & Hq2 & Hr2).
    rewrite Ek. exists r2, self2, (log1 ++ log2)%list.
    split; [reflexivity|]. split; [assumption|].
    split; [apply Forall_app; auto | assumption].
  - exists (Raise x), self1, log1. auto.
Qed.

Lemma keeps_get_self E : keeps P quiet E get_self.
Proof. intros self HP. exists (Ret self), self, []. auto. Qed.

Lemma keeps_assign E g :
  (forall self, P self -> P (g self)) -> keeps P quiet E (assign g).
Proof. intros Hg self HP. exists (Ret tt), (g self), []. auto. Qed.

Lemma keeps_emit E r : quiet r -> keeps P quiet E (emit r).
Proof. intros Hq self HP. exists (Ret tt), self, [r]. auto. Qed.

Lemma keeps_raise {A} (E : PyExc -> Prop) x : E x -> keeps P quiet E (@raise A x).
Proof. intros HE self HP. exists (Raise x), self, []. auto. Qed.

Lemma keeps_lift {A} (E : PyExc -> Prop) (r : Res A) :
  (forall x, r = Raise x -> E x) -> keeps P quiet E (lift r).
Proof.
  intros Hr self HP. exists r, self, []. repeat split; auto.
  destruct r; auto.
Qed.

Lemma keeps_try {A} (E E' : PyExc -> Prop) (body : M A) classes handler :
  keeps P quiet E body ->
  (forall x, E x -> caught_by classes x = false -> E' x) ->
  (forall x, keeps P quiet E' (handler x)) ->
  keeps P quiet E' (m_try body classes handler).
Proof.
  intros Hb Hpass Hh self HP.
  destruct (Hb self HP) as (r & self1 & log1 & Eb & HP1 & Hq1 & Hr).
  unfold m_try. rewrite Eb. destruct r as [a|x].
  - exists (Ret a), self1, log1. auto.
  - destruct (caught_by classes x) eqn:Hcaught.
    + destruct (Hh x self1 HP1) as (r2 & self2 & log2 & Eh & HP2 & Hq2 & Hr2).
      rewrite Eh. exists r2, self2, (log1 ++ log2)%list.
      split; [reflexivity|]. split; [assumption|].
      split; [apply Forall_app; auto | assumption].
    + exists (Raise x), self1, log1. auto.
Qed.

Lemma keeps_for {A} E (xs : list A) body :
  (forall x, keeps P quiet E (body x)) -> keeps P quiet E (m_for xs body).
Proof.
  intros Hb. induction xs as [|x xs IH]; simpl.
  - apply keeps_ret.
  - apply keeps_bind; auto.
Qed.

(** Decoding a value for display keeps any property of the entity and logs
    at most the not-found warning. *)
Lemma keeps_human_readable E device command_name value :
  (forall c v m, quiet (WarnValueNotFound c v m)) ->
  keeps P quiet E
    (call (getRoboVacHumanReadableValue device command_name value)).
Proof.
  intros Hq self HP.
  destruct (getRoboVacHumanReadableValue_returns device command_name value)
    as [human Hhuman].
  exists (Ret human), self,
    (snd (getRoboVacHumanReadableValue device command_name value)).
  unfold call. rewrite Hhuman. repeat split; auto.
  eapply Forall_impl; [apply getRoboVacHumanReadableValue_log|].
  intros r (c & v & m & ->). apply Hq.
Qed.
End Keeps.

(** One step of a [keeps] proof: follow the shape of the method. *)
Ltac keeps_step :=
  lazymatch goal with
  | |- keeps _ _ _ (mret _) => apply keeps_ret
  | |- keeps _ _ _ (_ ≫= _) => apply keeps_bind; [|intros ?]
  | |- keeps _ _ _ get_self => apply keeps_get_self
  | |- keeps _ _ _ (assign _) =>
      apply keeps_assign; unfold in_range;
      let HP := fresh in intros ? HP; first [exact HP | simpl; lia]
  | |- keeps _ _ _ (emit _) =>
      apply keeps_emit; first [exact I | discriminate]
  | |- keeps _ _ _ (call (getRoboVacHumanReadableValue _ _ _)) =>
      apply keeps_human_readable; intros; first [exact I | discriminate]
  | |- keeps _ _ _ (m_for _ _) => apply keeps_for; intros ?
  | |- keeps _ _ _ (match ?x with _ => _ end) => destruct x
  end.

Section UpdateFacts.
Context `{Environment}.
Context (P : RoboVacEntity -> Prop) (quiet : LogRecord -> Prop).
(** [P] looks at nothing that the value updates assign, except possibly the
    battery level. *)
Context (P_state : forall v self, P self -> P (set_attr_tuya_state v self)).
Context (P_error : forall v self, P self -> P (set_attr_error_code v self)).
Context (P_mode : forall v self, P self -> P (set_attr_mode v self)).
Context (P_fan : forall v self, P self -> P (set_attr_fan_speed v self)).
Context (P_area : forall v self, P self -> P (set_attr_cleaning_area v self)).
Context (P_time : forall v self, P self -> P (set_attr_cleaning_time v self)).
Context (P_return : forall v self, P self -> P (set_attr_auto_return v self)).
Context (P_dnd : forall v self, P self -> P (set_attr_do_not_disturb v self)).
Context (P_boost : forall v self, P self -> P (set_attr_boost_iq v self)).
Context (P_consumables :
  forall v self, P self -> P (set_attr_consumables v self)).
Context (quiet_not_found : forall c v m, quiet (WarnValueNotFound c v m)).
Context (quiet_consumable : forall x, quiet (WarnConsumableDecode x)).

Ltac keeps_auto :=
  repeat first
    [ apply keeps_assign; intros; auto
    | apply keeps_emit; auto
    | apply keeps_human_readable; auto
    | keeps_step ].

Lemma keeps_update_state_and_error :
  keeps P quiet never _update_state_and_error.
Proof using P_state P_error quiet_not_found. unfold _update_state_and_error. keeps_auto. Qed.

Lemma keeps_update_mode_and_fan_speed :
  keeps P quiet never _update_mode_and_fan_speed.
Proof using P_mode P_fan quiet_not_found. unfold _update_mode_and_fan_speed. keeps_auto. Qed.

Lemma keeps_update_consumable consumable_data :
  keeps P quiet never (_update_consumable consumable_data).
Proof using P_consumables quiet_consumable.
  unfold _update_consumable.
  apply keeps_try with (E := any_exception).
  - apply keeps_bind; [apply keeps_lift; intros; exact I|].
    intros found. keeps_auto.
  - intros x _ Hcaught. discriminate Hcaught.
  - intros x. keeps_auto.
Qed.

Lemma keeps_update_cleaning_stats :
  keeps P quiet never _update_cleaning_stats.
Proof using P_area P_time P_return P_dnd P_boost P_consumables
  quiet_consumable.
  unfold _update_cleaning_stats.
  repeat first [ apply keeps_update_consumable | keeps_auto ].
Qed.
End UpdateFacts.

(** ** The battery level *)

Section BatteryFacts.
Context `{Environment}.

Lemma py_int_raises (v : PyVal) x :
  py_int v = Raise x -> x = ValueError \/ x = TypeError.
Proof.
  destruct v as [| | |s]; simpl; try discriminate.
  - intros [= <-]. auto.
  - destruct (int_of_str s); [discriminate | intros [= <-]; auto].
Qed.

Lemma keeps_update_battery_level :
  keeps in_range any_record never _update_battery_level.
Proof.
  unfold _update_battery_level.
  apply keeps_bind; [apply keeps_get_self | intros self].
  destruct (tuyastatus self) as [snapshot|]; [|apply keeps_ret].
  destruct (negb _); [|keeps_step].
  apply keeps_try with (E := fun x => x = ValueError \/ x = TypeError).
  - (* the unclamped level is overwritten before anything else happens *)
    intros s Hs. unfold mbind, M_bind, lift, assign.
    destruct (py_int _) as [level|x] eqn:Hint.
    + eexists _, _, _. split; [reflexivity|].
      split; [unfold in_range; simpl; lia|]. split; [constructor | exact I].
    + eexists _, _, _. split; [reflexivity|].
      split; [exact Hs|]. split; [constructor|].
      exact (py_int_raises _ _ Hint).
  - intros x [-> | ->] Hcaught; discriminate Hcaught.
  - intros _. apply keeps_bind; [|intros _]; keeps_step.
Qed.

Lemma keeps_update_entity_values (P : RoboVacEntity -> Prop)
    (quiet : LogRecord -> Prop) :
  (forall v self, P self -> P (set_tuyastatus v self)) ->
  (forall v self, P self -> P (set_attr_tuya_state v self)) ->
  (forall v self, P self -> P (set_attr_error_code v self)) ->
  (forall v self, P self -> P (set_attr_mode v self)) ->
  (forall v self, P self -> P (set_attr_fan_speed v self)) ->
  (forall v self, P self -> P (set_attr_cleaning_area v self)) ->
  (forall v self, P self -> P (set_attr_cleaning_time v self)) ->
  (forall v self, P self -> P (set_attr_auto_return v self)) ->
  (forall v self, P self -> P (set_attr_do_not_disturb v self)) ->
  (forall v self, P self -> P (set_attr_boost_iq v self)) ->
  (forall v self, P self -> P (set_attr_consumables v self)) ->
  (forall c v m, quiet (WarnValueNotFound c v m)) ->
  (forall x, quiet (WarnConsumableDecode x)) ->
  quiet WarnEntityNotInitialized -> quiet WarnNoDataPoints ->
  keeps P quiet never _update_battery_level ->
  keeps P quiet never update_entity_values.
Proof.
  intros Hsnap Hst Herr Hmode Hfan Harea Htime Hret Hdnd Hboost Hcons
    Hq1 Hq2 Hq3 Hq4 Hbattery.
  unfold update_entity_values.
  apply keeps_bind; [apply keeps_get_self | intros self].
  destruct (vacuum self) as [device|]; [|apply keeps_emit; assumption].
  apply keeps_bind; [apply keeps_assign; auto | intros _].
  destruct (_dps device) as [snapshot|]; [|apply keeps_emit; assumption].
  destruct (decide (snapshot = ∅)); [apply keeps_emit; assumption|].
  apply keeps_bind; [exact Hbattery | intros _].
  apply keeps_bind;
    [apply keeps_update_state_and_error; assumption | intros _].
  apply keeps_bind;
    [apply keeps_update_mode_and_fan_speed; assumption | intros _].
  apply keeps_update_cleaning_stats; assumption.
Qed.

Lemma in_range_update_entity_values :
  keeps in_range any_record never update_entity_values.
Proof.
  apply keeps_update_entity_values;
    first [ exact keeps_update_battery_level
          | intros; first [assumption | exact I] ].
Qed.

Lemma keeps_weaken {A} (P : RoboVacEntity -> Prop) quiet
    (E E' : PyExc -> Prop) (m : M A) :
  (forall x, E x -> E' x) -> keeps P quiet E m -> keeps P quiet E' m.
Proof.
  intros HE Hm self HP.
  destruct (Hm self HP) as (res & self' & log & Em & HP' & Hq & Hres).
  exists res, self', log. repeat split; auto. destruct res; auto.
Qed.

Lemma keeps_async_get (P : RoboVacEntity -> Prop) quiet outcome :
  (forall v self, P self -> P (set_vacuum v self)) ->
  keeps P quiet any_exception (async_get outcome).
Proof.
  intros Hvac. destruct outcome as [snapshot|x]; simpl.
  - apply keeps_assign. intros self HP. destruct (vacuum self); auto.
  - apply keeps_raise. exact I.
Qed.

Lemma keeps_async_update (P : RoboVacEntity -> Prop) quiet outcome :
  (forall v self, P self -> P (set_vacuum v self)) ->
  (forall v self, P self -> P (set_update_failures v self)) ->
  (forall v self, P self -> P (set_attr_error_code v self)) ->
  (forall r, quiet r) ->
  keeps P quiet never update_entity_values ->
  keeps P quiet any_exception (async_update outcome).
Proof.
  intros Hvac Hfail Herr Hq Hvalues.
  unfold async_update.
  apply keeps_bind; [apply keeps_get_self | intros self].
  destruct (py_eq _ _); [apply keeps_ret|].
  destruct (negb _).
  { apply keeps_bind; [apply keeps_emit; auto | intros _].
    apply keeps_assign. auto. }
  destruct (vacuum self).
  2:{ apply keeps_bind; [apply keeps_emit; auto | intros _].
      apply keeps_assign. auto. }
  apply keeps_try with (E := any_exception).
  - apply keeps_bind; [apply keeps_async_get; assumption | intros _].
    apply keeps_bind; [apply keeps_assign; auto | intros _].
    eapply keeps_weaken; [|exact Hvalues]. intros x [].
  - intros x _ _. exact I.
  - intros _.
    apply keeps_bind; [apply keeps_assign; auto | intros _].
    apply keeps_bind; [apply keeps_get_self | intros self'].
    apply keeps_bind; [apply keeps_emit; auto | intros _].
    destruct (UPDATE_RETRIES <=? update_failures self'); [|apply keeps_ret].
    apply keeps_bind; [apply keeps_assign; auto | intros _].
    apply keeps_emit; auto.
Qed.

Lemma in_range_async_update outcome :
  keeps in_range any_record any_exception (async_update outcome).
Proof.
  apply keeps_async_update;
    first [ exact in_range_update_entity_values
          | intros; first [assumption | exact I] ].
Qed.

End BatteryFacts.

(** The battery-level update, computed. *)
Lemma _update_battery_level_eq `{Environment} (self : RoboVacEntity) :
  _update_battery_level self
  = match tuyastatus self with
    | None => (Ret tt, self, [])
    | Some snapshot =>
        let battery_level :=
          dps_get snapshot (_get_dps_code self "BATTERY_LEVEL") in
        if is_none battery_level then
          (Ret tt, set_attr_battery_level 0 self, [])
        else
          match py_int battery_level with
          | Ret level =>
              (Ret tt,
               set_attr_battery_level (Z.max 0 (Z.min 100 level)) self, [])
          | Raise _ =>
              (Ret tt, set_attr_battery_level 0 self,
               [WarnInvalidBattery battery_level])
          end
    end.
Proof.
  unfold _update_battery_level, mbind, M_bind, get_self.
  destruct (tuyastatus self) as [snapshot|]; [|reflexivity].
  cbv zeta. destruct (is_none _); [reflexivity|]. simpl.
  unfold m_try, mbind, M_bind, lift, assign, emit.
  destruct (py_int _) as [level|x] eqn:Hint; [reflexivity|].
  destruct (py_int_raises _ _ Hint) as [-> | ->]; reflexivity.
Qed.

(** C9.  The battery-level update returns normally and:
    - with a snapshot at hand, leaves a level between 0 and 100: exactly 0
      when the data point is missing (or [None]) or [int] fails on it, and
      the value of [int] clamped to 0..100 otherwise;
    - without a snapshot, leaves the entity as it is.
    So a level between 0 and 100 stays between 0 and 100 through the update
    itself, through every poll ([async_update], whatever the device answers)
    and through every push ([pushed_update_handler]); the level of a new
    entity is 0. *)
Theorem _update_battery_level_range `{Environment} (self : RoboVacEntity) :
  let after m := snd (fst (m self)) in
  fst (fst (_update_battery_level self)) = Ret tt
  /\ (forall snapshot, tuyastatus self = Some snapshot ->
        let battery_level :=
          dps_get snapshot (_get_dps_code self "BATTERY_LEVEL") in
        in_range (after _update_battery_level)
        /\ (battery_level = PyNone ->
            _attr_battery_level (after _update_battery_level) = 0)
        /\ (forall x, py_int battery_level = Raise x ->
            _attr_battery_level (after _update_battery_level) = 0)
        /\ (forall level,
              battery_level <> PyNone -> py_int battery_level = Ret level ->
              _attr_battery_level (after _update_battery_level)
              = Z.max 0 (Z.min 100 level)))
  /\ (tuyastatus self = None -> after _update_battery_level = self)
  /\ (in_range self ->
      in_range (after _update_battery_level)
      /\ (forall outcome, in_range (after (async_update outcome)))
      /\ in_range (after pushed_update_handler))
  /\ (forall item, in_range (fst (RoboVacEntity_init item))).
Proof.
  intros after. subst after. cbv beta.
  rewrite _update_battery_level_eq.
  split; [|split; [|split; [|split]]].
  - destruct (tuyastatus self); [|reflexivity]. cbv zeta.
    destruct (is_none _); [reflexivity|]. destruct (py_int _); reflexivity.
  - intros snapshot ->. cbv zeta.
    destruct (dps_get snapshot _) as [|b|z|s] eqn:Hv; simpl;
      unfold in_range; simpl.
    + repeat split; intros; try lia. congruence.
    + repeat split; intros; try lia; congruence.
    + repeat split; intros; try lia; congruence.
    + destruct (int_of_str s); simpl;
        repeat split; intros; try lia; congruence.
  - intros ->. reflexivity.
  - intros Hrange. split; [|split].
    + rewrite <- _update_battery_level_eq.
      destruct (keeps_update_battery_level self Hrange)
        as (res & self' & log & -> & Hkept & _). exact Hkept.
    + intros outcome.
      destruct (in_range_async_update outcome self Hrange)
        as (res & self' & log & -> & Hkept & _). exact Hkept.
    + destruct (in_range_update_entity_values self Hrange)
        as (res & self' & log & Hrun & Hkept & _).
      unfold pushed_update_handler. rewrite Hrun. exact Hkept.
  - intros item. unfold RoboVacEntity_init, in_range.
    destruct (RoboVac_init _); simpl; lia.
Qed.

(** C9 on a T2080 entity whose snapshot reports the battery as ["250"], as
    ["n/a"], and not at all. *)
Lemma _update_battery_level_range_witness :
  let entity snapshot :=
    set_tuyastatus (Some (dict_display snapshot))
      (@T2080_entity_with ref_environment (PyStr "Standby") (PyInt 0)) in
  let level snapshot :=
    _attr_battery_level
      (snd (fst (@_update_battery_level ref_environment (entity snapshot)))) in
  level [("163", PyStr "250")] = 100
  /\ level [("163", PyStr "n/a")] = 0
  /\ level [("153", PyStr "BhAHQgBSAA==")] = 0.
Proof.
  intros entity level. subst level. cbv beta.
  split; [|split].
  - refine (proj2 (proj2 (proj2 (proj1 (proj2
      (@_update_battery_level_range ref_environment
         (entity [("163", PyStr "250")]))) _ eq_refl))) 250 _ _);
      [discriminate | reflexivity].
  - refine (proj1 (proj2 (proj2 (proj1 (proj2
      (@_update_battery_level_range ref_environment
         (entity [("163", PyStr "n/a")]))) _ eq_refl))) ValueError _).
    reflexivity.
  - refine (proj1 (proj2 (proj1 (proj2
      (@_update_battery_level_range ref_environment
         (entity [("153", PyStr "BhAHQgBSAA==")]))) _ eq_refl)) _).
    reflexivity.
Defined.

(** ** The consumables decoder *)

Section ConsumableFacts.
Context `{Environment}.

Lemma decode_consumable_split consumable_data :
  decode_consumable consumable_data
  = parse_consumable consumable_data ≫= extract_duration.
Proof.
  unfold decode_consumable, parse_consumable.
  destruct (b64decode consumable_data) as [bytes|]; [|reflexivity]. simpl.
  destruct (decode_ascii bytes) as [text|]; [|reflexivity]. simpl.
  destruct (literal_eval text); reflexivity.
Qed.

(** The [try] statement for one value, computed. *)
Lemma _update_consumable_eq consumable_data self :
  _update_consumable consumable_data self
  = (Ret tt,
     consumable_effect (decode_consumable consumable_data) self,
     consumable_log (decode_consumable consumable_data)).
Proof.
  unfold _update_consumable, m_try, mbind, M_bind, lift.
  destruct (decode_consumable consumable_data) as [[duration|]|x];
    reflexivity.
Qed.

Lemma consumable_effect_twice decoded self :
  consumable_effect decoded (consumable_effect decoded self)
  = consumable_effect decoded self.
Proof. destruct decoded as [[duration|]|x]; reflexivity. Qed.

(** The loop over the consumables codes, when every string it meets in the
    snapshot is the same [consumable_data]. *)
Lemma consumables_loop snapshot consumable_data codes self :
  (forall code text, In code codes ->
     snapshot !! code = Some (PyStr text) -> text = consumable_data) ->
  m_for codes (fun CONSUMABLE_CODE =>
    match snapshot !! CONSUMABLE_CODE with
    | Some (PyStr consumable_data) => _update_consumable consumable_data
    | _ => mret tt
    end) self
  = (Ret tt,
     (if existsb (holds_text snapshot) codes
      then consumable_effect (decode_consumable consumable_data) self
      else self),
     flat_map (fun code =>
                 if holds_text snapshot code
                 then consumable_log (decode_consumable consumable_data)
                 else []) codes).
Proof.
  revert self. induction codes as [|code codes IH]; intros self Hsame.
  - reflexivity.
  - assert (Hrest : forall code' text, In code' codes ->
              snapshot !! code' = Some (PyStr text) -> text = consumable_data)
      by (intros; eapply Hsame; [right|]; eauto).
    cbn [m_for existsb flat_map]. unfold mbind, M_bind.
    destruct (holds_text snapshot code) eqn:Hholds; unfold holds_text in Hholds;
      destruct (snapshot !! code) as [[| | |text]|] eqn:Hcode;
      try discriminate Hholds.
    + assert (text = consumable_data) as ->
        by (eapply Hsame; [left; reflexivity | exact Hcode]).
      rewrite _update_consumable_eq, (IH _ Hrest).
      rewrite consumable_effect_twice.
      destruct (existsb _ codes); reflexivity.
    + cbn [mret M_ret]. rewrite (IH _ Hrest). reflexivity.
    + cbn [mret M_ret]. rewrite (IH _ Hrest). reflexivity.
    + cbn [mret M_ret]. rewrite (IH _ Hrest). reflexivity.
    + cbn [mret M_ret]. rewrite (IH _ Hrest). reflexivity.
Qed.
End ConsumableFacts.

Section CleaningStatsFacts.
Context `{Environment}.

(** The whole of [_update_cleaning_stats] on an entity that supports
    consumables, when every string under a consumables code is the same
    [consumable_data]: the statistics are assigned, then the data is decoded
    once for each code that holds it. *)
Lemma _update_cleaning_stats_eq self snapshot consumable_data :
  tuyastatus self = Some snapshot ->
  supports (_attr_robovac_supported self) FEATURE_CONSUMABLES = true ->
  (forall code text, In code (_get_consumables_codes self) ->
     snapshot !! code = Some (PyStr text) -> text = consumable_data) ->
  exists self1,
    _attr_consumables self1 = _attr_consumables self
    /\ _update_cleaning_stats self
       = (Ret tt,
          (if existsb (holds_text snapshot) (_get_consumables_codes self)
           then consumable_effect (decode_consumable consumable_data) self1
           else self1),
          flat_map (fun code =>
                      if holds_text snapshot code
                      then consumable_log (decode_consumable consumable_data)
                      else []) (_get_consumables_codes self)).
Proof.
  intros Hsnap Hsupports Hsame.
  unfold _update_cleaning_stats, mbind, M_bind, get_self.
  rewrite Hsnap.
  destruct (negb (is_none (dps_get snapshot (_get_dps_code self "CLEANING_AREA"))));
    destruct (negb (is_none (dps_get snapshot (_get_dps_code self "CLEANING_TIME"))));
    cbn [assign mret M_ret app];
    rewrite Hsupports, (consumables_loop snapshot consumable_data _ _ Hsame);
    (eexists; split; [|reflexivity]; reflexivity).
Qed.
End CleaningStatsFacts.

(** C6 as the specification states it does not hold when the decoded literal
    merely lacks the keys: ["e30="] is the base64 text of [{}]; decoding and
    parsing succeed, there is no ["consumable"] entry to extract, and the
    [try] statement returns with the entity unchanged and an empty log: no
    warning.  So does the update of a T2080 entity whose snapshot carries
    that value under the consumables code ["142"]. *)
Lemma consumables_missing_key_logs_nothing :
  let self :=
    set_tuyastatus (Some (dict_display [("142", PyStr "e30=")]))
      (@T2080_entity_with ref_environment (PyStr "Standby") (PyInt 0)) in
  @parse_consumable ref_environment "e30=" = Ret (LDict [])
  /\ @decode_consumable ref_environment "e30=" = Ret None
  /\ @_update_consumable ref_environment "e30=" self = (Ret tt, self, [])
  /\ @_update_cleaning_stats ref_environment self = (Ret tt, self, []).
Proof. intros self. split; [|split; [|split]]; vm_compute; reflexivity. Qed.

(** Records logged once for each code that is held are none exactly when
    there are none to log. *)
Lemma flat_map_held {A} (held : string -> bool) (records : list A) codes :
  existsb held codes = true ->
  flat_map (fun code => if held code then records else []) codes = []
  <-> records = [].
Proof.
  induction codes as [|code codes IH]; [discriminate|].
  simpl. destruct (held code); simpl.
  - intros _. destruct records; [|split; discriminate].
    split; [reflexivity|]. intros _. clear.
    induction codes as [|c cs IHcs]; [reflexivity|]. simpl.
    destruct (held c); exact IHcs.
  - exact IH.
Qed.

(** C6, as the code has it.  For one consumables value, the [try]
    statement returns normally, and
    - when the base64 decoding, the ASCII decoding or the literal parsing
      raises, or when the key extraction raises (a membership test or an
      indexing on a value that does not support it), the cached attribute is
      left unchanged and one warning is logged;
    - when the parsed literal lacks ["consumable"], or its entry lacks
      ["duration"], so that the guard is false, the cached attribute is left
      unchanged and nothing is logged;
    - when the data parses to [{'consumable': {'duration': d}}], the cached
      attribute becomes [d] and nothing is logged.
    The whole of [_update_cleaning_stats] returns normally on every entity;
    on an entity that supports consumables and whose snapshot holds the data
    under one of its consumables codes (and no other text under the others),
    it changes the cached attribute, and logs, as said above. *)
Theorem _update_cleaning_stats_consumables `{Environment}
    (self : RoboVacEntity) (consumable_data : string) :
  (exists self' log,
     _update_consumable consumable_data self = (Ret tt, self', log)
     /\ (forall x, parse_consumable consumable_data = Raise x ->
           self' = self /\ log = [WarnConsumableDecode x])
     /\ (forall parsed x,
           parse_consumable consumable_data = Ret parsed ->
           extract_duration parsed = Raise x ->
           self' = self /\ log = [WarnConsumableDecode x])
     /\ (forall parsed,
           parse_consumable consumable_data = Ret parsed ->
           extract_duration parsed = Ret None ->
           self' = self /\ log = [])
     /\ (forall duration,
           parse_consumable consumable_data
           = Ret (LDict [(LStr "consumable",
                          LDict [(LStr "duration", duration)])]) ->
           self' = set_attr_consumables duration self /\ log = []))
  /\ fst (fst (_update_cleaning_stats self)) = Ret tt
  /\ (forall snapshot,
        tuyastatus self = Some snapshot ->
        supports (_attr_robovac_supported self) FEATURE_CONSUMABLES = true ->
        (forall code text, In code (_get_consumables_codes self) ->
           snapshot !! code = Some (PyStr text) -> text = consumable_data) ->
        existsb (holds_text snapshot) (_get_consumables_codes self) = true ->
        let after := snd (fst (_update_cleaning_stats self)) in
        let log := snd (_update_cleaning_stats self) in
        match decode_consumable consumable_data with
        | Ret (Some duration) =>
            _attr_consumables after = duration /\ log = []
        | Ret None =>
            _attr_consumables after = _attr_consumables self /\ log = []
        | Raise x =>
            _attr_consumables after = _attr_consumables self
            /\ log <> [] /\ Forall (eq (WarnConsumableDecode x)) log
        end).
Proof.
  split; [|split].
  - eexists _, _. split; [apply _update_consumable_eq|].
    rewrite decode_consumable_split.
    split; [|split; [|split]].
    + intros x ->. simpl. auto.
    + intros parsed x -> Hx. simpl. rewrite Hx. auto.
    + intros parsed -> Hnone. simpl. rewrite Hnone. auto.
    + intros duration ->. simpl. auto.
  - destruct (keeps_update_cleaning_stats (fun _ => True) any_record) with
      (self := self) as ([[]|x] & self' & log & -> & _ & _ & Hres);
      first [reflexivity | destruct Hres | intros; exact I].
  - intros snapshot Hsnap Hsupports Hsame Hheld after log.
    subst after log.
    destruct (_update_cleaning_stats_eq self snapshot consumable_data
                Hsnap Hsupports Hsame) as (self1 & Hcached & ->).
    rewrite Hheld. simpl.
    assert (Hlog := fun records : list LogRecord =>
      flat_map_held (holds_text snapshot) records _ Hheld).
    destruct (decode_consumable consumable_data) as [[duration|]|x]; simpl.
    + split; [reflexivity | apply Hlog; reflexivity].
    + split; [exact Hcached | apply Hlog; reflexivity].
    + split; [exact Hcached | split].
      * intros Hempty. apply (proj1 (Hlog _)) in Hempty. discriminate Hempty.
      * apply Forall_flat_map, Forall_forall. intros code _.
        destruct (holds_text snapshot code); repeat constructor.
Qed.

(** C6 on a T2080 entity whose snapshot carries a consumables value
    under code ["142"]: the base64 text of [{'consumable': {'duration': 42}}]
    caches 42; the malformed base64 text ["abc"] leaves the cache as it was
    and logs. *)
Lemma _update_cleaning_stats_consumables_witness :
  let entity text :=
    set_tuyastatus (Some (dict_display [("142", PyStr text)]))
      (@T2080_entity_with ref_environment (PyStr "Standby") (PyInt 0)) in
  let run text := @_update_cleaning_stats ref_environment (entity text) in
  _attr_consumables
    (snd (fst (run "eydjb25zdW1hYmxlJzogeydkdXJhdGlvbic6IDQyfX0=")))
  = LInt 42
  /\ _attr_consumables (snd (fst (run "abc"))) = LNone
  /\ snd (run "abc") <> [].
Proof.
  intros entity run. subst run. cbv beta.
  assert (Hsame : forall data code text,
    In code (@_get_consumables_codes ref_environment (entity data)) ->
    dict_display [("142", PyStr data)] !! code = Some (PyStr text) ->
    text = data).
  { intros data code text Hin Hlook. vm_compute in Hin.
    destruct Hin as [<-|[<-|[]]]; vm_compute in Hlook; congruence. }
  split.
  - pose proof (proj2 (proj2 (@_update_cleaning_stats_consumables
        ref_environment
        (entity "eydjb25zdW1hYmxlJzogeydkdXJhdGlvbic6IDQyfX0=")
        "eydjb25zdW1hYmxlJzogeydkdXJhdGlvbic6IDQyfX0="))
      _ eq_refl eq_refl (Hsame _) eq_refl) as Hrun.
    cbv zeta in Hrun.
    assert (Hdecoded : @decode_consumable ref_environment
              "eydjb25zdW1hYmxlJzogeydkdXJhdGlvbic6IDQyfX0="
            = Ret (Some (LInt 42))) by (vm_compute; reflexivity).
    rewrite Hdecoded in Hrun. exact (proj1 Hrun).
  - pose proof (proj2 (proj2 (@_update_cleaning_stats_consumables
        ref_environment (entity "abc") "abc"))
      _ eq_refl eq_refl (Hsame _) eq_refl) as Hrun.
    cbv zeta in Hrun.
    assert (Hdecoded : @decode_consumable ref_environment "abc"
            = Raise BinasciiError) by (vm_compute; reflexivity).
    rewrite Hdecoded in Hrun. exact (conj (proj1 Hrun) (proj1 (proj2 Hrun))).
Defined.

(** ** The update and retry controller *)

Section RetryFacts.
Context `{Environment}.

Lemma keeps_update_battery_level_frame (P : RoboVacEntity -> Prop)
    (quiet : LogRecord -> Prop) :
  (forall v self, P self -> P (set_attr_battery_level v self)) ->
  (forall v, quiet (WarnInvalidBattery v)) ->
  keeps P quiet never _update_battery_level.
Proof.
  intros Hbattery Hquiet self HP. rewrite _update_battery_level_eq.
  destruct (tuyastatus self) as [snapshot|].
  - cbv zeta. destruct (is_none _); [|destruct (py_int _)];
      eexists _, _, _; (split; [reflexivity|]); repeat split; auto.
  - eexists _, _, _. split; [reflexivity|]. auto.
Qed.

(** Recomputing the entity values touches neither the failure counter, nor
    the address, nor the device, never raises, and does not log the
    retries-exhausted error. *)
Lemma update_entity_values_frame self :
  exists self' log,
    update_entity_values self = (Ret tt, self', log)
    /\ update_failures self' = update_failures self
    /\ _attr_ip_address self' = _attr_ip_address self
    /\ vacuum self' = vacuum self
    /\ ~ In ErrorMaxRetries log.
Proof.
  pose (P := fun s : RoboVacEntity =>
    update_failures s = update_failures self
    /\ _attr_ip_address s = _attr_ip_address self
    /\ vacuum s = vacuum self).
  assert (Hkeeps :
    keeps P (fun r => r <> ErrorMaxRetries) never update_entity_values).
  { apply keeps_update_entity_values;
      try (intros; first [assumption | discriminate]).
    apply keeps_update_battery_level_frame;
      intros; first [assumption | discriminate]. }
  destruct (Hkeeps self) as ([[]|x] & self' & log & Hrun & HP & Hquiet & Hres);
    [repeat split; reflexivity | | destruct Hres].
  destruct HP as (Hfail & Hip & Hvac).
  exists self', log. repeat split; auto.
  intros Hin. rewrite Forall_forall in Hquiet.
  apply list_elem_of_In in Hin. exact (Hquiet _ Hin eq_refl).
Qed.

(** A failed poll, computed. *)
Lemma async_update_failure_eq self :
  polls self ->
  async_update (GetRaises TuyaException) self
  = (Ret tt,
     (if UPDATE_RETRIES <=? update_failures self + 1
      then set_attr_error_code (PyStr "CONNECTION_FAILED")
             (set_update_failures (update_failures self + 1) self)
      else set_update_failures (update_failures self + 1) self),
     WarnUpdateFailed (update_failures self + 1)
       :: (if UPDATE_RETRIES <=? update_failures self + 1
           then [ErrorMaxRetries] else [])).
Proof.
  intros (Hsupported & Hip & Hvac).
  unfold async_update, mbind, M_bind, get_self.
  rewrite Hsupported, Hip. cbn [negb].
  destruct (vacuum self) as [device|]; [|congruence].
  unfold m_try, async_get, raise. simpl.
  destruct (UPDATE_RETRIES <=? update_failures self + 1); reflexivity.
Qed.

(** A successful poll, computed up to the recomputation of the values. *)
Lemma async_update_success_eq self device snapshot :
  polls self -> vacuum self = Some device ->
  async_update (GetReturns snapshot) self
  = update_entity_values
      (set_update_failures 0
         (set_vacuum
            (Some {| model_code := model_code device;
                     model_details := model_details device;
                     _dps := snapshot |}) self)).
Proof.
  intros (Hsupported & Hip & _) Hvac.
  unfold async_update, mbind, M_bind, get_self.
  rewrite Hsupported, Hip. cbn [negb]. rewrite Hvac.
  unfold m_try, async_get, assign. cbn [negb]. rewrite Hvac.
  match goal with
  | |- context [update_entity_values ?s] =>
      destruct (update_entity_values_frame s) as (self' & log & -> & _)
  end.
  reflexivity.
Qed.
End RetryFacts.

Section RetryTraces.
Context `{Environment}.

Lemma poll_all_snoc history next self :
  poll_all (history ++ [next]) self
  = snd (fst (async_update (outcome_of next) (poll_all history self))).
Proof. unfold poll_all. rewrite fold_left_app. reflexivity. Qed.

Lemma consecutive_failures_snoc history next :
  consecutive_failures (history ++ [next])
  = match next with
    | Success _ => 0
    | Failure => consecutive_failures history + 1
    end.
Proof. unfold consecutive_failures. rewrite fold_left_app. reflexivity. Qed.

Lemma consecutive_failures_nonneg history :
  0 <= consecutive_failures history.
Proof.
  induction history as [|next history IH] using rev_ind; [reflexivity|].
  rewrite consecutive_failures_snoc. destruct next; lia.
Qed.

(** An unsupported entity does not poll at all. *)
Lemma async_update_unsupported outcome self :
  py_eq (_attr_error_code self) (PyStr "UNSUPPORTED_MODEL") = true ->
  async_update outcome self = (Ret tt, self, []).
Proof.
  intros Hunsupported. unfold async_update, mbind, M_bind, get_self.
  rewrite Hunsupported. reflexivity.
Qed.

(** After any sequence of polls of a ready entity: the address and the
    device are still there, and either the entity still polls and its counter
    is the number of failures since the last success, or a success has made
    it unsupported and its counter is 0. *)
Lemma poll_all_invariant self history :
  polls self -> update_failures self = 0 ->
  let now := poll_all history self in
  opt_truthy (_attr_ip_address now) = true
  /\ vacuum now <> None
  /\ ((py_eq (_attr_error_code now) (PyStr "UNSUPPORTED_MODEL") = false
       /\ update_failures now = consecutive_failures history)
      \/ (py_eq (_attr_error_code now) (PyStr "UNSUPPORTED_MODEL") = true
          /\ update_failures now = 0)).
Proof.
  intros Hpolls Hzero. cbv zeta.
  induction history as [|next history IH] using rev_ind.
  - destruct Hpolls as (Hsupported & Hip & Hvac). simpl. auto.
  - destruct IH as (Hip & Hvac & [[Hsupported Hcount] | [Hunsupported Hcount]]).
    + assert (Hnow : polls (poll_all history self)) by (repeat split; auto).
      rewrite poll_all_snoc, consecutive_failures_snoc.
      destruct next as [snapshot|]; simpl outcome_of.
      * destruct (vacuum (poll_all history self)) as [device|] eqn:Hdev;
          [|congruence].
        rewrite (async_update_success_eq _ device snapshot Hnow Hdev).
        match goal with
        | |- context [update_entity_values ?s] =>
            destruct (update_entity_values_frame s)
              as (self' & log & -> & Hfail' & Hip' & Hvac' & _)
        end.
        simpl in *. rewrite Hip', Hvac', Hfail'. repeat split; auto.
        destruct (py_eq (_attr_error_code self') _); auto.
      * rewrite (async_update_failure_eq _ Hnow). simpl.
        destruct (UPDATE_RETRIES <=? _); simpl; rewrite Hcount; auto.
    + rewrite poll_all_snoc, (async_update_unsupported _ _ Hunsupported).
      simpl. auto.
Qed.
End RetryTraces.

(** C4.  For an entity that polls (model supported, address set, device
    initialised):
    - a failed poll ([async_get] raises [TuyaException]) returns normally and
      adds exactly 1 to [update_failures]; it sets the error code to
      ["CONNECTION_FAILED"] (and logs the retries-exhausted error) if the new
      count is at least [UPDATE_RETRIES], and leaves the error code alone
      (and does not log that error) if the new count is below;
    - a successful poll returns normally, resets [update_failures] to 0 and
      does not log that error;
    - started with [update_failures = 0], after any sequence of polls the
      counter is at most the number of failures since the last success, and
      equal to it while the entity polls; hence a poll sets the sentinel
      only if it is a failure that makes at least [UPDATE_RETRIES]
      consecutive failures, and, while the entity polls, every such poll
      does;
    - [UPDATE_RETRIES] is 3. *)
Theorem async_update_retry_escalation `{Environment} :
  (forall self, polls self ->
     let result := async_update (GetRaises TuyaException) self in
     let self' := snd (fst result) in
     fst (fst result) = Ret tt
     /\ update_failures self' = update_failures self + 1
     /\ (UPDATE_RETRIES <= update_failures self' ->
         _attr_error_code self' = PyStr "CONNECTION_FAILED"
         /\ In ErrorMaxRetries (snd result))
     /\ (update_failures self' < UPDATE_RETRIES ->
         _attr_error_code self' = _attr_error_code self
         /\ ~ In ErrorMaxRetries (snd result)))
  /\ (forall self snapshot, polls self ->
        let result := async_update (GetReturns snapshot) self in
        fst (fst result) = Ret tt
        /\ update_failures (snd (fst result)) = 0
        /\ ~ In ErrorMaxRetries (snd result))
  /\ (forall self history next,
        polls self -> update_failures self = 0 ->
        let now := poll_all history self in
        let result := async_update (outcome_of next) now in
        0 <= update_failures now <= consecutive_failures history
        /\ (polls now -> update_failures now = consecutive_failures history)
        /\ (In ErrorMaxRetries (snd result) ->
            next = Failure
            /\ UPDATE_RETRIES <= consecutive_failures (history ++ [next]))
        /\ (polls now -> next = Failure ->
            UPDATE_RETRIES <= consecutive_failures (history ++ [next]) ->
            In ErrorMaxRetries (snd result)
            /\ _attr_error_code (snd (fst result))
               = PyStr "CONNECTION_FAILED"))
  /\ UPDATE_RETRIES = 3.
Proof.
  split; [|split; [|split; [|reflexivity]]].
  - intros self Hpolls. cbv zeta.
    rewrite (async_update_failure_eq self Hpolls). simpl.
    destruct (UPDATE_RETRIES <=? update_failures self + 1) eqn:Hmax; simpl.
    + apply Z.leb_le in Hmax. repeat split; auto; lia.
    + apply Z.leb_gt in Hmax. repeat split; auto; try lia.
      intros [Hin | []]. discriminate Hin.
  - intros self snapshot Hpolls. cbv zeta.
    destruct (vacuum self) as [device|] eqn:Hdev;
      [|destruct Hpolls as (_ & _ & Hvac); congruence].
    rewrite (async_update_success_eq self device snapshot Hpolls Hdev).
    match goal with
    | |- context [update_entity_values ?s] =>
        destruct (update_entity_values_frame s)
          as (self' & log & -> & Hfail' & _ & _ & Hquiet)
    end.
    simpl in *. auto.
  - intros self history next Hpolls Hzero. cbv zeta.
    pose proof (consecutive_failures_nonneg history) as Hnonneg.
    destruct (poll_all_invariant self history Hpolls Hzero)
      as (Hip & Hvac & Hcases).
    set (now := poll_all history self) in *.
    rewrite consecutive_failures_snoc.
    destruct Hcases as [[Hsupported Hcount] | [Hunsupported Hcount]].
    + assert (Hnow : polls now) by (repeat split; auto).
      split; [lia|]. split; [auto|].
      destruct next as [snapshot|]; simpl outcome_of.
      * destruct (vacuum now) as [device|] eqn:Hdev; [|congruence].
        rewrite (async_update_success_eq now device snapshot Hnow Hdev).
        match goal with
        | |- context [update_entity_values ?s] =>
            destruct (update_entity_values_frame s)
              as (self' & log & -> & _ & _ & _ & Hquiet)
        end.
        simpl. split; [tauto|]. intros _ Hnext. discriminate Hnext.
      * rewrite (async_update_failure_eq now Hnow). simpl.
        rewrite Hcount.
        destruct (UPDATE_RETRIES <=? consecutive_failures history + 1)
          eqn:Hmax; simpl.
        -- apply Z.leb_le in Hmax. auto.
        -- apply Z.leb_gt in Hmax. split.
           ++ intros [Hin | []]. discriminate Hin.
           ++ intros _ _ Hle. lia.
    + rewrite (async_update_unsupported _ _ Hunsupported). simpl.
      split; [lia|]. split.
      * intros (Hsupported & _). congruence.
      * split; [tauto|]. intros (Hsupported & _). congruence.
Qed.

(** C4 on a new T2080 entity: the third failure in a row sets the sentinel;
    after two failures and a success, the next failure does not. *)
Lemma async_update_retry_escalation_witness :
  let self :=
    fst (@RoboVacEntity_init ref_environment
           {| CONF_MODEL := Some "T2080";
              CONF_IP_ADDRESS := Some "192.168.1.100" |}) in
  let third :=
    @async_update ref_environment (GetRaises TuyaException)
      (@poll_all ref_environment [Failure; Failure] self) in
  let later :=
    @async_update ref_environment (GetRaises TuyaException)
      (@poll_all ref_environment [Failure; Failure; Success (Some ∅)] self) in
  (In ErrorMaxRetries (snd third)
   /\ _attr_error_code (snd (fst third)) = PyStr "CONNECTION_FAILED")
  /\ ~ In ErrorMaxRetries (snd later).
Proof.
  intros self third later. subst third later.
  assert (Hready : polls self /\ update_failures self = 0).
  { split; [|reflexivity]. split; [reflexivity|].
    split; [reflexivity | discriminate]. }
  destruct Hready as [Hpolls Hzero].
  split.
  - refine (proj2 (proj2 (proj2 (proj1 (proj2 (proj2
      (@async_update_retry_escalation ref_environment)))
      self [Failure; Failure] Failure Hpolls Hzero))) _ eq_refl _).
    + split; [vm_compute; reflexivity|].
      split; [vm_compute; reflexivity | vm_compute; discriminate].
    + vm_compute. discriminate.
  - intros Hin.
    destruct (proj1 (proj2 (proj2 (proj1 (proj2 (proj2
      (@async_update_retry_escalation ref_environment)))
      self [Failure; Failure; Success (Some ∅)] Failure Hpolls Hzero)))
      Hin) as [_ Hle].
    vm_compute in Hle. apply Hle. reflexivity.
Defined.

(** ** End to end on the T2080 *)

Section EndToEndFacts.
Context `{Environment}.

Lemma T2080_codes self code :
  vacuum self = Some (T2080_device code) ->
  _get_dps_code self "BATTERY_LEVEL" = "163"
  /\ _get_dps_code self "STATUS" = "153"
  /\ _get_dps_code self "ERROR_CODE" = "106".
Proof.
  intros Hvac. unfold _get_dps_code. rewrite Hvac.
  repeat split; vm_compute; reflexivity.
Qed.

Lemma T2080_decoded code :
  getRoboVacHumanReadableValue (T2080_device code)
    (Member RobovacCommand.STATUS) (PyStr "BhAHQgBSAA==")
  = (Ret (PyStr "Standby"), [])
  /\ getRoboVacHumanReadableValue (T2080_device code)
       (Member RobovacCommand.ERROR) (PyInt 0)
     = (Ret (PyInt 0),
        [WarnValueNotFound (Member RobovacCommand.ERROR) (PyInt 0) code]).
Proof. split; vm_compute; reflexivity. Qed.

Lemma T2080_recompute self code :
  int_of_str "85" = Some 85 ->
  vacuum self = Some (T2080_device code) ->
  exists self' log,
    update_entity_values self = (Ret tt, self', log)
    /\ _attr_battery_level self' = 85
    /\ _attr_tuya_state self' = PyStr "Standby"
    /\ _attr_error_code self' = PyInt 0
    /\ _attr_activity_mapping self' = _attr_activity_mapping self.
Proof.
  intros Hint Hvac.
  pose (P := fun s : RoboVacEntity =>
    _attr_battery_level s = 85 /\ _attr_tuya_state s = PyStr "Standby"
    /\ _attr_error_code s = PyInt 0
    /\ _attr_activity_mapping s = _attr_activity_mapping self).
  unfold update_entity_values, mbind, M_bind, get_self.
  rewrite Hvac. cbn [assign _dps T2080_device].
  destruct (decide (T2080_snapshot = ∅)) as [Hempty|_].
  { apply (f_equal (fun m => m !! "163")) in Hempty.
    vm_compute in Hempty. discriminate Hempty. }
  set (s1 := set_tuyastatus (Some T2080_snapshot) self).
  assert (Hvac1 : vacuum s1 = Some (T2080_device code)) by exact Hvac.
  destruct (T2080_codes s1 code Hvac1) as (Hbat & Hstat & Herr).
  rewrite _update_battery_level_eq. cbn [tuyastatus s1 set_tuyastatus].
  cbv zeta. rewrite Hbat.
  change (dps_get T2080_snapshot "163") with (PyStr "85").
  cbn [is_none py_int]. rewrite Hint.
  change (Z.max 0 (Z.min 100 85)) with 85.
  set (s2 := set_attr_battery_level 85 s1).
  assert (Hstate : _update_state_and_error s2
    = (Ret tt,
       set_attr_error_code (PyInt 0)
         (set_attr_tuya_state (PyStr "Standby") s2),
       [WarnValueNotFound (Member RobovacCommand.ERROR) (PyInt 0) code])).
  { destruct (T2080_decoded code) as [Hstatus Herror].
    unfold _update_state_and_error, mbind, M_bind, get_self.
    change (tuyastatus s2) with (Some T2080_snapshot). cbv iota zeta.
    change (vacuum s2) with (vacuum self). rewrite Hvac.
    change (_get_dps_code s2 "STATUS") with (_get_dps_code s1 "STATUS").
    change (_get_dps_code s2 "ERROR_CODE")
      with (_get_dps_code s1 "ERROR_CODE").
    rewrite Hstat, Herr.
    change (dps_get T2080_snapshot "153") with (PyStr "BhAHQgBSAA==").
    change (dps_get T2080_snapshot "106") with (PyInt 0).
    cbn [is_none negb]. unfold call. rewrite Hstatus, Herror. reflexivity. }
  rewrite Hstate.
  set (s3 := set_attr_error_code _ _).
  assert (Hrest : keeps P any_record never
            (_update_mode_and_fan_speed ≫= fun _ => _update_cleaning_stats)).
  { apply keeps_bind; [|intros _].
    - apply keeps_update_mode_and_fan_speed;
        intros; first [assumption | exact I].
    - apply keeps_update_cleaning_stats;
        intros; first [assumption | exact I]. }
  destruct (Hrest s3) as ([[]|x] & self' & log & Hrun & HP & _ & Hres);
    [repeat split; reflexivity | | destruct Hres].
  unfold mbind, M_bind in Hrun. cbv iota. rewrite Hrun.
  destruct HP as (Hbattery & Hstatus & Herror & Hmapping).
  eexists _, _. split; [reflexivity|]. auto.
Qed.

End EndToEndFacts.

(** C5.  A T2080 entity (the registry maps ["T2080"] to the T2080 table)
    whose device holds the snapshot
    [{"153": "BhAHQgBSAA==", "163": "85", "106": 0}]: recomputing the entity
    values returns normally and gives battery level 85 (with [int("85")]
    being 85), status ["Standby"], activity IDLE, error code 0, and state
    attributes without an ["error"] entry. *)
Theorem T2080_end_to_end `{Environment} (item : ConfigItem) :
  CONF_MODEL item = Some "T2080" ->
  ROBOVAC_MODELS "T2080" = Some T2080 ->
  int_of_str "85" = Some 85 ->
  let entity := fst (RoboVacEntity_init item) in
  let installed :=
    snd (fst (async_get (GetReturns (Some T2080_snapshot)) entity)) in
  let result := update_entity_values installed in
  let recomputed := snd (fst result) in
  fst (fst result) = Ret tt
  /\ _attr_battery_level recomputed = 85
  /\ _attr_tuya_state recomputed = PyStr "Standby"
  /\ activity recomputed = Some VacuumActivity.IDLE
  /\ _attr_error_code recomputed = PyInt 0
  /\ extra_state_attributes recomputed !! "error" = None.
Proof.
  intros Hmodel Hregistry Hint. cbv zeta.
  assert (Hinit : exists entity,
    fst (RoboVacEntity_init item) = entity
    /\ vacuum entity
       = Some {| model_code := "T2080"; model_details := T2080;
                 _dps := Some ∅ |}
    /\ _attr_activity_mapping entity = activity_mapping T2080).
  { eexists. split; [reflexivity|].
    unfold RoboVacEntity_init, RoboVac_init. rewrite Hmodel.
    change (String.substring 0 5 "T2080") with "T2080".
    rewrite Hregistry. split; reflexivity. }
  destruct Hinit as (entity & -> & Hvac & Hmapping).
  set (installed := snd (fst (async_get _ entity))).
  assert (Hvac' : vacuum installed = Some (T2080_device "T2080")).
  { subst installed. unfold async_get, assign. simpl. rewrite Hvac.
    reflexivity. }
  assert (Hmapping' : _attr_activity_mapping installed
                      = activity_mapping T2080).
  { subst installed. unfold async_get, assign. simpl. rewrite Hvac.
    exact Hmapping. }
  destruct (T2080_recompute installed "T2080" Hint Hvac')
    as (self' & log & -> & Hbattery & Hstatus & Herror & Hmap).
  simpl. repeat split; auto.
  - unfold activity. rewrite Hstatus, Herror, Hmap, Hmapping'.
    vm_compute. reflexivity.
  - unfold extra_state_attributes, add_if. rewrite Herror. cbv zeta.
    cbn [is_none negb py_in_list existsb py_eq Z.eqb orb andb].
    repeat match goal with
    | |- context [if ?c then _ else _] => destruct c
    end;
    repeat (rewrite lookup_insert_ne by discriminate);
    apply lookup_empty.
Qed.


(** C5 in the reference environment. *)
Lemma T2080_end_to_end_witness :
  let entity :=
    fst (@RoboVacEntity_init ref_environment
           {| CONF_MODEL := Some "T2080";
              CONF_IP_ADDRESS := Some "192.168.1.100" |}) in
  let recomputed :=
    snd (fst (@update_entity_values ref_environment
                (snd (fst (async_get (GetReturns (Some T2080_snapshot))
                             entity))))) in
  _attr_battery_level recomputed = 85
  /\ _attr_tuya_state recomputed = PyStr "Standby"
  /\ activity recomputed = Some VacuumActivity.IDLE
  /\ _attr_error_code recomputed = PyInt 0
  /\ @extra_state_attributes ref_environment recomputed !! "error" = None.
Proof.
  exact (proj2 (@T2080_end_to_end ref_environment
                  {| CONF_MODEL := Some "T2080";
                     CONF_IP_ADDRESS := Some "192.168.1.100" |}
                  eq_refl eq_refl eq_refl)).
Defined.

(** ** More on the command translator *)

Lemma py_eq_refl (a : PyVal) : py_eq a a = true.
Proof.
  destruct a as [|b|z|s]; simpl.
  - reflexivity.
  - destruct b; reflexivity.
  - apply Z.eqb_refl.
  - apply String.eqb_refl.
Qed.

Lemma py_eq_sym (a b : PyVal) : py_eq a b = py_eq b a.
Proof.
  destruct a as [|x|x|x], b as [|y|y|y]; simpl; try reflexivity.
  - destruct x, y; reflexivity.
  - apply Z.eqb_sym.
  - apply Z.eqb_sym.
  - apply Z.eqb_sym.
  - apply String.eqb_sym.
Qed.

Lemma dict_contains_entry (d : PyDict) (q k v : PyVal) :
  In (k, v) d -> py_eq q k = true -> dict_contains d q = true.
Proof.
  unfold dict_contains. induction d as [|[k' v'] d IH]; intros Hin Hq.
  - destruct Hin.
  - simpl. destruct (py_eq q k') eqn:Hq'; [reflexivity|].
    destruct Hin as [[= -> ->]|Hin]; [congruence | auto].
Qed.

(** In a dict with distinct keys, every entry is found under its key. *)
Lemma dict_get_entry (d : PyDict) (k v : PyVal) :
  distinct_keys d = true -> In (k, v) d -> dict_get d k = Some v.
Proof.
  induction d as [|[k' v'] d IH]; intros Hdistinct Hin.
  - destruct Hin.
  - simpl in *. apply andb_prop in Hdistinct as [Hfresh Hdistinct].
    destruct Hin as [[= -> ->]|Hin].
    + rewrite py_eq_refl. reflexivity.
    + destruct (py_eq k k') eqn:Hk; [|auto].
      assert (Hsym : py_eq k' k = true) by (rewrite py_eq_sym; exact Hk).
      rewrite (dict_contains_entry d k' k v Hin Hsym) in Hfresh.
      discriminate Hfresh.
Qed.

(** X1.  The decoder never passes a value through silently: on every input
    it either returns the value unchanged together with exactly the not-found
    warning, or it returns the text of the table entry of the value and logs
    nothing; the second happens only when both the value and its text are
    keys of the command's [values] dict. *)
Theorem getRoboVacHumanReadableValue_miss_is_logged `{Environment}
    (self : RoboVac) (command_name : CommandName) (value : PyVal) :
  getRoboVacHumanReadableValue self command_name value
  = (Ret value, [WarnValueNotFound command_name value (model_code self)])
  \/ exists cmd values label,
       to_command command_name = Ret cmd
       /\ _get_command_values self cmd = Some values
       /\ dict_contains values (PyStr (py_str value)) = true
       /\ dict_get values value = Some label
       /\ getRoboVacHumanReadableValue self command_name value
          = (Ret (PyStr (py_str label)), []).
Proof.
  unfold getRoboVacHumanReadableValue, getRoboVacHumanReadableValue_body.
  destruct (to_command command_name) as [cmd|x] eqn:Hcmd; simpl.
  - destruct (_get_command_values self cmd) as [values|] eqn:Hvalues;
      simpl; [|left; reflexivity].
    destruct (dict_contains values (PyStr (py_str value))) eqn:Htext;
      simpl; [|left; reflexivity].
    unfold dict_getitem.
    destruct (dict_get values value) as [label|] eqn:Hlabel; simpl.
    + right. exists cmd, values, label. auto.
    + left. reflexivity.
  - apply to_command_raise in Hcmd as ->. left. reflexivity.
Qed.

(** The table of DP codes holds nothing but what the loop put there. *)
Lemma getDpsCodes_fold_sound cs (codes : gmap string string) (k c : string) :
  fold_left getDpsCodes_step cs codes !! k = Some c ->
  codes !! k = Some c
  \/ exists cmd entry,
       In (cmd, entry) cs /\ dps_name cmd = k /\ declared_code entry = Some c.
Proof.
  revert codes. induction cs as [|[cmd entry] cs IH]; intros codes Hk.
  - left. exact Hk.
  - simpl in Hk. apply IH in Hk as [Hk | (cmd' & entry' & Hin & Hname & Hd)].
    + rewrite getDpsCodes_step_declared in Hk. simpl in Hk.
      destruct (declared_code entry) as [c'|] eqn:Hd; [|left; exact Hk].
      destruct (decide (dps_name cmd = k)) as [Heq|Hne].
      * rewrite Heq, lookup_insert_eq in Hk. injection Hk as ->.
        right. exists cmd, entry. split; [left; reflexivity | auto].
      * rewrite lookup_insert_ne in Hk by exact Hne. left. exact Hk.
    + right. exists cmd', entry'. split; [right; exact Hin | auto].
Qed.

(** X2.  [getDpsCodes] invents nothing: every name of the table it returns
    is the DPS name of a command of the model's table, and the code under it
    is the text of the code that command declares. *)
Theorem getDpsCodes_sound (self : RoboVac) (dps : string) (code : string) :
  getDpsCodes self !! dps = Some code ->
  exists cmd entry,
    In (cmd, entry) (commands (model_details self))
    /\ In cmd (getSupportedCommands self)
    /\ dps_name cmd = dps
    /\ declared_code entry = Some code.
Proof.
  intros Hcode. unfold getDpsCodes in Hcode.
  apply getDpsCodes_fold_sound in Hcode
    as [Hempty | (cmd & entry & Hin & Hname & Hd)].
  - rewrite lookup_empty in Hempty. discriminate Hempty.
  - exists cmd, entry. repeat split; auto.
    unfold getSupportedCommands. change cmd with (fst (cmd, entry)).
    apply in_map. exact Hin.
Qed.

(** X2 on the T2278 table: the name ["ERROR_CODE"] with code ["169"] comes
    from the ERROR command. *)
Lemma getDpsCodes_sound_witness :
  exists cmd entry,
    In (cmd, entry) (commands (T2278 (H := ref_features)))
    /\ In cmd (getSupportedCommands
                 {| model_code := "T2278";
                    model_details := T2278 (H := ref_features);
                    _dps := None |})
    /\ dps_name cmd = "ERROR_CODE"
    /\ declared_code entry = Some "169".
Proof.
  apply (getDpsCodes_sound
           {| model_code := "T2278"; model_details := T2278 (H := ref_features);
              _dps := None |} "ERROR_CODE" "169").
  vm_compute. reflexivity.
Defined.

(** X3.  Every fan speed that [getFanSpeeds] lists is the entry of a declared
    key of the FAN_SPEED dict (whose keys are distinct), so that the encoder,
    given that key, returns the text of the listed fan speed; and the list is
    empty when the model has no FAN_SPEED dict. *)
Theorem getFanSpeeds_are_encodings `{Environment} (self : RoboVac) :
  (_get_command_values self RobovacCommand.FAN_SPEED = None ->
   getFanSpeeds self = [])
  /\ (forall values speed,
        _get_command_values self RobovacCommand.FAN_SPEED = Some values ->
        distinct_keys values = true ->
        In speed (getFanSpeeds self) ->
        exists key,
          dict_get values key = Some speed
          /\ getRoboVacCommandValue self (Member RobovacCommand.FAN_SPEED) key
             = Ret (PyStr (py_str speed))).
Proof.
  unfold getFanSpeeds. split.
  - intros ->. reflexivity.
  - intros values speed Hvalues Hdistinct Hin. rewrite Hvalues in Hin.
    apply in_map_iff in Hin as ([key speed'] & [= ->] & Hentry).
    exists key.
    assert (Hget : dict_get values key = Some speed)
      by (apply dict_get_entry; assumption).
    split; [exact Hget|].
    unfold getRoboVacCommandValue, getRoboVacCommandValue_body. simpl.
    rewrite Hvalues. unfold dict_contains, dict_getitem. rewrite Hget.
    reflexivity.
Qed.

(** X3 on the T2080 table: the listed ["Turbo"] is what ["turbo"] encodes
    to. *)
Lemma getFanSpeeds_are_encodings_witness :
  let self := {| model_code := "T2080";
                 model_details := T2080 (H := ref_features);
                 _dps := None |} in
  exists key,
    dict_get (str_items [("quiet", "Quiet"); ("standard", "Standard");
                         ("turbo", "Turbo"); ("max", "Max")]) key
    = Some (PyStr "Turbo")
    /\ @getRoboVacCommandValue ref_environment self
         (Member RobovacCommand.FAN_SPEED) key
       = Ret (PyStr "Turbo").
Proof.
  intros self.
  apply (proj2 (@getFanSpeeds_are_encodings ref_environment self)
           _ (PyStr "Turbo") eq_refl eq_refl).
  vm_compute. tauto.
Defined.

(** ** More on the activity and the state attributes *)

(** X4.  Without an activity mapping, with the status present and no active
    error, the activity is always one of DOCKED, RETURNING, IDLE, PAUSED and
    CLEANING, never unknown and never ERROR: it is read off the exact labels
    ["Charging"], ["completed"], ["Recharge"], ["Sleeping"], ["standby"] and
    ["Paused"], and it is CLEANING for every other status, be it a label in
    another case or a number. *)
Theorem activity_heuristics (self : RoboVacEntity) :
  _attr_activity_mapping self = None ->
  status_present self = true ->
  error_active (_attr_error_code self) = false ->
  let state := _attr_tuya_state self in
  activity self <> None
  /\ activity self <> Some VacuumActivity.ERROR
  /\ (state = PyStr "Charging" \/ state = PyStr "completed" ->
      activity self = Some VacuumActivity.DOCKED)
  /\ (state = PyStr "Recharge" -> activity self = Some VacuumActivity.RETURNING)
  /\ (state = PyStr "Sleeping" \/ state = PyStr "standby" ->
      activity self = Some VacuumActivity.IDLE)
  /\ (state = PyStr "Paused" -> activity self = Some VacuumActivity.PAUSED)
  /\ (~ In state [PyStr "Charging"; PyStr "completed"; PyStr "Recharge";
                  PyStr "Sleeping"; PyStr "standby"; PyStr "Paused"] ->
      activity self = Some VacuumActivity.CLEANING).
Proof.
  intros Hmapping Hpresent Herror. cbv zeta.
  unfold status_present in Hpresent. apply negb_true_iff in Hpresent.
  unfold activity, error_active in *. cbv zeta.
  rewrite Hpresent, Herror, Hmapping.
  split; [|split; [|split; [|split; [|split; [|split]]]]].
  - repeat match goal with |- context [if ?c then _ else _] => destruct c end;
      discriminate.
  - repeat match goal with |- context [if ?c then _ else _] => destruct c end;
      discriminate.
  - intros [-> | ->]; reflexivity.
  - intros ->. reflexivity.
  - intros [-> | ->]; reflexivity.
  - intros ->. reflexivity.
  - intros Hother.
    assert (Hne : forall label,
      In (PyStr label)
        [PyStr "Charging"; PyStr "completed"; PyStr "Recharge";
         PyStr "Sleeping"; PyStr "standby"; PyStr "Paused"] ->
      py_eq (_attr_tuya_state self) (PyStr label) = false).
    { intros label Hin.
      destruct (_attr_tuya_state self) as [| | |text]; try reflexivity.
      simpl. apply String.eqb_neq. intros ->. exact (Hother Hin). }
    rewrite !Hne by (simpl; tauto). reflexivity.
Qed.

(** X4 on the status ["Standby"], which is none of the labels: CLEANING. *)
Lemma activity_heuristics_witness :
  let self :=
    set_attr_tuya_state (PyStr "Standby")
      (set_attr_error_code (PyInt 0)
         (fst (@RoboVacEntity_init ref_environment
                 {| CONF_MODEL := Some "T2278";
                    CONF_IP_ADDRESS := Some "192.168.1.102" |}))) in
  activity self = Some VacuumActivity.CLEANING.
Proof.
  intros self.
  refine (proj2 (proj2 (proj2 (proj2 (proj2 (proj2
    (activity_heuristics self eq_refl eq_refl eq_refl)))))) _).
  simpl. intros Hin.
  repeat (destruct Hin as [Hin | Hin]; [discriminate Hin|]). exact Hin.
Defined.

(** X5.  The activity is unknown in exactly two situations: the status is
    [None] or equal to [0]; or no error is active, the model declares an
    activity mapping, and the mapping has no entry for the status text.  And
    the activity is ERROR only when the status is present and either an
    error is active or the mapping itself says ERROR for the status. *)
Theorem activity_unknown_exactly (self : RoboVacEntity) :
  (activity self = None
   <-> status_present self = false
       \/ (error_active (_attr_error_code self) = false
           /\ exists mapping,
                _attr_activity_mapping self = Some mapping
                /\ mapping !! py_str (_attr_tuya_state self) = None))
  /\ (activity self = Some VacuumActivity.ERROR ->
      status_present self = true
      /\ (error_active (_attr_error_code self) = true
          \/ exists mapping,
               _attr_activity_mapping self = Some mapping
               /\ mapping !! py_str (_attr_tuya_state self)
                  = Some VacuumActivity.ERROR)).
Proof.
  unfold activity, status_present, error_active. cbv zeta.
  destruct (is_none (_attr_tuya_state self)
            || py_eq (_attr_tuya_state self) (PyInt 0)); cbn [negb].
  { split; [tauto | discriminate]. }
  destruct (py_truthy (_attr_error_code self)
            && negb (py_in_list (_attr_error_code self)
                       [PyInt 0; PyStr "no_error"])).
  { split; [|auto]. split; [discriminate|].
    intros [Habsent | [Hoff _]]; discriminate. }
  destruct (_attr_activity_mapping self) as [mapping|].
  - split.
    + split.
      * intros Hnone. right. split; [reflexivity|]. eauto.
      * intros [Habsent | [_ (mapping' & [= <-] & Hnone)]];
          [discriminate | exact Hnone].
    + intros Herror. split; [reflexivity|]. right. eauto.
  - split.
    + split.
      * repeat match goal with
               | |- context [if ?c then _ else _] => destruct c
               end; discriminate.
      * intros [Habsent | [_ (mapping & Hmapping & _)]]; discriminate.
    + repeat match goal with
             | |- context [if ?c then _ else _] => destruct c
             end; discriminate.
Qed.

Section AttributeFacts.
Context `{Environment}.

Lemma lookup_add_if cond key value (data : gmap string PyLit) name :
  add_if cond key value data !! name
  = if cond && bool_decide (key = name) then Some value else data !! name.
Proof.
  unfold add_if. destruct cond; simpl; [|reflexivity].
  case_bool_decide as Hname.
  - subst. apply lookup_insert_eq.
  - apply lookup_insert_ne. exact Hname.
Qed.

(** The state attributes, name by name. *)
Lemma extra_state_attributes_lookup self name :
  extra_state_attributes self !! name
  = let supported := _attr_robovac_supported self in
    if py_truthy (_attr_mode self) && bool_decide ("mode" = name)
    then Some (lit_of_val (_attr_mode self))
    else if supports supported FEATURE_CONSUMABLES
            && lit_truthy (_attr_consumables self)
            && bool_decide ("consumables" = name)
    then Some (_attr_consumables self)
    else if supports supported FEATURE_BOOST_IQ
            && opt_truthy (_attr_boost_iq self)
            && bool_decide ("boost_iq" = name)
    then Some (attr_lit (_attr_boost_iq self))
    else if supports supported FEATURE_DO_NOT_DISTURB
            && opt_truthy (_attr_do_not_disturb self)
            && bool_decide ("do_not_disturb" = name)
    then Some (attr_lit (_attr_do_not_disturb self))
    else if supports supported FEATURE_AUTO_RETURN
            && opt_truthy (_attr_auto_return self)
            && bool_decide ("auto_return" = name)
    then Some (attr_lit (_attr_auto_return self))
    else if supports supported FEATURE_CLEANING_TIME
            && opt_truthy (_attr_cleaning_time self)
            && bool_decide ("cleaning_time" = name)
    then Some (attr_lit (_attr_cleaning_time self))
    else if supports supported FEATURE_CLEANING_AREA
            && opt_truthy (_attr_cleaning_area self)
            && bool_decide ("cleaning_area" = name)
    then Some (attr_lit (_attr_cleaning_area self))
    else if negb (is_none (_attr_error_code self))
            && negb (py_in_list (_attr_error_code self)
                       [PyInt 0; PyStr "no_error"])
            && bool_decide ("error" = name)
    then Some (lit_of_val (getErrorMessage (_attr_error_code self)))
    else None.
Proof.
  unfold extra_state_attributes. cbv zeta.
  rewrite !lookup_add_if, lookup_empty. reflexivity.
Qed.
End AttributeFacts.

Lemma supports_false_and supported flag rest :
  supports supported flag = false -> supports supported flag && rest = false.
Proof. intros ->. reflexivity. Qed.

Lemma attribute_feature_cases `{RoboVacEntityFeature} name flag :
  attribute_feature name = Some flag ->
  In (name, flag)
    [("cleaning_area", FEATURE_CLEANING_AREA);
     ("cleaning_time", FEATURE_CLEANING_TIME);
     ("auto_return", FEATURE_AUTO_RETURN);
     ("do_not_disturb", FEATURE_DO_NOT_DISTURB);
     ("boost_iq", FEATURE_BOOST_IQ);
     ("consumables", FEATURE_CONSUMABLES)].
Proof.
  unfold attribute_feature.
  destruct (String.eqb_spec name "cleaning_area") as [->|_];
    [intros [= <-]; simpl; tauto|].
  destruct (String.eqb_spec name "cleaning_time") as [->|_];
    [intros [= <-]; simpl; tauto|].
  destruct (String.eqb_spec name "auto_return") as [->|_];
    [intros [= <-]; simpl; tauto|].
  destruct (String.eqb_spec name "do_not_disturb") as [->|_];
    [intros [= <-]; simpl; tauto|].
  destruct (String.eqb_spec name "boost_iq") as [->|_];
    [intros [= <-]; simpl; tauto|].
  destruct (String.eqb_spec name "consumables") as [->|_];
    [intros [= <-]; simpl; tauto|].
  discriminate.
Qed.

(** X6.  The state attributes expose nothing but the eight known names; an
    attribute gated by a feature flag is absent whenever the model's
    feature set lacks the flag (or is not known); and an attribute that is
    exposed under a name other than ["error"] is never [None], the empty
    string or an empty container. *)
Theorem extra_state_attributes_gated `{Environment}
    (self : RoboVacEntity) (name : string) :
  (~ In name attribute_names -> extra_state_attributes self !! name = None)
  /\ (forall flag,
        attribute_feature name = Some flag ->
        supports (_attr_robovac_supported self) flag = false ->
        extra_state_attributes self !! name = None)
  /\ (forall value,
        name <> "error" ->
        extra_state_attributes self !! name = Some value ->
        lit_truthy value = true).
Proof.
  rewrite extra_state_attributes_lookup. cbv zeta.
  split; [|split].
  - intros Hname. unfold attribute_names in Hname. simpl in Hname.
    repeat (rewrite (bool_decide_eq_false_2 (_ = name)) by tauto).
    rewrite !andb_false_r. reflexivity.
  - intros flag Hflag Hunsupported.
    apply attribute_feature_cases in Hflag. simpl in Hflag.
    repeat (destruct Hflag as [[= <- <-] | Hflag];
            [rewrite Hunsupported; cbn [andb];
             repeat (rewrite (bool_decide_eq_false_2 (_ = _)) by discriminate);
             rewrite ?andb_false_r; reflexivity|]).
    destruct Hflag.
  - intros value Hname.
    rewrite (bool_decide_eq_false_2 ("error" = name)) by congruence.
    rewrite andb_false_r.
    repeat match goal with
    | |- context [if ?c then _ else _] => destruct c eqn:?
    end; try discriminate; intros [= <-];
    repeat match goal with
    | Hc : _ && _ = true |- _ => apply andb_prop in Hc as [Hc ?]
    end;
    try assumption;
    match goal with
    | Ht : opt_truthy ?o = true |- _ => destruct o; [exact Ht | discriminate Ht]
    | Ht : py_truthy ?v = true |- _ => destruct v; first [exact Ht | discriminate Ht]
    end.
Qed.

(** X6 on an entity of an unsupported model, whose feature set is 0: no
    consumables attribute, whatever is cached. *)
Lemma extra_state_attributes_gated_witness :
  let self :=
    set_attr_consumables (LInt 42)
      (fst (@RoboVacEntity_init ref_environment
              {| CONF_MODEL := Some "T9999";
                 CONF_IP_ADDRESS := Some "192.168.1.100" |})) in
  @extra_state_attributes ref_environment self !! "consumables" = None.
Proof.
  intros self.
  exact (proj1 (proj2 (@extra_state_attributes_gated ref_environment self
                         "consumables")) 64 eq_refl eq_refl).
Defined.

(** X7.  The ["error"] attribute is there exactly when the error code is
    neither [None] nor equal to [0] or ["no_error"], and it is then the
    message of the code; in particular it is there whenever an error is
    active, that is whenever the activity is ERROR on account of the error
    code. *)
Theorem extra_state_attributes_error `{Environment} (self : RoboVacEntity) :
  let error_code := _attr_error_code self in
  (extra_state_attributes self !! "error"
   = if negb (is_none error_code)
        && negb (py_in_list error_code [PyInt 0; PyStr "no_error"])
     then Some (lit_of_val (getErrorMessage error_code))
     else None)
  /\ (error_active error_code = true ->
      extra_state_attributes self !! "error"
      = Some (lit_of_val (getErrorMessage error_code))).
Proof.
  cbv zeta.
  assert (Hlookup : extra_state_attributes self !! "error"
    = if negb (is_none (_attr_error_code self))
         && negb (py_in_list (_attr_error_code self)
                    [PyInt 0; PyStr "no_error"])
      then Some (lit_of_val (getErrorMessage (_attr_error_code self)))
      else None).
  { rewrite extra_state_attributes_lookup. cbv zeta.
    repeat (rewrite (bool_decide_eq_false_2 (_ = "error")) by discriminate).
    rewrite !andb_false_r.
    rewrite (bool_decide_eq_true_2 ("error" = "error")) by reflexivity.
    rewrite andb_true_r. reflexivity. }
  split; [exact Hlookup|].
  intros Hactive. rewrite Hlookup. unfold error_active in Hactive.
  apply andb_prop in Hactive as [Htruthy ->].
  destruct (_attr_error_code self); try discriminate Htruthy; reflexivity.
Qed.

(** X7 on a T2080 entity with error code ["E001"]. *)
Lemma extra_state_attributes_error_witness :
  @extra_state_attributes ref_environment
    (@T2080_entity_with ref_environment (PyStr "Auto Cleaning")
       (PyStr "E001")) !! "error"
  = Some (LStr "E001").
Proof.
  apply (proj2 (@extra_state_attributes_error ref_environment
                  (@T2080_entity_with ref_environment (PyStr "Auto Cleaning")
                     (PyStr "E001")))).
  reflexivity.
Defined.

(** ** More on the life of an entity *)

Section InitFacts.
Context `{Environment}.

Lemma substring_prefix (p suffix : string) :
  String.substring 0 (String.length p) (p ++ suffix)%string = p.
Proof.
  induction p as [|c p IH]; simpl.
  - destruct suffix; reflexivity.
  - rewrite IH. reflexivity.
Qed.

Lemma poll_all_fixed (self : RoboVacEntity) :
  (forall outcome, async_update outcome self = (Ret tt, self, [])) ->
  forall history, poll_all history self = self.
Proof.
  intros Hfixed history. unfold poll_all.
  induction history as [|p history IH]; [reflexivity|].
  simpl. rewrite Hfixed. exact IH.
Qed.
End InitFacts.

(** X8.  An entity whose model prefix is not in the registry is inert: it
    carries the error code ["UNSUPPORTED_MODEL"] and no device; every poll
    returns at once without touching the entity or logging, so its failure
    counter stays 0 and it never reaches ["CONNECTION_FAILED"]; a recompute
    changes nothing and logs one warning; its activity is unknown. *)
Theorem unsupported_model_is_inert `{Environment} (item : ConfigItem) :
  ROBOVAC_MODELS (model_code_prefix item) = None ->
  let self := fst (RoboVacEntity_init item) in
  _attr_error_code self = PyStr "UNSUPPORTED_MODEL"
  /\ vacuum self = None
  /\ (forall outcome, async_update outcome self = (Ret tt, self, []))
  /\ (forall history, poll_all history self = self)
  /\ update_entity_values self = (Ret tt, self, [WarnEntityNotInitialized])
  /\ activity self = None.
Proof.
  intros Hmissing. cbv zeta.
  assert (Hinit : exists self,
    fst (RoboVacEntity_init item) = self
    /\ _attr_error_code self = PyStr "UNSUPPORTED_MODEL"
    /\ vacuum self = None /\ _attr_tuya_state self = PyNone).
  { unfold RoboVacEntity_init, RoboVac_init.
    unfold model_code_prefix in Hmissing. rewrite Hmissing.
    eexists. split; [reflexivity|]. repeat split; reflexivity. }
  destruct Hinit as (self & -> & Herror & Hvacuum & Hstate).
  assert (Hfixed : forall outcome,
    async_update outcome self = (Ret tt, self, [])).
  { intros outcome. apply async_update_unsupported.
    rewrite Herror. reflexivity. }
  split; [exact Herror|]. split; [exact Hvacuum|].
  split; [exact Hfixed|]. split; [exact (poll_all_fixed self Hfixed)|].
  split.
  - unfold update_entity_values, mbind, M_bind, get_self.
    rewrite Hvacuum. reflexivity.
  - unfold activity. rewrite Hstate. reflexivity.
Qed.

(** X8 on the model ["T9999"], three failed polls in a row. *)
Lemma unsupported_model_is_inert_witness :
  let self :=
    fst (@RoboVacEntity_init ref_environment
           {| CONF_MODEL := Some "T9999";
              CONF_IP_ADDRESS := Some "192.168.1.100" |}) in
  @poll_all ref_environment [Failure; Failure; Failure] self = self.
Proof.
  intros self.
  exact (proj1 (proj2 (proj2 (proj2
    (@unsupported_model_is_inert ref_environment
       {| CONF_MODEL := Some "T9999";
          CONF_IP_ADDRESS := Some "192.168.1.100" |} eq_refl))))
    [Failure; Failure; Failure]).
Defined.

(** X9.  Only the first five characters of the configured model choose the
    table: a model string that starts with a five-character code of the
    registry gets the device, the feature set and the activity mapping of
    that code, whatever follows. *)
Theorem model_prefix_decides `{Environment} (item : ConfigItem)
    (prefix suffix : string) (details : RobovacModelDetails) :
  String.length prefix = 5%nat ->
  CONF_MODEL item = Some (prefix ++ suffix)%string ->
  ROBOVAC_MODELS prefix = Some details ->
  let self := fst (RoboVacEntity_init item) in
  vacuum self
  = Some {| model_code := prefix; model_details := details; _dps := Some ∅ |}
  /\ _attr_robovac_supported self = Some (robovac_features details)
  /\ _attr_activity_mapping self = activity_mapping details
  /\ _attr_error_code self = PyNone.
Proof.
  intros Hlength Hmodel Hregistry. cbv zeta.
  assert (Hprefix : String.substring 0 5 (prefix ++ suffix)%string = prefix)
    by (rewrite <- Hlength; apply substring_prefix).
  unfold RoboVacEntity_init, RoboVac_init. rewrite Hmodel.
  rewrite !Hprefix, Hregistry.
  repeat split; reflexivity.
Qed.

(** X9 on the model string ["T2080A"]. *)
Lemma model_prefix_decides_witness :
  vacuum (fst (@RoboVacEntity_init ref_environment
                 {| CONF_MODEL := Some "T2080A";
                    CONF_IP_ADDRESS := Some "192.168.1.100" |}))
  = Some {| model_code := "T2080";
            model_details := T2080 (H := ref_features); _dps := Some ∅ |}.
Proof.
  exact (proj1 (@model_prefix_decides ref_environment
                  {| CONF_MODEL := Some "T2080A";
                     CONF_IP_ADDRESS := Some "192.168.1.100" |}
                  "T2080" "A" (T2080 (H := ref_features))
                  eq_refl eq_refl eq_refl)).
Defined.

(** X10.  A new entity reaches the transport on a poll exactly when its
    model prefix is in the registry and its address is a non-empty string;
    it starts with no failure counted and a battery level within range. *)
Theorem new_entity_polls `{Environment} (item : ConfigItem) :
  let self := fst (RoboVacEntity_init item) in
  (polls self
   <-> (exists details, ROBOVAC_MODELS (model_code_prefix item) = Some details)
       /\ opt_truthy (CONF_IP_ADDRESS item) = true)
  /\ update_failures self = 0
  /\ in_range self.
Proof.
  cbv zeta. unfold RoboVacEntity_init, RoboVac_init, model_code_prefix.
  destruct (ROBOVAC_MODELS _) as [details|]; simpl;
    (split; [|split; [reflexivity | unfold in_range; simpl; lia]]).
  - unfold polls. simpl. split.
    + intros (_ & Hip & _). eauto.
    + intros (_ & Hip). repeat split; [exact Hip | discriminate].
  - unfold polls. simpl. split.
    + intros (Hsupported & _). discriminate Hsupported.
    + intros ((details & Hdetails) & _). discriminate Hdetails.
Qed.

(** ** Polls that do not reach the device, or that get no data *)

Section PollFacts.
Context `{Environment}.

(** Recomputing the values keeps a property that no assignment of the value
    updates can break, and logs only records of the four kinds. *)
Lemma keeps_update_entity_values_frame (P : RoboVacEntity -> Prop)
    (quiet : LogRecord -> Prop) :
  (forall v self, P self -> P (set_tuyastatus v self)) ->
  (forall v self, P self -> P (set_attr_battery_level v self)) ->
  (forall v self, P self -> P (set_attr_tuya_state v self)) ->
  (forall v self, P self -> P (set_attr_error_code v self)) ->
  (forall v self, P self -> P (set_attr_mode v self)) ->
  (forall v self, P self -> P (set_attr_fan_speed v self)) ->
  (forall v self, P self -> P (set_attr_cleaning_area v self)) ->
  (forall v self, P self -> P (set_attr_cleaning_time v self)) ->
  (forall v self, P self -> P (set_attr_auto_return v self)) ->
  (forall v self, P self -> P (set_attr_do_not_disturb v self)) ->
  (forall v self, P self -> P (set_attr_boost_iq v self)) ->
  (forall v self, P self -> P (set_attr_consumables v self)) ->
  (forall c v m, quiet (WarnValueNotFound c v m)) ->
  (forall x, quiet (WarnConsumableDecode x)) ->
  (forall v, quiet (WarnInvalidBattery v)) ->
  quiet WarnEntityNotInitialized -> quiet WarnNoDataPoints ->
  keeps P quiet never update_entity_values.
Proof.
  intros. apply keeps_update_entity_values; try assumption.
  apply keeps_update_battery_level_frame; assumption.
Qed.

Lemma async_update_no_address outcome self :
  py_eq (_attr_error_code self) (PyStr "UNSUPPORTED_MODEL") = false ->
  opt_truthy (_attr_ip_address self) = false ->
  async_update outcome self
  = (Ret tt, set_attr_error_code (PyStr "IP_ADDRESS") self,
     [WarnIpAddressNotSet]).
Proof.
  intros Hsupported Hip. unfold async_update, mbind, M_bind, get_self.
  rewrite Hsupported, Hip. reflexivity.
Qed.
End PollFacts.

(** X11.  An entity of a supported model whose address is unset or empty
    never reaches the transport: every poll, whatever the device would
    answer, returns normally, logs one warning and sets the error code to
    ["IP_ADDRESS"], and changes nothing else; so after any number of polls
    the entity is the one the first poll left, with its failure counter
    untouched. *)
Theorem async_update_without_address `{Environment} (self : RoboVacEntity) :
  py_eq (_attr_error_code self) (PyStr "UNSUPPORTED_MODEL") = false ->
  opt_truthy (_attr_ip_address self) = false ->
  (forall outcome,
     async_update outcome self
     = (Ret tt, set_attr_error_code (PyStr "IP_ADDRESS") self,
        [WarnIpAddressNotSet]))
  /\ (forall history, history <> [] ->
        poll_all history self
        = set_attr_error_code (PyStr "IP_ADDRESS") self)
  /\ (forall history,
        update_failures (poll_all history self) = update_failures self).
Proof.
  intros Hsupported Hip.
  assert (Hstay : forall history,
    poll_all history (set_attr_error_code (PyStr "IP_ADDRESS") self)
    = set_attr_error_code (PyStr "IP_ADDRESS") self).
  { intros history. unfold poll_all.
    induction history as [|p history IH]; [reflexivity|].
    cbn [fold_left]. rewrite async_update_no_address by reflexivity || exact Hip.
    exact IH. }
  assert (Hall : forall history, history <> [] ->
    poll_all history self = set_attr_error_code (PyStr "IP_ADDRESS") self).
  { intros [|p history] Hnonempty; [congruence|].
    unfold poll_all. cbn [fold_left].
    rewrite (async_update_no_address _ _ Hsupported Hip). apply Hstay. }
  split; [|split].
  - intros outcome. apply async_update_no_address; assumption.
  - exact Hall.
  - intros [|p history]; [reflexivity|].
    rewrite Hall by discriminate. reflexivity.
Qed.

(** X11 on a T2080 entity configured without address: two polls. *)
Lemma async_update_without_address_witness :
  let self :=
    fst (@RoboVacEntity_init ref_environment
           {| CONF_MODEL := Some "T2080"; CONF_IP_ADDRESS := None |}) in
  @poll_all ref_environment [Success None; Failure] self
  = set_attr_error_code (PyStr "IP_ADDRESS") self.
Proof.
  intros self.
  refine (proj1 (proj2
    (@async_update_without_address ref_environment self eq_refl eq_refl))
    [Success None; Failure] _).
  discriminate.
Defined.

(** X12.  Only [TuyaException] counts as a failed poll: any other exception
    of the transport leaves [async_update] as it was raised, with the failure
    counter, the error code and the rest of the entity untouched and nothing
    logged at warning level. *)
Theorem async_update_foreign_exception `{Environment} (self : RoboVacEntity)
    (x : PyExc) :
  polls self -> x <> TuyaException ->
  async_update (GetRaises x) self = (Raise x, self, []).
Proof.
  intros (Hsupported & Hip & Hvac) Hforeign.
  unfold async_update, mbind, M_bind, get_self.
  rewrite Hsupported, Hip. cbn [negb].
  destruct (vacuum self) as [device|]; [|congruence].
  unfold m_try, async_get, raise.
  destruct x; try reflexivity. congruence.
Qed.

(** X12 on a new T2080 entity, the transport raising [OSError]. *)
Lemma async_update_foreign_exception_witness :
  let self :=
    fst (@RoboVacEntity_init ref_environment
           {| CONF_MODEL := Some "T2080";
              CONF_IP_ADDRESS := Some "192.168.1.100" |}) in
  @async_update ref_environment (GetRaises OtherException) self
  = (Raise OtherException, self, []).
Proof.
  intros self.
  apply (@async_update_foreign_exception ref_environment self OtherException).
  - repeat split; try reflexivity. discriminate.
  - discriminate.
Defined.

(** X13.  A successful poll that brings no data points ([None] or an empty
    snapshot) resets the failure counter and logs one warning, and recomputes
    nothing: battery level, status, error code, mode and fan speed stay as
    they were.  An entity that has reached ["CONNECTION_FAILED"] keeps that
    error code, although its counter is back to 0. *)
Theorem async_update_empty_snapshot `{Environment} (self : RoboVacEntity)
    (snapshot : option (gmap string PyVal)) :
  polls self ->
  snapshot = None \/ snapshot = Some ∅ ->
  let result := async_update (GetReturns snapshot) self in
  let self' := snd (fst result) in
  fst (fst result) = Ret tt
  /\ snd result = [WarnNoDataPoints]
  /\ update_failures self' = 0
  /\ tuyastatus self' = snapshot
  /\ _attr_battery_level self' = _attr_battery_level self
  /\ _attr_tuya_state self' = _attr_tuya_state self
  /\ _attr_error_code self' = _attr_error_code self
  /\ _attr_mode self' = _attr_mode self
  /\ _attr_fan_speed self' = _attr_fan_speed self
  /\ activity self' = activity self.
Proof.
  intros Hpolls Hempty. cbv zeta.
  destruct (vacuum self) as [device|] eqn:Hvac;
    [|destruct Hpolls as (_ & _ & Hsome); congruence].
  rewrite (async_update_success_eq self device snapshot Hpolls Hvac).
  unfold update_entity_values, mbind, M_bind, get_self.
  cbn [vacuum set_update_failures set_vacuum _dps].
  destruct Hempty as [-> | ->].
  - repeat split; reflexivity.
  - destruct (decide (∅ = ∅)) as [_|Hne]; [|congruence].
    repeat split; reflexivity.
Qed.

(** X13 on a T2080 entity that has given up: an empty answer does not clear
    the error code. *)
Lemma async_update_empty_snapshot_witness :
  let self :=
    @T2080_entity_with ref_environment (PyStr "Standby")
      (PyStr "CONNECTION_FAILED") in
  _attr_error_code
    (snd (fst (@async_update ref_environment (GetReturns (Some ∅)) self)))
  = PyStr "CONNECTION_FAILED".
Proof.
  intros self.
  refine (proj1 (proj2 (proj2 (proj2 (proj2 (proj2 (proj2
    (@async_update_empty_snapshot ref_environment self (Some ∅) _ _))))))));
    [repeat split; try reflexivity; discriminate | right; reflexivity].
Defined.

(** ** What a recomputation reads from the snapshot *)

Section RecomputeFacts.
Context `{Environment}.

(** The code of a data point depends on the device only. *)
Lemma _get_dps_code_vacuum self self' code_name :
  vacuum self' = vacuum self ->
  _get_dps_code self' code_name = _get_dps_code self code_name.
Proof. intros Hvac. unfold _get_dps_code. rewrite Hvac. reflexivity. Qed.

(** The status and error update, computed. *)
Lemma _update_state_and_error_eq self device snapshot :
  tuyastatus self = Some snapshot -> vacuum self = Some device ->
  exists state error log,
    _update_state_and_error self
    = (Ret tt, set_attr_error_code error (set_attr_tuya_state state self),
       log)
    /\ (let raw := dps_get snapshot (_get_dps_code self "STATUS") in
        if is_none raw then state = PyInt 0
        else fst (getRoboVacHumanReadableValue device
                    (Member RobovacCommand.STATUS) raw) = Ret state)
    /\ (let raw := dps_get snapshot (_get_dps_code self "ERROR_CODE") in
        if is_none raw then error = PyInt 0
        else fst (getRoboVacHumanReadableValue device
                    (Member RobovacCommand.ERROR) raw) = Ret error).
Proof.
  intros Hsnap Hvac.
  unfold _update_state_and_error, mbind, M_bind, get_self, call, assign.
  rewrite Hsnap, Hvac. cbv zeta.
  destruct (getRoboVacHumanReadableValue_returns device
              (Member RobovacCommand.STATUS)
              (dps_get snapshot (_get_dps_code self "STATUS")))
    as [state Hstate].
  destruct (getRoboVacHumanReadableValue_returns device
              (Member RobovacCommand.ERROR)
              (dps_get snapshot (_get_dps_code self "ERROR_CODE")))
    as [error Herror].
  destruct (is_none (dps_get snapshot (_get_dps_code self "STATUS")));
    destruct (is_none (dps_get snapshot (_get_dps_code self "ERROR_CODE")));
    cbn [negb]; rewrite ?Hstate, ?Herror;
    eexists _, _, _; (split; [reflexivity|]); split;
    first [reflexivity | assumption].
Qed.
End RecomputeFacts.

(** X14.  A recomputation from a non-empty snapshot (after a poll or a push)
    returns normally and takes the status and the error code from the
    snapshot alone: each is the decoded data point, or the number 0 when the
    data point is missing; whatever the attributes held before, a sentinel
    such as ["CONNECTION_FAILED"] included, is overwritten.  A snapshot
    without the status data point therefore makes the activity unknown,
    even when it carries an error. *)
Theorem update_entity_values_status `{Environment} (self : RoboVacEntity)
    (device : RoboVac) (snapshot : gmap string PyVal) :
  vacuum self = Some device -> _dps device = Some snapshot ->
  snapshot <> ∅ ->
  let self' := snd (fst (update_entity_values self)) in
  let status := dps_get snapshot (_get_dps_code self "STATUS") in
  let error := dps_get snapshot (_get_dps_code self "ERROR_CODE") in
  fst (fst (update_entity_values self)) = Ret tt
  /\ (if is_none status then _attr_tuya_state self' = PyInt 0
      else fst (getRoboVacHumanReadableValue device
                  (Member RobovacCommand.STATUS) status)
           = Ret (_attr_tuya_state self'))
  /\ (if is_none error then _attr_error_code self' = PyInt 0
      else fst (getRoboVacHumanReadableValue device
                  (Member RobovacCommand.ERROR) error)
           = Ret (_attr_error_code self'))
  /\ (is_none status = true -> activity self' = None).
Proof.
  intros Hvac Hdps Hnonempty. cbv zeta.
  pose (P := fun s : RoboVacEntity =>
    vacuum s = Some device /\ tuyastatus s = Some snapshot).
  assert (HP0 : P (set_tuyastatus (Some snapshot) self))
    by (split; [exact Hvac | reflexivity]).
  destruct (keeps_update_battery_level_frame P any_record
              ltac:(intros v s Hs; exact Hs) ltac:(intros; exact I) _ HP0)
    as (r1 & s1 & log1 & E1 & (Hvac1 & Hsnap1) & _ & Hr1).
  destruct r1 as [[]|x]; [|destruct Hr1].
  destruct (_update_state_and_error_eq s1 device snapshot Hsnap1 Hvac1)
    as (state & error & log2 & E2 & Hstate & Herror).
  rewrite !(_get_dps_code_vacuum self s1) in Hstate, Herror
    by (rewrite Hvac1, Hvac; reflexivity).
  pose (Q := fun s : RoboVacEntity =>
    _attr_tuya_state s = state /\ _attr_error_code s = error).
  assert (HQ2 : Q (set_attr_error_code error (set_attr_tuya_state state s1)))
    by (split; reflexivity).
  destruct (keeps_update_mode_and_fan_speed Q any_record
              ltac:(intros v s Hs; exact Hs) ltac:(intros v s Hs; exact Hs)
              ltac:(intros; exact I) _ HQ2)
    as (r3 & s3 & log3 & E3 & HQ3 & _ & Hr3).
  destruct r3 as [[]|x]; [|destruct Hr3].
  destruct (keeps_update_cleaning_stats Q any_record
              ltac:(intros v s Hs; exact Hs) ltac:(intros v s Hs; exact Hs)
              ltac:(intros v s Hs; exact Hs) ltac:(intros v s Hs; exact Hs)
              ltac:(intros v s Hs; exact Hs) ltac:(intros v s Hs; exact Hs)
              ltac:(intros; exact I) _ HQ3)
    as (r4 & s4 & log4 & E4 & (Hstate4 & Herror4) & _ & Hr4).
  destruct r4 as [[]|x]; [|destruct Hr4].
  assert (Hrun : update_entity_values self
                 = (Ret tt, s4, (log1 ++ log2 ++ log3 ++ log4)%list)).
  { unfold update_entity_values, mbind, M_bind, get_self, assign.
    rewrite Hvac, Hdps.
    destruct (decide (snapshot = ∅)) as [Hempty|_]; [congruence|].
    rewrite E1, E2, E3, E4. reflexivity. }
  rewrite Hrun. cbn [fst snd]. rewrite Hstate4, Herror4.
  split; [reflexivity|]. split; [exact Hstate|]. split; [exact Herror|].
  intros Hmissing. cbv zeta in Hstate. rewrite Hmissing in Hstate.
  unfold activity. rewrite Hstate4, Hstate. reflexivity.
Qed.

(** X14 on a T2080 entity that had given up: a pushed snapshot that carries
    only the battery level clears the error code and the status. *)
Lemma update_entity_values_status_witness :
  let snapshot : gmap string PyVal := dict_display [("163", PyInt 80)] in
  let device :=
    {| model_code := "T2080"; model_details := T2080 (H := ref_features);
       _dps := Some snapshot |} in
  let self :=
    set_vacuum (Some device)
      (@T2080_entity_with ref_environment (PyStr "Standby")
         (PyStr "CONNECTION_FAILED")) in
  let self' := snd (fst (@update_entity_values ref_environment self)) in
  _attr_error_code self' = PyInt 0 /\ activity self' = None.
Proof.
  intros snapshot device self self'.
  pose proof (@update_entity_values_status ref_environment self device
                snapshot eq_refl eq_refl) as Hrun.
  assert (Hnonempty : snapshot <> ∅) by (vm_compute; discriminate).
  specialize (Hrun Hnonempty). cbv zeta in Hrun.
  destruct Hrun as (_ & _ & Herror & Hactivity).
  split; [exact Herror | exact (Hactivity eq_refl)].
Defined.

(** ** Mode, fan speed and cleaning statistics *)

Section DisplayFacts.
Context `{Environment}.

(** What the decoder returns is the value it was given, or a text. *)
Lemma getRoboVacHumanReadableValue_shape self command_name value human :
  fst (getRoboVacHumanReadableValue self command_name value) = Ret human ->
  human = value \/ exists text, human = PyStr text.
Proof.
  unfold getRoboVacHumanReadableValue, getRoboVacHumanReadableValue_body.
  destruct (to_command command_name) as [cmd|x]; simpl.
  - destruct (_get_command_values self cmd) as [values|]; simpl;
      [|intros [= <-]; auto].
    destruct (dict_contains values (PyStr (py_str value))); simpl;
      [|intros [= <-]; auto].
    destruct (dict_getitem values value) as [v|x]; simpl.
    + intros [= <-]. eauto.
    + destruct x; simpl; first [intros [= <-]; auto | discriminate].
  - destruct x; simpl; first [intros [= <-]; auto | discriminate].
Qed.

Lemma format_fan_speed_display (fan_speed : PyVal) :
  is_none fan_speed = false ->
  py_in_list (format_fan_speed fan_speed)
    [PyNone; PyStr "No_suction"; PyStr "Boost_IQ"; PyStr "Quiet"] = false.
Proof.
  destruct fan_speed as [|b|z|s]; try discriminate; try reflexivity.
  intros _. unfold format_fan_speed, py_in_list. cbn [py_eq].
  destruct (String.eqb s "No_suction") eqn:E1; [reflexivity|].
  destruct (String.eqb s "Boost_IQ") eqn:E2; [reflexivity|].
  destruct (String.eqb s "Quiet") eqn:E3; [reflexivity|].
  cbn [existsb py_eq]. rewrite E1, E2, E3. reflexivity.
Qed.
End DisplayFacts.

(** X15.  With a snapshot at hand the mode and fan-speed update returns
    normally; the fan speed it leaves is the display form of the data point
    (of the empty text when the data point is missing), and is never [None]
    nor one of the raw labels ["No_suction"], ["Boost_IQ"] and ["Quiet"];
    the mode it leaves is never [None]. *)
Theorem _update_mode_and_fan_speed_display `{Environment}
    (self : RoboVacEntity) (snapshot : gmap string PyVal) :
  tuyastatus self = Some snapshot ->
  let result := _update_mode_and_fan_speed self in
  let self' := snd (fst result) in
  let raw := dps_get snapshot (_get_dps_code self "FAN_SPEED") in
  fst (fst result) = Ret tt
  /\ _attr_fan_speed self'
     = format_fan_speed (if is_none raw then PyStr EmptyString else raw)
  /\ py_in_list (_attr_fan_speed self')
       [PyNone; PyStr "No_suction"; PyStr "Boost_IQ"; PyStr "Quiet"] = false
  /\ is_none (_attr_mode self') = false.
Proof.
  intros Hsnap. cbv zeta.
  assert (Hdisplay :
    py_in_list
      (format_fan_speed
         (if is_none (dps_get snapshot (_get_dps_code self "FAN_SPEED"))
          then PyStr EmptyString
          else dps_get snapshot (_get_dps_code self "FAN_SPEED")))
      [PyNone; PyStr "No_suction"; PyStr "Boost_IQ"; PyStr "Quiet"] = false).
  { apply format_fan_speed_display.
    destruct (dps_get snapshot (_get_dps_code self "FAN_SPEED")); reflexivity. }
  unfold _update_mode_and_fan_speed, mbind, M_bind, get_self, call, assign.
  rewrite Hsnap. cbv zeta.
  destruct (vacuum self) as [device|];
    [|cbn [fst snd _attr_fan_speed _attr_mode set_attr_fan_speed
           set_attr_mode]; auto].
  destruct (is_none (dps_get snapshot (_get_dps_code self "MODE")))
    eqn:Hmode; cbn [negb];
    [cbn [fst snd _attr_fan_speed _attr_mode set_attr_fan_speed
          set_attr_mode]; auto|].
  destruct (getRoboVacHumanReadableValue_returns device
              (Member RobovacCommand.MODE)
              (dps_get snapshot (_get_dps_code self "MODE")))
    as [human Hhuman].
  rewrite Hhuman.
  cbn [fst snd _attr_fan_speed _attr_mode set_attr_fan_speed set_attr_mode].
  repeat split; auto.
  destruct (getRoboVacHumanReadableValue_shape _ _ _ _ Hhuman)
    as [-> | [text ->]]; [exact Hmode | reflexivity].
Qed.

(** X15 on a T2080 entity whose snapshot reports the fan speed ["Quiet"]
    under code 158: the entity shows ["Pure"]. *)
Lemma _update_mode_and_fan_speed_display_witness :
  let snapshot : gmap string PyVal :=
    dict_display [("158", PyStr "Quiet")] in
  let self :=
    set_tuyastatus (Some snapshot)
      (@T2080_entity_with ref_environment (PyStr "Standby") (PyInt 0)) in
  _attr_fan_speed
    (snd (fst (@_update_mode_and_fan_speed ref_environment self)))
  = PyStr "Pure".
Proof.
  intros snapshot self.
  exact (proj1 (proj2
    (@_update_mode_and_fan_speed_display ref_environment self snapshot
       eq_refl))).
Defined.

Section CleaningStatsCache.
Context `{Environment}.

(** The statistics update, as far as the cleaning time, the three cached
    toggles and the device go. *)
Lemma _update_cleaning_stats_cached (self : RoboVacEntity)
    (snapshot : gmap string PyVal) :
  tuyastatus self = Some snapshot ->
  let result := _update_cleaning_stats self in
  let self' := snd (fst result) in
  let read code_name := dps_get snapshot (_get_dps_code self code_name) in
  fst (fst result) = Ret tt
  /\ vacuum self' = vacuum self
  /\ (is_none (read "CLEANING_TIME") = true ->
        _attr_cleaning_time self' = _attr_cleaning_time self
        /\ _attr_auto_return self' = _attr_auto_return self
        /\ _attr_do_not_disturb self' = _attr_do_not_disturb self
        /\ _attr_boost_iq self' = _attr_boost_iq self)
  /\ (is_none (read "CLEANING_TIME") = false ->
        _attr_cleaning_time self' = Some (py_str (read "CLEANING_TIME"))
        /\ _attr_auto_return self' = str_or_none (read "AUTO_RETURN")
        /\ _attr_do_not_disturb self' = str_or_none (read "DO_NOT_DISTURB")
        /\ _attr_boost_iq self' = str_or_none (read "BOOST_IQ")).
Proof.
  intros Hsnap. cbv zeta.
  assert (Hloop : forall (time auto_return do_not_disturb boost_iq :
                            option string) device (supported : bool) codes s,
    _attr_cleaning_time s = time /\ _attr_auto_return s = auto_return
    /\ _attr_do_not_disturb s = do_not_disturb /\ _attr_boost_iq s = boost_iq
    /\ vacuum s = device ->
    exists s' log,
      (if supported then
         m_for codes (fun CONSUMABLE_CODE =>
           match snapshot !! CONSUMABLE_CODE with
           | Some (PyStr consumable_data) =>
               _update_consumable consumable_data
           | _ => mret tt
           end)
       else mret tt) s = (Ret tt, s', log)
      /\ _attr_cleaning_time s' = time /\ _attr_auto_return s' = auto_return
      /\ _attr_do_not_disturb s' = do_not_disturb
      /\ _attr_boost_iq s' = boost_iq
      /\ vacuum s' = device).
  { intros time auto_return do_not_disturb boost_iq device supported codes s
      Hs.
    pose (P := fun s : RoboVacEntity =>
      _attr_cleaning_time s = time /\ _attr_auto_return s = auto_return
      /\ _attr_do_not_disturb s = do_not_disturb
      /\ _attr_boost_iq s = boost_iq /\ vacuum s = device).
    assert (Hkeeps : keeps P any_record never
      (if supported then
         m_for codes (fun CONSUMABLE_CODE =>
           match snapshot !! CONSUMABLE_CODE with
           | Some (PyStr consumable_data) =>
               _update_consumable consumable_data
           | _ => mret tt
           end)
       else mret tt)).
    { destruct supported; [|apply keeps_ret].
      apply keeps_for. intros code.
      destruct (snapshot !! code) as [[| | |text]|]; try apply keeps_ret.
      apply keeps_update_consumable;
        [intros v s0 Hs0; exact Hs0 | intros; exact I]. }
    destruct (Hkeeps s Hs) as (r & s' & log & E & HP' & _ & Hr).
    destruct r as [[]|x]; [|destruct Hr].
    exists s', log. split; [exact E | exact HP']. }
  unfold _update_cleaning_stats, mbind, M_bind, get_self, assign.
  rewrite Hsnap. cbv zeta.
  destruct (is_none (dps_get snapshot (_get_dps_code self "CLEANING_AREA")));
    destruct (is_none (dps_get snapshot (_get_dps_code self "CLEANING_TIME")));
    cbn [negb mret M_ret];
    match goal with
    | |- context [(if ?c then m_for ?codes ?body else ?e) ?s] =>
        destruct (Hloop _ _ _ _ _ c codes s
                    (conj eq_refl (conj eq_refl (conj eq_refl
                       (conj eq_refl eq_refl)))))
          as (s' & log & E & Htime & Hreturn & Hdnd & Hboost & Hvac)
    end;
    cbn [mret M_ret] in E; rewrite E; cbn [fst snd];
    (split; [reflexivity|]); (split; [exact Hvac|]);
    split; intros Hcase; first [discriminate Hcase | auto].
Qed.
End CleaningStatsCache.

(** X16.  The cached toggles follow the cleaning time: when the snapshot
    carries no cleaning-time data point, the update leaves the cleaning time
    and the auto-return, do-not-disturb and boost-IQ attributes as they
    were, whatever the snapshot holds for them; when it carries one, the
    three attributes become the text of their data points, and [None] for a
    data point that is missing.  The update returns normally either way. *)
Theorem _update_cleaning_stats_toggles `{Environment} (self : RoboVacEntity)
    (snapshot : gmap string PyVal) :
  tuyastatus self = Some snapshot ->
  let result := _update_cleaning_stats self in
  let self' := snd (fst result) in
  let read code_name := dps_get snapshot (_get_dps_code self code_name) in
  fst (fst result) = Ret tt
  /\ (is_none (read "CLEANING_TIME") = true ->
        _attr_cleaning_time self' = _attr_cleaning_time self
        /\ _attr_auto_return self' = _attr_auto_return self
        /\ _attr_do_not_disturb self' = _attr_do_not_disturb self
        /\ _attr_boost_iq self' = _attr_boost_iq self)
  /\ (is_none (read "CLEANING_TIME") = false ->
        _attr_cleaning_time self' = Some (py_str (read "CLEANING_TIME"))
        /\ _attr_auto_return self' = str_or_none (read "AUTO_RETURN")
        /\ _attr_do_not_disturb self' = str_or_none (read "DO_NOT_DISTURB")
        /\ _attr_boost_iq self' = str_or_none (read "BOOST_IQ")).
Proof.
  intros Hsnap.
  destruct (_update_cleaning_stats_cached self snapshot Hsnap)
    as (Hreturns & _ & Hstale & Hfresh).
  cbv zeta. auto.
Qed.

(** X16 on a T2080 entity with auto-return cached as ["True"]: a snapshot
    that reports auto-return off (code 135) but no cleaning time leaves the
    cache as it was. *)
Lemma _update_cleaning_stats_toggles_witness :
  let snapshot : gmap string PyVal :=
    dict_display [("135", PyBool false)] in
  let self :=
    set_tuyastatus (Some snapshot)
      (set_attr_auto_return (Some "True")
         (@T2080_entity_with ref_environment (PyStr "Standby") (PyInt 0))) in
  _attr_auto_return
    (snd (fst (@_update_cleaning_stats ref_environment self)))
  = Some "True".
Proof.
  intros snapshot self.
  exact (proj1 (proj2 (proj1 (proj2
    (@_update_cleaning_stats_toggles ref_environment self snapshot eq_refl))
    eq_refl))).
Defined.

(** ** A branch that polls never take *)

Section Reachability.
Context `{Environment}.

(** One poll of an entity that has a device unless it is unsupported: the
    same holds afterwards, the device is there exactly if it was, and the
    poll does not log that the vacuum is not initialised. *)
Lemma async_update_device_or_unsupported (p : Poll) (self : RoboVacEntity) :
  (vacuum self = None ->
   py_eq (_attr_error_code self) (PyStr "UNSUPPORTED_MODEL") = true) ->
  let result := async_update (outcome_of p) self in
  let self' := snd (fst result) in
  (vacuum self' = None ->
   py_eq (_attr_error_code self') (PyStr "UNSUPPORTED_MODEL") = true)
  /\ (vacuum self' = None <-> vacuum self = None)
  /\ ~ In WarnVacuumNotInitialized (snd result).
Proof.
  intros Hinv. cbv zeta.
  destruct (py_eq (_attr_error_code self) (PyStr "UNSUPPORTED_MODEL"))
    eqn:Hsupported.
  { rewrite (async_update_unsupported _ _ Hsupported). simpl.
    split; [intros _; exact Hsupported|]. split; [reflexivity | tauto]. }
  destruct (vacuum self) as [device|] eqn:Hvac;
    [|specialize (Hinv eq_refl); congruence].
  destruct (opt_truthy (_attr_ip_address self)) eqn:Hip.
  2:{ rewrite (async_update_no_address _ _ Hsupported Hip). simpl.
      rewrite Hvac. split; [discriminate|]. split; [tauto|].
      intros [Hin|[]]; discriminate Hin. }
  assert (Hpolls : polls self)
    by (repeat split; [assumption | assumption | congruence]).
  destruct p as [snapshot|]; simpl outcome_of.
  - rewrite (async_update_success_eq self device snapshot Hpolls Hvac).
    match goal with
    | |- context [update_entity_values ?s] => set (s0 := s)
    end.
    destruct (keeps_update_entity_values_frame
                (fun s => vacuum s = vacuum s0)
                (fun r => r <> WarnVacuumNotInitialized)
                ltac:(intros v s Hs; exact Hs) ltac:(intros v s Hs; exact Hs)
                ltac:(intros v s Hs; exact Hs) ltac:(intros v s Hs; exact Hs)
                ltac:(intros v s Hs; exact Hs) ltac:(intros v s Hs; exact Hs)
                ltac:(intros v s Hs; exact Hs) ltac:(intros v s Hs; exact Hs)
                ltac:(intros v s Hs; exact Hs) ltac:(intros v s Hs; exact Hs)
                ltac:(intros v s Hs; exact Hs) ltac:(intros v s Hs; exact Hs)
                ltac:(discriminate) ltac:(discriminate) ltac:(discriminate)
                ltac:(discriminate) ltac:(discriminate) s0 eq_refl)
      as (r & s' & log & E & Hvac' & Hquiet & _).
    rewrite E. cbn [fst snd]. rewrite Hvac'. subst s0. cbn [vacuum set_vacuum
      set_update_failures].
    split; [discriminate|]. split; [split; discriminate|].
    intros Hin. rewrite Forall_forall in Hquiet.
    apply list_elem_of_In in Hin. exact (Hquiet _ Hin eq_refl).
  - rewrite (async_update_failure_eq _ Hpolls). cbn [fst snd].
    destruct (UPDATE_RETRIES <=? update_failures self + 1);
      cbn [vacuum set_attr_error_code set_update_failures]; rewrite Hvac;
      (split; [discriminate|]); (split; [split; discriminate|]);
      simpl; intuition discriminate.
Qed.
End Reachability.

(** X17.  The branch of [async_update] for a missing device (warning
    "vacuum not initialized", error code ["INITIALIZATION_FAILED"]) is
    never taken by an entity that [__init__] built, under any sequence of
    polls: an entity without a device is unsupported and returns before it.
    Polls neither create nor drop the device. *)
Theorem initialization_failed_unreachable `{Environment} (item : ConfigItem)
    (history : list Poll) :
  let self := fst (RoboVacEntity_init item) in
  ~ In WarnVacuumNotInitialized (poll_log history self)
  /\ (vacuum (poll_all history self) = None <-> vacuum self = None).
Proof.
  cbv zeta.
  assert (Hall : forall history self,
    (vacuum self = None ->
     py_eq (_attr_error_code self) (PyStr "UNSUPPORTED_MODEL") = true) ->
    ~ In WarnVacuumNotInitialized (poll_log history self)
    /\ (vacuum (poll_all history self) = None <-> vacuum self = None)).
  { clear history. intros history.
    induction history as [|p history IH]; intros self Hinv.
    - simpl. tauto.
    - destruct (async_update_device_or_unsupported p self Hinv)
        as (Hinv' & Hsame & Hquiet).
      destruct (IH _ Hinv') as (Hrest & Hsame').
      cbn [poll_log]. unfold poll_all in *. cbn [fold_left]. split.
      + intros Hin. apply in_app_or in Hin. tauto.
      + rewrite Hsame'. exact Hsame. }
  apply Hall.
  unfold RoboVacEntity_init.
  destruct (RoboVac_init _); simpl; [discriminate | reflexivity].
Qed.

(** ** The command methods *)

Section CommandFacts.
Context `{Environment} `{HostCalls}.

(** Encoding a text for a command of the enumeration returns a text. *)
Lemma getRoboVacCommandValue_text device cmd (value : string) :
  exists text,
    getRoboVacCommandValue device (Member cmd) (PyStr value)
    = Ret (PyStr text).
Proof.
  unfold getRoboVacCommandValue, getRoboVacCommandValue_body. simpl.
  destruct (_get_command_values device cmd) as [values|]; simpl; [|eauto].
  destruct (dict_contains values (PyStr value)) eqn:Hcontains; simpl;
    [|eauto].
  destruct (dict_contains_getitem _ _ Hcontains) as [v ->]. simpl. eauto.
Qed.

Lemma send_text code device cmd value self :
  exists text,
    getRoboVacCommandValue device (Member cmd) (PyStr value)
    = Ret (PyStr text)
    /\ send code (getRoboVacCommandValue device (Member cmd) (PyStr value))
         self
       = (Ret tt, self, [AsyncSet {[code := PyStr text]}]).
Proof.
  destruct (getRoboVacCommandValue_text device cmd value) as [text Htext].
  exists text. rewrite Htext. split; reflexivity.
Qed.

Lemma send_same code value self : snd (fst (send code value self)) = self.
Proof. destruct value; reflexivity. Qed.

Lemma async_send_command_same command params self :
  snd (fst (async_send_command command params self)) = self.
Proof.
  unfold async_send_command, toggle, _get_mode_command_data.
  destruct (vacuum self) as [device|]; [|reflexivity].
  destruct (mode_commands command) as [mode|].
  - destruct (getRoboVacCommandValue _ _ _) as [v|x]; simpl; [|reflexivity].
    destruct (decide _); reflexivity.
  - repeat match goal with
           | |- context [if ?c then _ else _] => destruct c
           end; try apply send_same; try reflexivity.
    destruct params as [| |d]; try reflexivity.
    destruct (room_clean_envelope _ _ _); [|reflexivity].
    destruct (TuyaCodes "ROOM_CLEAN"); [apply send_same | reflexivity].
Qed.
End CommandFacts.

(** X18.  Without a device no command reaches the transport: every command
    method returns normally with one error record and no call of
    [async_set] or [async_disable], and leaves the entity as it was; only
    [async_start] has by then set the mode to ["auto"].  Removal makes no
    call either. *)
Theorem commands_need_device `{Environment} `{HostCalls}
    (self : RoboVacEntity) :
  vacuum self = None ->
  let refused (command : Command) :=
    exists action,
      command self = (Ret tt, self, [ErrorNotInitialized action]) in
  refused async_locate
  /\ refused async_return_to_base
  /\ refused async_pause
  /\ refused async_stop
  /\ refused async_clean_spot
  /\ (forall fan_speed, refused (async_set_fan_speed fan_speed))
  /\ (forall command params, refused (async_send_command command params))
  /\ async_start self
     = (Ret tt, set_attr_mode (PyStr "auto") self,
        [ErrorNotInitialized "start vacuum"])
  /\ async_will_remove_from_hass self = (Ret tt, self, []).
Proof.
  intros Hvac. cbv zeta.
  unfold async_locate, async_stop, async_return_to_base, async_pause,
    async_clean_spot, async_set_fan_speed, async_send_command, async_start,
    async_will_remove_from_hass.
  cbn [vacuum set_attr_mode]. rewrite Hvac.
  repeat split; intros; eexists; reflexivity.
Qed.

(** X18 on the entity of the unknown model ["T9999"]: starting it sends
    nothing. *)
Lemma commands_need_device_witness :
  let self :=
    fst (@RoboVacEntity_init ref_environment
           {| CONF_MODEL := Some "T9999";
              CONF_IP_ADDRESS := Some "192.168.1.100" |}) in
  snd (@async_start ref_environment self)
  = [ErrorNotInitialized "start vacuum"].
Proof.
  intros self.
  pose proof (@commands_need_device ref_environment sample_host self eq_refl)
    as Hrefused.
  cbv zeta in Hrefused.
  destruct Hrefused as (_ & _ & _ & _ & _ & _ & _ & Hstart & _).
  rewrite Hstart. reflexivity.
Defined.



Section ToggleFacts.
Context `{Environment} `{HostCalls}.

(** The three toggle commands, on an entity with a device. *)
Lemma async_send_command_toggle (self : RoboVacEntity) device params :
  vacuum self = Some device ->
  async_send_command "autoReturn" params self
  = toggle "AUTO_RETURN" (_attr_auto_return self) self
  /\ async_send_command "doNotDisturb" params self
     = toggle "DO_NOT_DISTURB" (_attr_do_not_disturb self) self
  /\ async_send_command "boostIQ" params self
     = toggle "BOOST_IQ" (_attr_boost_iq self) self.
Proof.
  intros Hvac. unfold async_send_command. rewrite Hvac.
  repeat split; reflexivity.
Qed.

(** The text that the statistics update caches for a Boolean is read back
    as that Boolean. *)
Lemma _is_value_true_cached (b : bool) :
  str_lower "False" <> "true" ->
  _is_value_true (attr_val (str_or_none (PyBool b))) = b.
Proof.
  intros Hlower. destruct b; [reflexivity|].
  simpl. apply String.eqb_neq in Hlower. rewrite Hlower. reflexivity.
Qed.
End ToggleFacts.

(** X20.  Update and toggle compose: after a statistics update from a
    snapshot that carries the cleaning time, a toggle command for auto
    return, do not disturb or boost IQ sets the data point of the toggle to
    the negation of the Boolean that the snapshot holds for it, provided
    lower-casing ["False"] does not give ["true"]. *)
Theorem toggle_after_update `{Environment} `{HostCalls}
    (self : RoboVacEntity) (snapshot : gmap string PyVal) :
  str_lower "False" <> "true" ->
  vacuum self <> None ->
  tuyastatus self = Some snapshot ->
  let read code_name := dps_get snapshot (_get_dps_code self code_name) in
  is_none (read "CLEANING_TIME") = false ->
  let self' := snd (fst (_update_cleaning_stats self)) in
  let toggles command code_name :=
    forall (b : bool) params,
      read code_name = PyBool b ->
      async_send_command command params self'
      = (Ret tt, self',
         [AsyncSet {[_get_dps_code self code_name := PyBool (negb b)]}]) in
  toggles "autoReturn" "AUTO_RETURN"
  /\ toggles "doNotDisturb" "DO_NOT_DISTURB"
  /\ toggles "boostIQ" "BOOST_IQ".
Proof.
  intros Hlower Hdevice Hsnap read Htime. cbv zeta.
  destruct (_update_cleaning_stats_cached self snapshot Hsnap)
    as (_ & Hvac & _ & Hfresh).
  destruct (Hfresh Htime) as (_ & Hreturn & Hdnd & Hboost).
  destruct (vacuum self) as [device|] eqn:Hsome; [|congruence].
  repeat split; intros b params Hread;
    destruct (async_send_command_toggle _ device params Hvac)
      as (Ereturn & Ednd & Eboost);
    rewrite ?Ereturn, ?Ednd, ?Eboost; unfold toggle, send;
    rewrite ?Hreturn, ?Hdnd, ?Hboost; fold (read "AUTO_RETURN");
    fold (read "DO_NOT_DISTURB"); fold (read "BOOST_IQ"); rewrite Hread;
    rewrite (_is_value_true_cached b Hlower);
    rewrite (_get_dps_code_vacuum self) by (rewrite Hvac, Hsome; reflexivity);
    reflexivity.
Qed.

(** X20 on a T2080 entity whose snapshot reports a cleaning time (code 6)
    and auto return on (code 135): the command switches it off. *)
Lemma toggle_after_update_witness :
  let snapshot : gmap string PyVal :=
    dict_display [("6", PyInt 10); ("135", PyBool true)] in
  let self :=
    set_tuyastatus (Some snapshot)
      (@T2080_entity_with ref_environment (PyStr "Standby") (PyInt 0)) in
  let self' := snd (fst (@_update_cleaning_stats ref_environment self)) in
  @async_send_command ref_environment sample_host "autoReturn" ParamsNone
    self'
  = (Ret tt, self', [AsyncSet {[ "135" := PyBool false ]}]).
Proof.
  intros snapshot self self'.
  assert (Hlower : @str_lower sample_host "False" <> "true")
    by (vm_compute; discriminate).
  assert (Hdevice : vacuum self <> None) by discriminate.
  exact (proj1 (@toggle_after_update ref_environment sample_host self
                  snapshot Hlower Hdevice eq_refl eq_refl)
           true ParamsNone eq_refl).
Defined.

Section RepeatedCommands.
Context `{Environment}.

(** A command other than [roomClean] does not read the clock: at two moments
    at which [str.lower] is the same function, it does the same. *)
Lemma async_send_command_moment (now later : HostCalls) command params self :
  (forall text, @str_lower later text = @str_lower now text) ->
  command <> "roomClean" ->
  @async_send_command _ later command params self
  = @async_send_command _ now command params self.
Proof.
  intros Hlower Hcommand.
  assert (Htrue : forall value,
    @_is_value_true later value = @_is_value_true now value).
  { intros [| | |text]; try reflexivity. simpl. rewrite Hlower. reflexivity. }
  unfold async_send_command, toggle.
  destruct (vacuum self) as [device|]; [|reflexivity].
  destruct (mode_commands command) as [mode|]; [reflexivity|].
  rewrite !Htrue.
  destruct (String.eqb command "autoReturn"); [reflexivity|].
  destruct (String.eqb command "doNotDisturb"); [reflexivity|].
  destruct (String.eqb command "boostIQ"); [reflexivity|].
  apply String.eqb_neq in Hcommand. rewrite Hcommand. reflexivity.
Qed.
End RepeatedCommands.

(** X21.  Commands do not touch the entity: whatever the device and the
    arguments, every command method but [async_start] leaves the entity
    exactly as it was when it reaches its call or returns without one, the
    cached toggles included.  So a command other than [roomClean], whose
    payload carries the time of the call, when given again at a later
    moment, before a poll or a push has refreshed the entity, reaches the
    same call with the same argument. *)
Theorem commands_leave_entity `{Environment} `{HostCalls}
    (self : RoboVacEntity) :
  let same (command : Command) := snd (fst (command self)) = self in
  same async_locate
  /\ same async_return_to_base
  /\ same async_pause
  /\ same async_stop
  /\ same async_clean_spot
  /\ (forall fan_speed, same (async_set_fan_speed fan_speed))
  /\ (forall command params, same (async_send_command command params))
  /\ same async_will_remove_from_hass
  /\ (forall (later : HostCalls) command params,
        (forall text, @str_lower later text = str_lower text) ->
        command <> "roomClean" ->
        @async_send_command _ later command params
          (snd (fst (async_send_command command params self)))
        = async_send_command command params self).
Proof.
  cbv zeta.
  unfold async_locate, async_stop, async_return_to_base, async_pause,
    async_clean_spot, async_set_fan_speed, async_will_remove_from_hass.
  repeat split; intros;
    try (destruct (vacuum self); first [reflexivity | apply send_same]).
  - apply async_send_command_same.
  - rewrite async_send_command_same.
    apply async_send_command_moment; assumption.
Qed.

(** X21 on a T2080 entity with auto return cached as ["True"]: the toggle
    given twice, the second time a second later, sets data point 135 to
    [False] both times. *)
Lemma commands_leave_entity_witness :
  let self :=
    set_attr_auto_return (Some "True")
      (@T2080_entity_with ref_environment (PyStr "Standby") (PyInt 0)) in
  let later : HostCalls := {|
    str_lower := ref_lower;
    time_ms := 1700000001000;
    room_clean_envelope := fun _ _ _ => Raise OtherException |} in
  let once :=
    @async_send_command ref_environment sample_host "autoReturn" ParamsNone
      self in
  once = (Ret tt, self, [AsyncSet {[ "135" := PyBool false ]}])
  /\ @async_send_command ref_environment later "autoReturn" ParamsNone
       (snd (fst once))
     = once.
Proof.
  intros self later once. split; [reflexivity|].
  apply (proj2 (proj2 (proj2 (proj2 (proj2 (proj2 (proj2 (proj2
    (@commands_leave_entity ref_environment sample_host self)))))))) later).
  - intros text. reflexivity.
  - discriminate.
Defined.

(** X22.  When the FAN_SPEED dict of the model maps the normal form of each
    fan speed (lower case, blanks as underscores) to the fan speed, as the
    T2080, T2193 and T2276 tables do, choosing a fan speed that
    [getFanSpeeds] offers sets the fan-speed data point to exactly that
    fan speed. *)
Theorem async_set_fan_speed_offered `{Environment} `{HostCalls}
    (self : RoboVacEntity) (device : RoboVac) (values : PyDict)
    (speed : string) :
  vacuum self = Some device ->
  _get_command_values device RobovacCommand.FAN_SPEED = Some values ->
  distinct_keys values = true ->
  Forall (fun entry => fst entry = PyStr (normalized (py_str (snd entry))))
    values ->
  In (PyStr speed) (getFanSpeeds device) ->
  async_set_fan_speed speed self
  = (Ret tt, self,
     [AsyncSet {[_get_dps_code self "FAN_SPEED" := PyStr speed]}]).
Proof.
  intros Hvac Hvalues Hdistinct Hshape Hoffered.
  unfold getFanSpeeds in Hoffered. rewrite Hvalues in Hoffered.
  apply in_map_iff in Hoffered as ([key value] & Hvalue & Hentry).
  simpl in Hvalue. subst value.
  assert (Hkey : key = PyStr (normalized speed)).
  { rewrite Forall_forall in Hshape.
    apply list_elem_of_In in Hentry. exact (Hshape _ Hentry). }
  assert (Hget : dict_get values (PyStr (normalized speed))
                 = Some (PyStr speed))
    by (rewrite <- Hkey; apply dict_get_entry; assumption).
  unfold async_set_fan_speed. rewrite Hvac.
  unfold getRoboVacCommandValue, getRoboVacCommandValue_body. simpl.
  rewrite Hvalues. unfold dict_contains, dict_getitem. fold (normalized speed).
  rewrite Hget. reflexivity.
Qed.

(** X22 on a new T2080 entity: choosing ["Turbo"] sets data point 158 to
    ["Turbo"]. *)
Lemma async_set_fan_speed_offered_witness :
  let self :=
    fst (@RoboVacEntity_init ref_environment
           {| CONF_MODEL := Some "T2080";
              CONF_IP_ADDRESS := Some "192.168.1.100" |}) in
  @async_set_fan_speed ref_environment sample_host "Turbo" self
  = (Ret tt, self, [AsyncSet {[ "158" := PyStr "Turbo" ]}]).
Proof.
  intros self.
  refine (@async_set_fan_speed_offered ref_environment sample_host self
            {| model_code := "T2080";
               model_details := T2080 (H := ref_features);
               _dps := Some ∅ |}
            _ "Turbo" eq_refl eq_refl eq_refl _ _).
  - repeat constructor.
  - vm_compute. tauto.
Defined.

(** ** What a new or just started entity shows *)

(** X23.  Until its first poll or push a new entity shows nothing: its
    activity is unknown whatever the model, it has no state attribute when
    the model is in the registry, and only the ["error"] attribute, with
    the message for ["UNSUPPORTED_MODEL"], when it is not. *)
Theorem new_entity_shows_nothing `{Environment} (item : ConfigItem) :
  let self := fst (RoboVacEntity_init item) in
  activity self = None
  /\ (ROBOVAC_MODELS (model_code_prefix item) <> None ->
      extra_state_attributes self = ∅)
  /\ (ROBOVAC_MODELS (model_code_prefix item) = None ->
      extra_state_attributes self
      = {[ "error" := lit_of_val (getErrorMessage (PyStr "UNSUPPORTED_MODEL")) ]}).
Proof.
  cbv zeta. unfold RoboVacEntity_init, RoboVac_init, model_code_prefix.
  destruct (ROBOVAC_MODELS _) as [details|];
    (split; [reflexivity|]); (split; [intros Hregistry | intros Hregistry]);
    try congruence.
  - unfold extra_state_attributes, add_if. cbn -[supports].
    rewrite !andb_false_r. reflexivity.
  - unfold extra_state_attributes, add_if. cbn. reflexivity.
Qed.

(** X23 on a new T2080 entity and on one of the unknown model ["T9999"]. *)
Lemma new_entity_shows_nothing_witness :
  @extra_state_attributes ref_environment
    (fst (@RoboVacEntity_init ref_environment
            {| CONF_MODEL := Some "T2080";
               CONF_IP_ADDRESS := Some "192.168.1.100" |}))
  = ∅
  /\ @extra_state_attributes ref_environment
       (fst (@RoboVacEntity_init ref_environment
               {| CONF_MODEL := Some "T9999";
                  CONF_IP_ADDRESS := Some "192.168.1.100" |}))
     = {[ "error" := LStr "UNSUPPORTED_MODEL" ]}.
Proof.
  split.
  - apply (proj1 (proj2 (@new_entity_shows_nothing ref_environment
                           {| CONF_MODEL := Some "T2080";
                              CONF_IP_ADDRESS := Some "192.168.1.100" |}))).
    discriminate.
  - apply (proj2 (proj2 (@new_entity_shows_nothing ref_environment
                           {| CONF_MODEL := Some "T9999";
                              CONF_IP_ADDRESS := Some "192.168.1.100" |}))).
    reflexivity.
Defined.

(** X24.  [async_start] is optimistic: whether the command is sent or
    refused for want of a device, the entity holds the mode ["auto"]
    afterwards and reports it as its ["mode"] attribute, until a later
    recomputation replaces it. *)
Theorem async_start_shows_auto `{Environment} `{HostCalls}
    (self : RoboVacEntity) :
  let self' := snd (fst (async_start self)) in
  self' = set_attr_mode (PyStr "auto") self
  /\ extra_state_attributes self' !! "mode" = Some (LStr "auto").
Proof.
  cbv zeta.
  assert (Hafter : snd (fst (async_start self))
                   = set_attr_mode (PyStr "auto") self).
  { unfold async_start. cbn [vacuum set_attr_mode].
    destruct (vacuum self); [apply send_same | reflexivity]. }
  rewrite Hafter. split; [reflexivity|].
  rewrite extra_state_attributes_lookup. reflexivity.
Qed.

(** ** The consumables codes *)

Section ConsumablesCodes.
Context `{Environment}.

Lemma split_commas_plain (l cur : list ascii) :
  Forall (fun c => (code_of c =? 44) = false) l ->
  split_commas l cur = [(rev cur ++ l)%list].
Proof.
  revert cur. induction l as [|c l IH]; intros cur Hplain.
  - simpl. rewrite app_nil_r. reflexivity.
  - apply Forall_cons in Hplain as [Hc Hplain].
    simpl. rewrite Hc, (IH _ Hplain). simpl.
    rewrite <- app_assoc. reflexivity.
Qed.

Lemma drop_blanks_plain (l : list ascii) :
  Forall (fun c => is_blank c = false) l -> drop_blanks l = l.
Proof. destruct l as [|c l]; [reflexivity|]. intros Hplain.
  apply Forall_cons in Hplain as [Hc _]. simpl. rewrite Hc. reflexivity.
Qed.

Lemma strip_plain (l : list ascii) :
  Forall (fun c => is_blank c = false) l -> strip l = l.
Proof.
  intros Hplain. unfold strip.
  rewrite (drop_blanks_plain l Hplain).
  rewrite drop_blanks_plain by (apply Forall_rev; exact Hplain).
  apply rev_involutive.
Qed.
End ConsumablesCodes.

(** X25.  Which consumables data points an entity reads: the default codes
    when it has no device or when no command of the model's table declares a
    code under CONSUMABLES (as in the five tables at hand); and, when the
    table (with distinct keys) declares one, the comma-separated fields of
    that code and none of the defaults: exactly the code itself when it has
    no comma and no blank. *)
Theorem _get_consumables_codes_resolution `{Environment}
    (self : RoboVacEntity) :
  (vacuum self = None -> _get_consumables_codes self = TUYA_CONSUMABLES_CODES)
  /\ (forall device,
        vacuum self = Some device ->
        (forall entry,
           In (RobovacCommand.CONSUMABLES, entry)
             (commands (model_details device)) ->
           declared_code entry = None) ->
        _get_consumables_codes self = TUYA_CONSUMABLES_CODES)
  /\ (forall device entry code,
        vacuum self = Some device ->
        NoDup (map fst (commands (model_details device))) ->
        In (RobovacCommand.CONSUMABLES, entry)
          (commands (model_details device)) ->
        declared_code entry = Some code ->
        _get_consumables_codes self
        = map (fun field => string_of_list_ascii (strip field))
            (split_commas (list_ascii_of_string code) [])
        /\ (Forall (fun c => (code_of c =? 44) = false /\ is_blank c = false)
              (list_ascii_of_string code) ->
            _get_consumables_codes self = [code])).
Proof.
  unfold _get_consumables_codes. split; [|split].
  - intros ->. reflexivity.
  - intros device Hvac Hnone. rewrite Hvac.
    unfold getDpsCodes. rewrite getDpsCodes_fold_other; [reflexivity|].
    intros cmd entry Hin Hdeclared Hname.
    change "CONSUMABLES" with (dps_name RobovacCommand.CONSUMABLES) in Hname.
    apply dps_name_inj in Hname as ->. exact (Hdeclared (Hnone _ Hin)).
  - intros device entry code Hvac Hnodup Hin Hdeclared. rewrite Hvac.
    change "CONSUMABLES" with (dps_name RobovacCommand.CONSUMABLES).
    unfold getDpsCodes.
    rewrite (getDpsCodes_fold_declared _ _ _ _ _ Hnodup Hin Hdeclared).
    split; [reflexivity|].
    intros Hplain.
    rewrite split_commas_plain
      by (eapply Forall_impl; [exact Hplain | intros c [Hc _]; exact Hc]).
    cbn [map rev app].
    rewrite strip_plain
      by (eapply Forall_impl; [exact Hplain | intros c [_ Hc]; exact Hc]).
    rewrite string_of_list_ascii_of_string. reflexivity.
Qed.

(** X25 on a new T2080 entity, whose table declares no consumables code,
    and on the same entity with a table that declares the code 142. *)
Lemma _get_consumables_codes_resolution_witness :
  let self :=
    fst (@RoboVacEntity_init ref_environment
           {| CONF_MODEL := Some "T2080";
              CONF_IP_ADDRESS := Some "192.168.1.100" |}) in
  let details := {|
    robovac_features := robovac_features (T2080 (H := ref_features));
    commands := [(RobovacCommand.CONSUMABLES,
                  EntryDict (Some (PyInt 142)) None)];
    activity_mapping := None |} in
  let device :=
    {| model_code := "T2080"; model_details := details; _dps := Some ∅ |} in
  @_get_consumables_codes ref_environment self = ["142"; "116"]
  /\ @_get_consumables_codes ref_environment (set_vacuum (Some device) self)
     = ["142"].
Proof.
  intros self details device. split.
  - refine (proj1 (proj2
      (@_get_consumables_codes_resolution ref_environment self))
      _ eq_refl _).
    intros entry Hin. vm_compute in Hin.
    repeat (destruct Hin as [Hin|Hin]; [discriminate Hin|]). destruct Hin.
  - refine (proj2 (proj2 (proj2
      (@_get_consumables_codes_resolution ref_environment
         (set_vacuum (Some device) self)))
      device (EntryDict (Some (PyInt 142)) None) "142" eq_refl _ _ eq_refl) _).
    + repeat constructor. intros Hin. inversion Hin.
    + left. reflexivity.
    + repeat constructor.
Defined.
